(** * nats-auth-operator: credential hierarchy reconciliation

    A shallow embedding of the Go packages [internal/jwt], [internal/token],
    [internal/authconf], [internal/resolver] and [internal/controller],
    and the properties of the credential hierarchy proved over it.

    Conventions of the embedding.
    - Go [string] and [[]byte] are both byte sequences and are both modelled
      by [string]; the conversions [string(b)] and [[]byte(s)] are the
      identity, a [nil] slice is the empty string.
    - A Go function returning [(T, error)] returns [result T].
    - A Go function that mutates an object it got by pointer returns the
      mutated object next to its result.
    - The Kubernetes client is a key/value store inside [World]; controller
      code runs in the state-and-error monad [M] over [World].
    - Code of other repositories (nkeys, nats-io/jwt, crypto/rand, fmt,
      encoding/base64, time) is a field of the class [Platform]. *)

From Stdlib Require Import String Ascii ZArith List.
From stdpp Require Import base option list gmap strings.

Local Open Scope string_scope.
Local Open Scope Z_scope.

(** ** Errors and results *)

Inductive error : Type :=
| ErrNotFound                                 (* errors.IsNotFound(err) *)
| ErrAlreadyExists                            (* errors.IsAlreadyExists(err) *)
| ErrLib (msg : string)                       (* an error made by a library *)
| Errorf (msg : string)                       (* fmt.Errorf(msg) *)
| Wrapf (msg : string) (cause : error)        (* fmt.Errorf(msg + ": %w", cause) *)
| Panic (msg : string).                       (* a run-time panic *)

Inductive result (A : Type) : Type :=
| Ok (a : A)
| Err (e : error).
Arguments Ok {A} a.
Arguments Err {A} e.

Definition isOk {A} (r : result A) : bool :=
  match r with Ok _ => true | Err _ => false end.

Definition IsNotFound (e : error) : bool :=
  match e with ErrNotFound => true | _ => false end.

Definition IsAlreadyExists (e : error) : bool :=
  match e with ErrAlreadyExists => true | _ => false end.

(** Go's [len(s) > 0] on a string or byte slice. *)
Definition nonEmpty (s : string) : bool := negb (String.eqb s "").

(** ** api/v1alpha1: the declared-state schema *)

Record SecretRef := {
  SecretRef_Name : string;
  SecretRef_Namespace : string }.

Record NatsAuthConfigRef := {
  NatsAuthConfigRef_Name : string;
  NatsAuthConfigRef_Namespace : string }.

Record NatsAccountRef := {
  NatsAccountRef_Name : string;
  NatsAccountRef_Namespace : string }.

Record JetStreamLimits := {
  MemoryStorage : Z;
  DiskStorage : Z;
  Streams : Z;
  Consumer : Z;
  MaxAckPending : Z;
  MemoryMaxStreamBytes : Z;
  DiskMaxStreamBytes : Z;
  MaxBytesRequired : bool }.

Record AccountLimits := {
  Conn : Z;
  Subs : Z;
  Payload : Z;
  Data : Z;
  Exports : Z;
  Imports : Z;
  WildcardExports : bool;
  JetStream : option JetStreamLimits }.

Record Permissions := {
  PublishAllow : list string;
  PublishDeny : list string;
  SubscribeAllow : list string;
  SubscribeDeny : list string }.

Record PasswordSource := {
  Generate : bool;
  PasswordSource_SecretRef : option SecretRef }.

Inductive AuthMode := AuthModeToken | AuthModeJWT | AuthModeMixed.

Inductive UserAuthType := UserAuthTypeToken | UserAuthTypeJWT | UserAuthTypeInherit.

Record ServerAuthConfigRef := {
  ServerAuthConfig_Name : string;
  ServerAuthConfig_Namespace : string;
  ServerAuthConfig_Key : string;
  ServerAuthConfig_Type : string }.

Record OperatorSeedSecretRef := {
  OperatorSeedSecret_Name : string;
  OperatorSeedSecret_Namespace : string;
  OperatorSeedSecret_Key : string }.

Record JWTConfig := {
  ResolverDir : string;
  OperatorSeedSecret : option OperatorSeedSecretRef;
  OperatorName : string }.

Record NatsAuthConfigSpec := {
  NatsURL : string;
  Mode : AuthMode;
  ServerAuthConfig : ServerAuthConfigRef;
  JWT : option JWTConfig }.

Record NatsAuthConfigStatus := {
  OperatorPubKey : string;
  ResolverReady : bool }.

Record NatsAuthConfig := {
  AuthConfig_Name : string;
  AuthConfig_Namespace : string;
  AuthConfig_Annotations : gmap string string;
  AuthConfig_Spec : NatsAuthConfigSpec;
  AuthConfig_Status : NatsAuthConfigStatus }.

Record NatsAccountSpec := {
  Account_AuthConfigRef : NatsAuthConfigRef;
  Description : string;
  Limits : option AccountLimits;
  Account_ExistingSeedSecret : option SecretRef }.

Record NatsAccountStatus := {
  AccountID : string;
  Account_PublicKey : string;
  JWTSecretRef : SecretRef }.

Record NatsAccount := {
  Account_Name : string;
  Account_Namespace : string;
  Account_Spec : NatsAccountSpec;
  Account_Status : NatsAccountStatus }.

Record NatsUserSpec := {
  User_AuthConfigRef : NatsAuthConfigRef;
  AuthType : UserAuthType;
  AccountRef : option NatsAccountRef;
  Username : string;
  PasswordFrom : option PasswordSource;
  User_Permissions : option Permissions;
  User_ExistingSeedSecret : option SecretRef }.

Record NatsUserStatus := {
  User_SecretRef : SecretRef;
  User_PublicKey : string }.

Record NatsUser := {
  User_Name : string;
  User_Namespace : string;
  User_Spec : NatsUserSpec;
  User_Status : NatsUserStatus }.

(** ** The types of nkeys and nats-io/jwt that the repository uses *)

(** [nkeys.KeyPair] is an interface; the repository calls its methods
    [PublicKey()] and [Seed()] and hands it to [Encode]. *)
Record KeyPair := {
  kp_PublicKey : result string;
  kp_Seed : result string }.

Inductive PrefixByte := PrefixByteOperator | PrefixByteAccount | PrefixByteUser.

(** [jwt.OperatorLimits], the fields that [CreateAccountClaims] assigns. *)
Record OperatorLimits := {
  l_Conn : Z;
  l_Subs : Z;
  l_Payload : Z;
  l_Data : Z;
  l_Exports : Z;
  l_Imports : Z;
  l_WildcardExports : bool;
  l_MemoryStorage : Z;
  l_DiskStorage : Z;
  l_Streams : Z;
  l_Consumer : Z;
  l_MaxAckPending : Z;
  l_MemoryMaxStreamBytes : Z;
  l_DiskMaxStreamBytes : Z;
  l_MaxBytesRequired : bool }.

Record OperatorClaims := {
  oc_Subject : string;
  oc_Name : string;
  oc_Issuer : string;
  oc_IssuedAt : Z }.

Record AccountClaims := {
  ac_Subject : string;
  ac_Name : string;
  ac_Description : string;
  ac_Issuer : string;
  ac_IssuedAt : Z;
  ac_Limits : OperatorLimits }.

Record UserClaims := {
  uc_Subject : string;
  uc_Name : string;
  uc_Issuer : string;
  uc_IssuedAt : Z;
  uc_PubAllow : list string;
  uc_PubDeny : list string;
  uc_SubAllow : list string;
  uc_SubDeny : list string }.

(** [jwt.Claims]: what [Encode] is a method of. *)
Inductive Claims :=
| OperatorC (c : OperatorClaims)
| AccountC (c : AccountClaims)
| UserC (c : UserClaims).

Definition claims_Issuer (c : Claims) : string :=
  match c with
  | OperatorC c => oc_Issuer c
  | AccountC c => ac_Issuer c
  | UserC c => uc_Issuer c
  end.

(** ** The libraries the repository is linked against *)

Class Platform := {
  (** the state of [crypto/rand] *)
  Rng : Type;
  (** [nkeys.FromSeed] *)
  nkeys_FromSeed : string -> result KeyPair;
  (** [nkeys.CreatePair], behind [CreateOperator], [CreateAccount], [CreateUser] *)
  nkeys_CreatePair : PrefixByte -> Rng -> result KeyPair * Rng;
  (** [jwt.NewOperatorClaims], [jwt.NewAccountClaims], [jwt.NewUserClaims] *)
  jwt_NewOperatorClaims : string -> OperatorClaims;
  jwt_NewAccountClaims : string -> AccountClaims;
  jwt_NewUserClaims : string -> UserClaims;
  (** [jwt.StringList.Add]: the list, then the subjects to add *)
  StringList_Add : list string -> list string -> list string;
  (** [claims.Encode(kp)] *)
  jwt_Encode : Claims -> KeyPair -> result string;
  (** [rand.Read] filling a buffer of the given length *)
  rand_Read : nat -> Rng -> result string * Rng;
  (** [base64.URLEncoding.EncodeToString] *)
  base64_URLEncode : string -> string;
  (** [fmt.Sprintf("%q", s)] *)
  strconv_Quote : string -> string;
  (** [t.Format(time.RFC3339)] of a Unix time *)
  time_FormatRFC3339 : Z -> string }.

(** ** internal/jwt *)

Section Jwt.
Context `{P : Platform}.

Record OperatorManager := {
  operatorKP : KeyPair;
  operatorJWT : string }.

Record AccountManager := { accountKP : KeyPair }.

Record UserManager := { userKP : KeyPair }.

Definition set_oc_Name (v : string) (c : OperatorClaims) : OperatorClaims :=
  {| oc_Subject := oc_Subject c; oc_Name := v; oc_Issuer := oc_Issuer c;
     oc_IssuedAt := oc_IssuedAt c |}.

Definition set_oc_Issuer (v : string) (c : OperatorClaims) : OperatorClaims :=
  {| oc_Subject := oc_Subject c; oc_Name := oc_Name c; oc_Issuer := v;
     oc_IssuedAt := oc_IssuedAt c |}.

Definition set_oc_IssuedAt (v : Z) (c : OperatorClaims) : OperatorClaims :=
  {| oc_Subject := oc_Subject c; oc_Name := oc_Name c; oc_Issuer := oc_Issuer c;
     oc_IssuedAt := v |}.

Definition set_ac_Issuer (v : string) (c : AccountClaims) : AccountClaims :=
  {| ac_Subject := ac_Subject c; ac_Name := ac_Name c;
     ac_Description := ac_Description c; ac_Issuer := v;
     ac_IssuedAt := ac_IssuedAt c; ac_Limits := ac_Limits c |}.

Definition set_uc_Issuer (v : string) (c : UserClaims) : UserClaims :=
  {| uc_Subject := uc_Subject c; uc_Name := uc_Name c; uc_Issuer := v;
     uc_IssuedAt := uc_IssuedAt c; uc_PubAllow := uc_PubAllow c;
     uc_PubDeny := uc_PubDeny c; uc_SubAllow := uc_SubAllow c;
     uc_SubDeny := uc_SubDeny c |}.

(** [NewOperatorManager(seed, operatorName)]; [now] is [time.Now().Unix()]. *)
Definition NewOperatorManager (seed : string) (operatorName : string) (now : Z)
    (rng : Rng) : result OperatorManager * Rng :=
  let '(kpr, rng) :=
    if nonEmpty seed then
      match nkeys_FromSeed seed with
      | Err e => (Err (Wrapf "failed to create keypair from seed" e), rng)
      | Ok kp => (Ok kp, rng)
      end
    else
      match nkeys_CreatePair PrefixByteOperator rng with
      | (Err e, rng) => (Err (Wrapf "failed to create operator keypair" e), rng)
      | (Ok kp, rng) => (Ok kp, rng)
      end in
  match kpr with
  | Err e => (Err e, rng)
  | Ok kp =>
    match kp_PublicKey kp with
    | Err e => (Err (Wrapf "failed to get public key" e), rng)
    | Ok pubKey =>
      let claims := jwt_NewOperatorClaims pubKey in
      let claims := set_oc_Name operatorName claims in
      let claims := set_oc_Issuer pubKey claims in
      let claims := set_oc_IssuedAt now claims in
      match jwt_Encode (OperatorC claims) kp with
      | Err e => (Err (Wrapf "failed to encode operator JWT" e), rng)
      | Ok jwt => (Ok {| operatorKP := kp; operatorJWT := jwt |}, rng)
      end
    end
  end.

Definition OperatorManager_GetPublicKey (om : OperatorManager) : result string :=
  kp_PublicKey (operatorKP om).

Definition OperatorManager_GetSeed (om : OperatorManager) : result string :=
  kp_Seed (operatorKP om).

Definition OperatorManager_GetJWT (om : OperatorManager) : string :=
  operatorJWT om.

(** [SignAccountJWT] writes the issuer through the pointer it was given:
    the claims as the caller sees them afterwards are returned as well. *)
Definition OperatorManager_SignAccountJWT (om : OperatorManager)
    (accountClaims : AccountClaims) : AccountClaims * result string :=
  match kp_PublicKey (operatorKP om) with
  | Err e => (accountClaims, Err (Wrapf "failed to get operator public key" e))
  | Ok pubKey =>
    let accountClaims := set_ac_Issuer pubKey accountClaims in
    match jwt_Encode (AccountC accountClaims) (operatorKP om) with
    | Err e => (accountClaims, Err (Wrapf "failed to encode account JWT" e))
    | Ok token => (accountClaims, Ok token)
    end
  end.

Definition NewAccountManager (seed : string) (rng : Rng)
    : result AccountManager * Rng :=
  if nonEmpty seed then
    match nkeys_FromSeed seed with
    | Err e => (Err (Wrapf "failed to create keypair from seed" e), rng)
    | Ok kp => (Ok {| accountKP := kp |}, rng)
    end
  else
    match nkeys_CreatePair PrefixByteAccount rng with
    | (Err e, rng) => (Err (Wrapf "failed to create account keypair" e), rng)
    | (Ok kp, rng) => (Ok {| accountKP := kp |}, rng)
    end.

Definition AccountManager_GetPublicKey (am : AccountManager) : result string :=
  kp_PublicKey (accountKP am).

Definition AccountManager_GetSeed (am : AccountManager) : result string :=
  kp_Seed (accountKP am).

Definition applyJetStream (js : JetStreamLimits) (l : OperatorLimits) : OperatorLimits :=
  {| l_Conn := l_Conn l; l_Subs := l_Subs l; l_Payload := l_Payload l;
     l_Data := l_Data l; l_Exports := l_Exports l; l_Imports := l_Imports l;
     l_WildcardExports := l_WildcardExports l;
     l_MemoryStorage := MemoryStorage js;
     l_DiskStorage := DiskStorage js;
     l_Streams := Streams js;
     l_Consumer := Consumer js;
     l_MaxAckPending := MaxAckPending js;
     l_MemoryMaxStreamBytes := MemoryMaxStreamBytes js;
     l_DiskMaxStreamBytes := DiskMaxStreamBytes js;
     l_MaxBytesRequired := MaxBytesRequired js |}.

Definition applyLimits (limits : AccountLimits) (l : OperatorLimits) : OperatorLimits :=
  let l :=
    {| l_Conn := Conn limits; l_Subs := Subs limits; l_Payload := Payload limits;
       l_Data := Data limits; l_Exports := Exports limits;
       l_Imports := Imports limits;
       l_WildcardExports := WildcardExports limits;
       l_MemoryStorage := l_MemoryStorage l;
       l_DiskStorage := l_DiskStorage l;
       l_Streams := l_Streams l;
       l_Consumer := l_Consumer l;
       l_MaxAckPending := l_MaxAckPending l;
       l_MemoryMaxStreamBytes := l_MemoryMaxStreamBytes l;
       l_DiskMaxStreamBytes := l_DiskMaxStreamBytes l;
       l_MaxBytesRequired := l_MaxBytesRequired l |} in
  match JetStream limits with
  | Some js => applyJetStream js l
  | None => l
  end.

Definition AccountManager_CreateAccountClaims (am : AccountManager)
    (name description : string) (limits : option AccountLimits) (now : Z)
    : result AccountClaims :=
  match kp_PublicKey (accountKP am) with
  | Err e => Err (Wrapf "failed to get public key" e)
  | Ok pubKey =>
    let claims := jwt_NewAccountClaims pubKey in
    Ok {| ac_Subject := ac_Subject claims;
          ac_Name := name;
          ac_Description := description;
          ac_Issuer := ac_Issuer claims;
          ac_IssuedAt := now;
          ac_Limits := match limits with
                       | Some limits => applyLimits limits (ac_Limits claims)
                       | None => ac_Limits claims
                       end |}
  end.

(** [SignUserJWT], with the claims as the caller sees them afterwards. *)
Definition AccountManager_SignUserJWT (am : AccountManager)
    (userClaims : UserClaims) : UserClaims * result string :=
  match kp_PublicKey (accountKP am) with
  | Err e => (userClaims, Err (Wrapf "failed to get account public key" e))
  | Ok pubKey =>
    let userClaims := set_uc_Issuer pubKey userClaims in
    match jwt_Encode (UserC userClaims) (accountKP am) with
    | Err e => (userClaims, Err (Wrapf "failed to encode user JWT" e))
    | Ok token => (userClaims, Ok token)
    end
  end.

Definition NewUserManager (seed : string) (rng : Rng)
    : result UserManager * Rng :=
  if nonEmpty seed then
    match nkeys_FromSeed seed with
    | Err e => (Err (Wrapf "failed to create keypair from seed" e), rng)
    | Ok kp => (Ok {| userKP := kp |}, rng)
    end
  else
    match nkeys_CreatePair PrefixByteUser rng with
    | (Err e, rng) => (Err (Wrapf "failed to create user keypair" e), rng)
    | (Ok kp, rng) => (Ok {| userKP := kp |}, rng)
    end.

Definition UserManager_GetPublicKey (um : UserManager) : result string :=
  kp_PublicKey (userKP um).

Definition UserManager_GetSeed (um : UserManager) : result string :=
  kp_Seed (userKP um).

(** [claims.Pub.Allow.Add(subjects...)] guarded by [len(subjects) > 0]. *)
Definition addIfAny (subjects : list string) (l : list string) : list string :=
  match subjects with
  | [] => l
  | _ :: _ => StringList_Add l subjects
  end.

Definition UserManager_CreateUserClaims (um : UserManager) (name : string)
    (permissions : option Permissions) (now : Z) : result UserClaims :=
  match kp_PublicKey (userKP um) with
  | Err e => Err (Wrapf "failed to get public key" e)
  | Ok pubKey =>
    let claims := jwt_NewUserClaims pubKey in
    Ok match permissions with
       | None =>
         {| uc_Subject := uc_Subject claims; uc_Name := name;
            uc_Issuer := uc_Issuer claims; uc_IssuedAt := now;
            uc_PubAllow := uc_PubAllow claims; uc_PubDeny := uc_PubDeny claims;
            uc_SubAllow := uc_SubAllow claims; uc_SubDeny := uc_SubDeny claims |}
       | Some permissions =>
         {| uc_Subject := uc_Subject claims; uc_Name := name;
            uc_Issuer := uc_Issuer claims; uc_IssuedAt := now;
            uc_PubAllow := addIfAny (PublishAllow permissions) (uc_PubAllow claims);
            uc_PubDeny := addIfAny (PublishDeny permissions) (uc_PubDeny claims);
            uc_SubAllow := addIfAny (SubscribeAllow permissions) (uc_SubAllow claims);
            uc_SubDeny := addIfAny (SubscribeDeny permissions) (uc_SubDeny claims) |}
       end
  end.

Definition newline : string := String (ascii_of_nat 10) EmptyString.

(** [GenerateCredsFile(userJWT, userSeed)]: the raw string literal with its
    two [%s] filled in. *)
Definition GenerateCredsFile (userJWT : string) (userSeed : string) : string :=
  "-----BEGIN NATS USER JWT-----" +:+ newline +:+
  userJWT +:+ newline +:+
  "------END NATS USER JWT------" +:+ newline +:+
  newline +:+
  "************************* IMPORTANT *************************" +:+ newline +:+
  "NKEY Seed printed below can be used to sign and prove identity." +:+ newline +:+
  "NKEYs are sensitive and should be treated as secrets." +:+ newline +:+
  newline +:+
  "-----BEGIN USER NKEY SEED-----" +:+ newline +:+
  userSeed +:+ newline +:+
  "------END USER NKEY SEED------" +:+ newline +:+
  newline +:+
  "*************************************************************" +:+ newline.

End Jwt.

(** ** internal/token *)

Section Token.
Context `{P : Platform}.

Definition GenerateToken (length : Z) (rng : Rng) : result string * Rng :=
  let length := if length <=? 0 then 32 else length in
  match rand_Read (Z.to_nat length) rng with
  | (Err e, rng) => (Err (Wrapf "failed to generate random token" e), rng)
  | (Ok b, rng) => (Ok (base64_URLEncode b), rng)
  end.

Definition GeneratePassword (rng : Rng) : result string * Rng :=
  GenerateToken 24 rng.

(** [token[:12]] panics when the token is shorter than 12 bytes. *)
Definition GenerateUsername (prefix : string) (rng : Rng) : result string * Rng :=
  match GenerateToken 8 rng with
  | (Err e, rng) => (Err e, rng)
  | (Ok token, rng) =>
    let prefix := if nonEmpty prefix then prefix else "user" in
    if (12 <=? String.length token)%nat
    then (Ok (prefix +:+ "-" +:+ substring 0 12 token), rng)
    else (Err (Panic "slice bounds out of range"), rng)
  end.

End Token.

(** ** internal/authconf *)

Section Authconf.
Context `{P : Platform}.

Record TokenUser := {
  TokenUser_Username : string;
  TokenUser_Password : string;
  TokenUser_Token : string;
  TokenUser_Permissions : option Permissions }.

Record AccountJWT := {
  AccountName : string;
  AccountJWT_AccountID : string;
  AccountJWT_JWT : string }.

(** [strings.Join(elems, sep)] *)
Fixpoint Join (elems : list string) (sep : string) : string :=
  match elems with
  | [] => ""
  | [s] => s
  | s :: rest => s +:+ sep +:+ Join rest sep
  end.

Definition dquote : string := String (ascii_of_nat 34) EmptyString.

(** One [sb.WriteString(s + "\n")]. *)
Definition line (s : string) : string := s +:+ newline.

Definition formatSubjectList (subjects : list string) : string :=
  match subjects with
  | [s] => strconv_Quote s
  | _ => "[" +:+ Join (map strconv_Quote subjects) ", " +:+ "]"
  end.

Definition hasAny (l : list string) : bool :=
  match l with [] => false | _ :: _ => true end.

(** The [allow:]/[deny:] lines of one [publish] or [subscribe] block. *)
Definition writeAllowDeny (name : string) (allow deny : list string) : string :=
  if hasAny allow || hasAny deny then
    line ("        " +:+ name +:+ ": {") +:+
    (if hasAny allow
     then line ("          allow: " +:+ formatSubjectList allow) else "") +:+
    (if hasAny deny
     then line ("          deny: " +:+ formatSubjectList deny) else "") +:+
    line "        }"
  else "".

(** What the body of the loop of [RenderTokenAuthConf] writes between the
    opening and the closing brace of one user. *)
Definition writeUserFields (user : TokenUser) : string :=
  (if nonEmpty (TokenUser_Username user)
   then line ("      user: " +:+ strconv_Quote (TokenUser_Username user)) else "") +:+
  (if nonEmpty (TokenUser_Token user)
   then line ("      token: " +:+ strconv_Quote (TokenUser_Token user))
   else if nonEmpty (TokenUser_Password user)
   then line ("      password: " +:+ strconv_Quote (TokenUser_Password user))
   else "") +:+
  match TokenUser_Permissions user with
  | Some perms =>
    line "      permissions: {" +:+
    writeAllowDeny "publish" (PublishAllow perms) (PublishDeny perms) +:+
    writeAllowDeny "subscribe" (SubscribeAllow perms) (SubscribeDeny perms) +:+
    line "      }"
  | None => ""
  end.

(** The separator after entry [i] of [n]: [if i < len(xs)-1 { "," }]. *)
Definition comma (i n : nat) : string :=
  if (i <? n - 1)%nat then "," else "".

(** One iteration of the loop of [RenderTokenAuthConf]. *)
Definition writeUser (n : nat) (i : nat) (user : TokenUser) : string :=
  line "    {" +:+ writeUserFields user +:+ "    }" +:+ comma i n +:+ newline.

(** [for i, x := range xs { sb.WriteString(body i x) }], from index [i]. *)
Fixpoint rangeWrite {A} (body : nat -> A -> string) (sb : string) (i : nat)
    (xs : list A) : string :=
  match xs with
  | [] => sb
  | x :: xs => rangeWrite body (sb +:+ body i x) (S i) xs
  end.

Definition RenderTokenAuthConf (users : list TokenUser) : string :=
  match users with
  | [] => ""
  | _ :: _ =>
    let sb := "" in
    let sb := sb +:+ line "authorization {" in
    let sb := sb +:+ line "  users = [" in
    let sb := rangeWrite (writeUser (length users)) sb 0 users in
    let sb := sb +:+ line "  ]" in
    let sb := sb +:+ line "}" in
    sb
  end.

Definition RenderJWTAuthConf (operatorJWT resolverDir : string) : string :=
  let sb := "" in
  let sb := sb +:+ "operator: " in
  let sb := sb +:+ operatorJWT in
  let sb := sb +:+ newline +:+ newline in
  let sb := sb +:+
    (line "resolver: {" +:+
     line "  type: full" +:+
     line ("  dir: " +:+ strconv_Quote resolverDir) +:+
     line "  allow_delete: false" +:+
     line ("  interval: " +:+ dquote +:+ "2m" +:+ dquote) +:+
     line "}") in
  sb.

(** [fmt.Sprintf("  %q: %q", acc.AccountID, acc.JWT)] *)
Definition preloadBinding (acc : AccountJWT) : string :=
  "  " +:+ strconv_Quote (AccountJWT_AccountID acc) +:+ ": " +:+
  strconv_Quote (AccountJWT_JWT acc).

(** One iteration of the loop of [RenderJWTAuthConfWithPreload]. *)
Definition writePreload (n : nat) (i : nat) (acc : AccountJWT) : string :=
  preloadBinding acc +:+ comma i n +:+ newline.

Definition RenderJWTAuthConfWithPreload (operatorJWT : string)
    (accounts : list AccountJWT) : string :=
  let sb := "" in
  let sb := sb +:+ "operator: " in
  let sb := sb +:+ operatorJWT in
  let sb := sb +:+ newline +:+ newline in
  match accounts with
  | [] => sb
  | _ :: _ =>
    let sb := sb +:+ line "resolver_preload: {" in
    let sb := rangeWrite (writePreload (length accounts)) sb 0 accounts in
    let sb := sb +:+ line "}" in
    sb
  end.

Definition RenderMixedAuthConf (operatorJWT resolverDir : string)
    (tokenUsers : list TokenUser) : string :=
  let sb := "" in
  let sb := sb +:+ RenderJWTAuthConf operatorJWT resolverDir in
  let sb := sb +:+ newline in
  let sb := sb +:+ RenderTokenAuthConf tokenUsers in
  sb.

End Authconf.

(** ** The Kubernetes objects and the client *)

(** Namespace and name, as in [client.ObjectKey]. *)
Abbreviation ObjectKey := (string * string)%type (only parsing).

Record OwnerReference := {
  OwnerReference_Kind : string;
  OwnerReference_Name : string }.

Record Secret := {
  Secret_Name : string;
  Secret_Namespace : string;
  Secret_OwnerReferences : list OwnerReference;
  Secret_Data : gmap string string;
  Secret_StringData : gmap string string }.

Record ConfigMap := {
  ConfigMap_Name : string;
  ConfigMap_Namespace : string;
  ConfigMap_Data : gmap string string;
  ConfigMap_BinaryData : gmap string string }.

Inductive Kind := KindSecret | KindConfigMap | KindNatsAuthConfig.

(** A write that reached the store. *)
Inductive Write :=
| Created (kind : Kind) (key : ObjectKey)
| Updated (kind : Kind) (key : ObjectKey).

(** [m[k]] on a Go map of byte slices or strings: the zero value when the
    key is absent. *)
Definition index (m : gmap string string) (k : string) : string :=
  default "" (m !! k).

Definition set_Secret_Data (d : gmap string string) (s : Secret) : Secret :=
  {| Secret_Name := Secret_Name s; Secret_Namespace := Secret_Namespace s;
     Secret_OwnerReferences := Secret_OwnerReferences s;
     Secret_Data := d; Secret_StringData := Secret_StringData s |}.

Definition set_Secret_StringData (d : gmap string string) (s : Secret) : Secret :=
  {| Secret_Name := Secret_Name s; Secret_Namespace := Secret_Namespace s;
     Secret_OwnerReferences := Secret_OwnerReferences s;
     Secret_Data := Secret_Data s; Secret_StringData := d |}.

Definition set_ConfigMap_Data (d : gmap string string) (c : ConfigMap) : ConfigMap :=
  {| ConfigMap_Name := ConfigMap_Name c; ConfigMap_Namespace := ConfigMap_Namespace c;
     ConfigMap_Data := d; ConfigMap_BinaryData := ConfigMap_BinaryData c |}.

(** What the API server stores for a Secret it is sent: [stringData] is
    write-only, its entries are merged into [data] and win over them. *)
Definition stored (key : ObjectKey) (s : Secret) : Secret :=
  {| Secret_Name := key.2; Secret_Namespace := key.1;
     Secret_OwnerReferences := Secret_OwnerReferences s;
     Secret_Data := Secret_StringData s ∪ Secret_Data s;
     Secret_StringData := ∅ |}.

(** [controllerutil.SetControllerReference(owner, secret, scheme)] on a
    Secret that has no controller yet: refused when the owner lives in
    another namespace. *)
Definition SetControllerReference (ownerKind ownerNamespace ownerName : string)
    (secret : Secret) : result Secret :=
  if decide (ownerNamespace = Secret_Namespace secret) then
    Ok {| Secret_Name := Secret_Name secret;
          Secret_Namespace := Secret_Namespace secret;
          Secret_OwnerReferences :=
            [ {| OwnerReference_Kind := ownerKind;
                 OwnerReference_Name := ownerName |} ];
          Secret_Data := Secret_Data secret;
          Secret_StringData := Secret_StringData secret |}
  else Err (ErrLib "cross-namespace owner references are disallowed").

Definition set_Annotations (a : gmap string string) (c : NatsAuthConfig) : NatsAuthConfig :=
  {| AuthConfig_Name := AuthConfig_Name c; AuthConfig_Namespace := AuthConfig_Namespace c;
     AuthConfig_Annotations := a; AuthConfig_Spec := AuthConfig_Spec c;
     AuthConfig_Status := AuthConfig_Status c |}.

Definition set_AuthConfig_Status (st : NatsAuthConfigStatus) (c : NatsAuthConfig)
    : NatsAuthConfig :=
  {| AuthConfig_Name := AuthConfig_Name c; AuthConfig_Namespace := AuthConfig_Namespace c;
     AuthConfig_Annotations := AuthConfig_Annotations c;
     AuthConfig_Spec := AuthConfig_Spec c; AuthConfig_Status := st |}.

Definition set_Account_Status (st : NatsAccountStatus) (a : NatsAccount) : NatsAccount :=
  {| Account_Name := Account_Name a; Account_Namespace := Account_Namespace a;
     Account_Spec := Account_Spec a; Account_Status := st |}.

Definition set_Account_Spec (spec : NatsAccountSpec) (a : NatsAccount) : NatsAccount :=
  {| Account_Name := Account_Name a; Account_Namespace := Account_Namespace a;
     Account_Spec := spec; Account_Status := Account_Status a |}.

Definition set_User_Status (st : NatsUserStatus) (u : NatsUser) : NatsUser :=
  {| User_Name := User_Name u; User_Namespace := User_Namespace u;
     User_Spec := User_Spec u; User_Status := st |}.

Section Client.
Context `{P : Platform}.

(** Everything a reconciliation can read or change: the objects in the
    cluster, the random source, the clock, and the log of the writes.

    The client answers from the store alone: a read fails only with
    not-found, a create only with already-exists, an update only with
    not-found. Conflicts between concurrent writers and outages of the API
    server are outside the model. *)
Record World := {
  w_secrets : gmap ObjectKey Secret;
  w_configmaps : gmap ObjectKey ConfigMap;
  w_authconfigs : gmap ObjectKey NatsAuthConfig;
  w_accounts : gmap ObjectKey (NatsAccountSpec * NatsAccountStatus);
  w_rng : Rng;
  w_now : Z;
  w_writes : list Write }.

Definition set_w_rng (r : Rng) (w : World) : World :=
  {| w_secrets := w_secrets w; w_configmaps := w_configmaps w;
     w_authconfigs := w_authconfigs w; w_accounts := w_accounts w;
     w_rng := r; w_now := w_now w; w_writes := w_writes w |}.

Definition write_secret (ev : Write) (key : ObjectKey) (s : Secret) (w : World) : World :=
  {| w_secrets := <[key := s]> (w_secrets w); w_configmaps := w_configmaps w;
     w_authconfigs := w_authconfigs w; w_accounts := w_accounts w;
     w_rng := w_rng w; w_now := w_now w; w_writes := w_writes w ++ [ev] |}.

Definition write_configmap (ev : Write) (key : ObjectKey) (c : ConfigMap) (w : World) : World :=
  {| w_secrets := w_secrets w; w_configmaps := <[key := c]> (w_configmaps w);
     w_authconfigs := w_authconfigs w; w_accounts := w_accounts w;
     w_rng := w_rng w; w_now := w_now w; w_writes := w_writes w ++ [ev] |}.

Definition write_authconfig (ev : Write) (key : ObjectKey) (c : NatsAuthConfig) (w : World) : World :=
  {| w_secrets := w_secrets w; w_configmaps := w_configmaps w;
     w_authconfigs := <[key := c]> (w_authconfigs w); w_accounts := w_accounts w;
     w_rng := w_rng w; w_now := w_now w; w_writes := w_writes w ++ [ev] |}.

(** The state-and-error monad of the controllers. An error stops the
    function; the writes made before it stay. *)
Definition M (A : Type) : Type := World -> result A * World.

Definition ret {A} (a : A) : M A := fun w => (Ok a, w).

Definition fail {A} (e : error) : M A := fun w => (Err e, w).

Definition bind {A B} (m : M A) (k : A -> M B) : M B :=
  fun w => match m w with
           | (Ok a, w) => k a w
           | (Err e, w) => (Err e, w)
           end.

(** [x, err := f()], with [err] left to the caller to inspect. *)
Definition try {A} (m : M A) : M (result A) :=
  fun w => match m w with (r, w) => (Ok r, w) end.

(** [if err != nil { return fmt.Errorf(msg + ": %w", err) }] *)
Definition wrap {A} (msg : string) (m : M A) : M A :=
  fun w => match m w with
           | (Ok a, w) => (Ok a, w)
           | (Err e, w) => (Err (Wrapf msg e), w)
           end.

Definition liftResult {A} (r : result A) : M A := fun w => (r, w).

Definition liftRng {A} (f : Rng -> result A * Rng) : M A :=
  fun w => match f (w_rng w) with (r, rng) => (r, set_w_rng rng w) end.

(** [time.Now().Unix()] *)
Definition Now : M Z := fun w => (Ok (w_now w), w).

(** [r.Get(ctx, key, &corev1.Secret{})]; [stringData] is never part of
    what the API server returns. *)
Definition Get_Secret (key : ObjectKey) : M Secret :=
  fun w => match w_secrets w !! key with
           | Some s =>
             (Ok {| Secret_Name := key.2; Secret_Namespace := key.1;
                    Secret_OwnerReferences := Secret_OwnerReferences s;
                    Secret_Data := Secret_Data s;
                    Secret_StringData := ∅ |}, w)
           | None => (Err ErrNotFound, w)
           end.

Definition keyOf (s : Secret) : ObjectKey := (Secret_Namespace s, Secret_Name s).

(** [r.Create(ctx, secret)] *)
Definition Create_Secret (s : Secret) : M unit :=
  fun w => match w_secrets w !! keyOf s with
           | Some _ => (Err ErrAlreadyExists, w)
           | None =>
             (Ok tt, write_secret (Created KindSecret (keyOf s)) (keyOf s)
                       (stored (keyOf s) s) w)
           end.

(** [r.Update(ctx, secret)] *)
Definition Update_Secret (s : Secret) : M unit :=
  fun w => match w_secrets w !! keyOf s with
           | Some _ =>
             (Ok tt, write_secret (Updated KindSecret (keyOf s)) (keyOf s)
                       (stored (keyOf s) s) w)
           | None => (Err ErrNotFound, w)
           end.

Definition Get_ConfigMap (key : ObjectKey) : M ConfigMap :=
  fun w => match w_configmaps w !! key with
           | Some c =>
             (Ok {| ConfigMap_Name := key.2; ConfigMap_Namespace := key.1;
                    ConfigMap_Data := ConfigMap_Data c;
                    ConfigMap_BinaryData := ConfigMap_BinaryData c |}, w)
           | None => (Err ErrNotFound, w)
           end.

Definition keyOfConfigMap (c : ConfigMap) : ObjectKey :=
  (ConfigMap_Namespace c, ConfigMap_Name c).

Definition Create_ConfigMap (c : ConfigMap) : M unit :=
  fun w => match w_configmaps w !! keyOfConfigMap c with
           | Some _ => (Err ErrAlreadyExists, w)
           | None =>
             (Ok tt, write_configmap (Created KindConfigMap (keyOfConfigMap c))
                       (keyOfConfigMap c) c w)
           end.

Definition Update_ConfigMap (c : ConfigMap) : M unit :=
  fun w => match w_configmaps w !! keyOfConfigMap c with
           | Some _ =>
             (Ok tt, write_configmap (Updated KindConfigMap (keyOfConfigMap c))
                       (keyOfConfigMap c) c w)
           | None => (Err ErrNotFound, w)
           end.

Definition accountAt (key : ObjectKey) (body : NatsAccountSpec * NatsAccountStatus)
    : NatsAccount :=
  {| Account_Name := key.2; Account_Namespace := key.1;
     Account_Spec := body.1; Account_Status := body.2 |}.

(** [r.Get(ctx, key, &NatsAccount{})] *)
Definition Get_NatsAccount (key : ObjectKey) : M NatsAccount :=
  fun w => match w_accounts w !! key with
           | Some body => (Ok (accountAt key body), w)
           | None => (Err ErrNotFound, w)
           end.

(** The NatsAccount objects of a namespace. *)
Definition listed (namespace : string) (w : World) : list NatsAccount :=
  map (fun kb => accountAt kb.1 kb.2)
      (filter (fun kb => kb.1.1 = namespace) (map_to_list (w_accounts w))).

(** [r.List(ctx, &NatsAccountList{}, client.InNamespace(namespace))] *)
Definition List_NatsAccount (namespace : string) : M (list NatsAccount) :=
  fun w => (Ok (listed namespace w), w).

(** [r.Update(ctx, authConfig)]: the status is a subresource and is not
    changed by an update of the object. *)
Definition Update_NatsAuthConfig (c : NatsAuthConfig) : M unit :=
  fun w =>
    let key := (AuthConfig_Namespace c, AuthConfig_Name c) in
    match w_authconfigs w !! key with
    | Some old =>
      (Ok tt, write_authconfig (Updated KindNatsAuthConfig key) key
                (set_AuthConfig_Status (AuthConfig_Status old) c) w)
    | None => (Err ErrNotFound, w)
    end.

End Client.

Declare Scope go_scope.
Delimit Scope go_scope with go.
Notation "'do' x <- m ;; k" := (bind m (fun x => k))
  (at level 10, x name, m at level 99, k at level 200, only parsing) : go_scope.
Notation "'do' ' p <- m ;; k" := (bind m (fun x => match x with p => k end))
  (at level 10, p pattern, m at level 99, k at level 200, only parsing) : go_scope.
Notation "'run' m ;; k" := (bind m (fun _ => k))
  (at level 10, m at level 99, k at level 200, only parsing) : go_scope.
Local Open Scope go_scope.

(** ** internal/resolver *)

Section Resolver.
Context `{P : Platform}.

Definition writeToConfigMap (namespace name key content : string) : M unit :=
  do r <- try (Get_ConfigMap (namespace, name)) ;;
  match r with
  | Err err =>
    if IsNotFound err then
      let cm := {| ConfigMap_Name := name; ConfigMap_Namespace := namespace;
                   ConfigMap_Data := {[ key := content ]};
                   ConfigMap_BinaryData := ∅ |} in
      wrap "failed to create ConfigMap" (Create_ConfigMap cm)
    else fail (Wrapf "failed to get ConfigMap" err)
  | Ok cm =>
    let cm := set_ConfigMap_Data (<[ key := content ]> (ConfigMap_Data cm)) cm in
    wrap "failed to update ConfigMap" (Update_ConfigMap cm)
  end.

Definition writeToSecret (namespace name key content : string) : M unit :=
  do r <- try (Get_Secret (namespace, name)) ;;
  match r with
  | Err err =>
    if IsNotFound err then
      let secret := {| Secret_Name := name; Secret_Namespace := namespace;
                       Secret_OwnerReferences := [];
                       Secret_Data := ∅;
                       Secret_StringData := {[ key := content ]} |} in
      wrap "failed to create Secret" (Create_Secret secret)
    else fail (Wrapf "failed to get Secret" err)
  | Ok secret =>
    let secret := set_Secret_Data (<[ key := content ]> (Secret_Data secret)) secret in
    wrap "failed to update Secret" (Update_Secret secret)
  end.

Definition WriteResolverConfig (namespace name key configType content : string)
    : M unit :=
  if decide (configType = "Secret")
  then writeToSecret namespace name key content
  else writeToConfigMap namespace name key content.

End Resolver.

(** ** internal/controller: NatsAccountReconciler *)

Section AccountController.
Context `{P : Platform}.

Definition getOrCreateAccountSeed (account : NatsAccount) : M string :=
  match Account_ExistingSeedSecret (Account_Spec account) with
  | Some ref =>
    do secret <- wrap "failed to get account seed secret"
                   (Get_Secret (SecretRef_Namespace ref, SecretRef_Name ref)) ;;
    match Secret_Data secret !! "account.seed" with
    | None => fail (Errorf "account seed not found in secret")
    | Some seed => ret seed
    end
  | None =>
    do accountMgr <- liftRng (NewAccountManager "") ;;
    do seed <- liftResult (AccountManager_GetSeed accountMgr) ;;
    ret seed
  end.

(** [authConfig.Spec.JWT] is a pointer that [getOperatorSeed] dereferences
    without a check. *)
Definition getOperatorSeed (authConfig : NatsAuthConfig) : M string :=
  match JWT (AuthConfig_Spec authConfig) with
  | None => fail (Panic "nil pointer dereference")
  | Some jwtConfig =>
    let '(secretName, secretNamespace, seedKey) :=
      match OperatorSeedSecret jwtConfig with
      | Some ref =>
        (OperatorSeedSecret_Name ref, OperatorSeedSecret_Namespace ref,
         if nonEmpty (OperatorSeedSecret_Key ref)
         then OperatorSeedSecret_Key ref else "operator.seed")
      | None =>
        (AuthConfig_Name authConfig +:+ "-operator-seed",
         AuthConfig_Namespace authConfig, "operator.seed")
      end in
    do secret <- wrap "failed to get operator seed secret"
                   (Get_Secret (secretNamespace, secretName)) ;;
    match Secret_Data secret !! seedKey with
    | None => fail (Errorf ("operator seed key " +:+ strconv_Quote seedKey +:+
                            " not found in secret"))
    | Some seed => ret seed
    end
  end.

(** [triggerAuthConfigReconcile] changes the annotation of the object in
    memory before it sends the update. *)
Definition triggerAuthConfigReconcile (authConfig : NatsAuthConfig) (w : World)
    : result unit * NatsAuthConfig * World :=
  let authConfig :=
    set_Annotations
      (<[ "nats.jradikk/last-account-update" := time_FormatRFC3339 (w_now w) ]>
         (AuthConfig_Annotations authConfig)) authConfig in
  match Update_NatsAuthConfig authConfig w with
  | (Err err, w) =>
    (Err (Wrapf "failed to trigger auth config reconciliation" err), authConfig, w)
  | (Ok _, w) => (Ok tt, authConfig, w)
  end.

(** The test of lines 158 to 169: the status has an account id, the secret
    has a token and a seed, and the seed gives the account id of the status. *)
Definition matchesStatus (account : NatsAccount) (existingSecret : Secret) : bool :=
  nonEmpty (AccountID (Account_Status account)) &&
  nonEmpty (index (Secret_Data existingSecret) "account.jwt") &&
  nonEmpty (index (Secret_Data existingSecret) "account.seed") &&
  match nkeys_FromSeed (index (Secret_Data existingSecret) "account.seed") with
  | Ok kp =>
    match kp_PublicKey kp with
    | Ok pubKey => bool_decide (pubKey = AccountID (Account_Status account))
    | Err _ => false
    end
  | Err _ => false
  end.

(** [reconcileAccount]. The part up to the write of the secret runs in [M]
    and yields [None] where the Go code returns [nil] early, and the public
    key of the account where it goes on to the status. *)
Definition reconcileAccount (account : NatsAccount) (authConfig : NatsAuthConfig)
    (w : World) : result unit * NatsAccount * NatsAuthConfig * World :=
  let jwtSecretName := Account_Name account +:+ "-account-jwt" in
  let regenerate (existing : option Secret) : M (option string) :=
    do accountSeed <- wrap "failed to get account seed" (getOrCreateAccountSeed account) ;;
    do accountMgr <- wrap "failed to create account manager"
                       (liftRng (NewAccountManager accountSeed)) ;;
    do accountPubKey <- wrap "failed to get account public key"
                          (liftResult (AccountManager_GetPublicKey accountMgr)) ;;
    do now <- Now ;;
    do accountClaims <- wrap "failed to create account claims"
                          (liftResult (AccountManager_CreateAccountClaims accountMgr
                             (Account_Name account)
                             (Description (Account_Spec account))
                             (Limits (Account_Spec account)) now)) ;;
    do operatorSeed <- wrap "failed to get operator seed" (getOperatorSeed authConfig) ;;
    do operatorMgr <- wrap "failed to create operator manager"
                        (liftRng (NewOperatorManager operatorSeed "" now)) ;;
    do accountJWT <- wrap "failed to sign account JWT"
                       (liftResult (OperatorManager_SignAccountJWT operatorMgr accountClaims).2) ;;
    let jwtSecret :=
      {| Secret_Name := jwtSecretName;
         Secret_Namespace := Account_Namespace account;
         Secret_OwnerReferences := [];
         Secret_Data := list_to_map [ ("account.jwt", accountJWT);
                                      ("account.seed", accountSeed) ];
         Secret_StringData := ∅ |} in
    do jwtSecret <- liftResult (SetControllerReference "NatsAccount"
                                  (Account_Namespace account) (Account_Name account)
                                  jwtSecret) ;;
    run match existing with
        | None => wrap "failed to create JWT secret" (Create_Secret jwtSecret)
        | Some existingSecret =>
          let existingSecret := set_Secret_Data (Secret_Data jwtSecret) existingSecret in
          wrap "failed to update JWT secret" (Update_Secret existingSecret)
        end ;;
    ret (Some accountPubKey) in
  let upToTheWrite : M (option string) :=
    do r <- try (Get_Secret (Account_Namespace account, jwtSecretName)) ;;
    match r with
    | Ok existingSecret =>
      if matchesStatus account existingSecret then ret None
      else regenerate (Some existingSecret)
    | Err err =>
      if IsNotFound err then regenerate None
      else fail (Wrapf "failed to check JWT secret" err)
    end in
  match upToTheWrite w with
  | (Err err, w) => (Err err, account, authConfig, w)
  | (Ok None, w) => (Ok tt, account, authConfig, w)
  | (Ok (Some accountPubKey), w) =>
    let account :=
      set_Account_Status
        {| AccountID := accountPubKey;
           Account_PublicKey := accountPubKey;
           JWTSecretRef := {| SecretRef_Name := jwtSecretName;
                              SecretRef_Namespace := Account_Namespace account |} |}
        account in
    match triggerAuthConfigReconcile authConfig w with
    | (Err err, authConfig, w) =>
      (Err (Wrapf "failed to trigger auth config reconciliation" err),
       account, authConfig, w)
    | (Ok _, authConfig, w) => (Ok tt, account, authConfig, w)
    end
  end.

End AccountController.

(** ** internal/controller: NatsUserReconciler *)

Section UserController.
Context `{P : Platform}.

Definition getOrCreateUserSeed (user : NatsUser) : M string :=
  match User_ExistingSeedSecret (User_Spec user) with
  | Some ref =>
    do secret <- wrap "failed to get user seed secret"
                   (Get_Secret (SecretRef_Namespace ref, SecretRef_Name ref)) ;;
    match Secret_Data secret !! "user.seed" with
    | Some seed => ret seed
    | None =>
      match Secret_Data secret !! "seed.nk" with
      | Some seed => ret seed
      | None => fail (Errorf "user seed not found in secret")
      end
    end
  | None =>
    do userMgr <- liftRng (NewUserManager "") ;;
    do seed <- liftResult (UserManager_GetSeed userMgr) ;;
    ret seed
  end.

Definition getAccount (user : NatsUser) : M NatsAccount :=
  match AccountRef (User_Spec user) with
  | None => fail (Errorf "accountRef is nil")
  | Some ref =>
    let namespace :=
      if nonEmpty (NatsAccountRef_Namespace ref)
      then NatsAccountRef_Namespace ref else User_Namespace user in
    Get_NatsAccount (namespace, NatsAccountRef_Name ref)
  end.

Definition getAccountSeed (account : NatsAccount) : M string :=
  let ref := JWTSecretRef (Account_Status account) in
  if nonEmpty (SecretRef_Name ref) then
    do secret <- wrap "failed to get account JWT secret"
                   (Get_Secret (SecretRef_Namespace ref, SecretRef_Name ref)) ;;
    match Secret_Data secret !! "account.seed" with
    | None => fail (Errorf "account seed not found in secret")
    | Some seed => ret seed
    end
  else fail (Errorf "account JWT secret not ready").

(** [reconcileJWTUser]; [None] from the part in [M] is the early
    [return nil] of line 586. *)
Definition reconcileJWTUser (user : NatsUser) (authConfig : NatsAuthConfig)
    (w : World) : result unit * NatsUser * World :=
  let secretName := User_Name user +:+ "-user-creds" in
  let regenerate (account : NatsAccount) : M (option string) :=
    do userSeed <- wrap "failed to get user seed" (getOrCreateUserSeed user) ;;
    do userMgr <- wrap "failed to create user manager"
                    (liftRng (NewUserManager userSeed)) ;;
    do userPubKey <- wrap "failed to get user public key"
                       (liftResult (UserManager_GetPublicKey userMgr)) ;;
    let userName :=
      if nonEmpty (Username (User_Spec user))
      then Username (User_Spec user) else User_Name user in
    do now <- Now ;;
    do userClaims <- wrap "failed to create user claims"
                       (liftResult (UserManager_CreateUserClaims userMgr userName
                          (User_Permissions (User_Spec user)) now)) ;;
    do accountSeed <- wrap "failed to get account seed" (getAccountSeed account) ;;
    do accountMgr <- wrap "failed to create account manager"
                       (liftRng (NewAccountManager accountSeed)) ;;
    do userJWT <- wrap "failed to sign user JWT"
                    (liftResult (AccountManager_SignUserJWT accountMgr userClaims).2) ;;
    let credsContent := GenerateCredsFile userJWT userSeed in
    let secret :=
      {| Secret_Name := secretName;
         Secret_Namespace := User_Namespace user;
         Secret_OwnerReferences := [];
         Secret_Data := list_to_map [ ("seed.nk", userSeed) ];
         Secret_StringData :=
           list_to_map [ ("user.creds", credsContent);
                         ("user.jwt", userJWT);
                         ("NATS_URL", NatsURL (AuthConfig_Spec authConfig)) ] |} in
    do secret <- liftResult (SetControllerReference "NatsUser"
                               (User_Namespace user) (User_Name user) secret) ;;
    do r <- try (Get_Secret (User_Namespace user, secretName)) ;;
    run match r with
        | Err checkErr =>
          if IsNotFound checkErr
          then wrap "failed to create credentials secret" (Create_Secret secret)
          else fail checkErr
        | Ok existingSecret =>
          let existingSecret :=
            set_Secret_StringData (Secret_StringData secret) existingSecret in
          let existingSecret :=
            set_Secret_Data (Secret_Data secret) existingSecret in
          wrap "failed to update credentials secret" (Update_Secret existingSecret)
        end ;;
    ret (Some userPubKey) in
  let upToTheWrite : M (option string) :=
    match AccountRef (User_Spec user) with
    | None => fail (Errorf "accountRef is required for JWT mode")
    | Some _ =>
      do account <- wrap "failed to get NatsAccount" (getAccount user) ;;
      if nonEmpty (AccountID (Account_Status account)) then
        do r <- try (Get_Secret (User_Namespace user, secretName)) ;;
        match r with
        | Ok existingSecret =>
          if nonEmpty (User_PublicKey (User_Status user)) &&
             nonEmpty (index (Secret_Data existingSecret) "user.creds")
          then ret None
          else regenerate account
        | Err checkErr =>
          if IsNotFound checkErr then regenerate account
          else fail (Wrapf "failed to check credentials secret" checkErr)
        end
      else fail (Errorf "NatsAccount is not ready yet")
    end in
  match upToTheWrite w with
  | (Err err, w) => (Err err, user, w)
  | (Ok None, w) => (Ok tt, user, w)
  | (Ok (Some userPubKey), w) =>
    (Ok tt,
     set_User_Status
       {| User_SecretRef := {| SecretRef_Name := secretName;
                               SecretRef_Namespace := User_Namespace user |};
          User_PublicKey := userPubKey |} user,
     w)
  end.

(** [reconcileTokenUser] *)
Definition reconcileTokenUser (user : NatsUser) (authConfig : NatsAuthConfig)
    (w : World) : result unit * NatsUser * World :=
  let secretName := User_Name user +:+ "-user-creds" in
  let upToTheWrite : M unit :=
    do username <-
      (if nonEmpty (Username (User_Spec user)) then ret (Username (User_Spec user))
       else wrap "failed to generate username"
              (liftRng (GenerateUsername (User_Name user)))) ;;
    do password <-
      match PasswordFrom (User_Spec user) with
      | Some passwordFrom =>
        if Generate passwordFrom then
          wrap "failed to generate password" (liftRng GeneratePassword)
        else
          match PasswordSource_SecretRef passwordFrom with
          | Some ref =>
            do secret <- wrap "failed to get password secret"
                           (Get_Secret (SecretRef_Namespace ref, SecretRef_Name ref)) ;;
            ret (index (Secret_Data secret) "password")
          | None => ret ""
          end
      | None => wrap "failed to generate password" (liftRng GeneratePassword)
      end ;;
    let secret :=
      {| Secret_Name := secretName;
         Secret_Namespace := User_Namespace user;
         Secret_OwnerReferences := [];
         Secret_Data := ∅;
         Secret_StringData :=
           list_to_map [ ("USERNAME", username);
                         ("PASSWORD", password);
                         ("NATS_URL", NatsURL (AuthConfig_Spec authConfig)) ] |} in
    do secret <- liftResult (SetControllerReference "NatsUser"
                               (User_Namespace user) (User_Name user) secret) ;;
    do r <- try (Get_Secret (User_Namespace user, secretName)) ;;
    match r with
    | Err err =>
      if IsNotFound err
      then wrap "failed to create credentials secret" (Create_Secret secret)
      else fail err
    | Ok existingSecret =>
      if bool_decide (Secret_Data existingSecret = ∅) ||
         negb (String.eqb (index (Secret_Data existingSecret) "USERNAME") username) ||
         negb (String.eqb (index (Secret_Data existingSecret) "PASSWORD") password)
      then
        let existingSecret :=
          set_Secret_StringData (Secret_StringData secret) existingSecret in
        wrap "failed to update credentials secret" (Update_Secret existingSecret)
      else ret tt
    end in
  match upToTheWrite w with
  | (Err err, w) => (Err err, user, w)
  | (Ok _, w) =>
    (Ok tt,
     set_User_Status
       {| User_SecretRef := {| SecretRef_Name := secretName;
                               SecretRef_Namespace := User_Namespace user |};
          User_PublicKey := User_PublicKey (User_Status user) |} user,
     w)
  end.

End UserController.

(** ** internal/controller: NatsAuthConfigReconciler *)

Section AuthConfigController.
Context `{P : Platform}.

Definition getOrCreateOperatorSeed (authConfig : NatsAuthConfig) : M string :=
  match JWT (AuthConfig_Spec authConfig) with
  | None => fail (Panic "nil pointer dereference")
  | Some jwtConfig =>
    match OperatorSeedSecret jwtConfig with
    | Some ref =>
      do secret <- wrap "failed to get operator seed secret"
                     (Get_Secret (OperatorSeedSecret_Namespace ref,
                                  OperatorSeedSecret_Name ref)) ;;
      let seedKey :=
        if nonEmpty (OperatorSeedSecret_Key ref)
        then OperatorSeedSecret_Key ref else "operator.seed" in
      match Secret_Data secret !! seedKey with
      | None => fail (Errorf ("operator seed key " +:+ strconv_Quote seedKey +:+
                              " not found in secret"))
      | Some seed => ret seed
      end
    | None =>
      do now <- Now ;;
      do operatorMgr <- liftRng (NewOperatorManager "" "NATS Operator" now) ;;
      do seed <- liftResult (OperatorManager_GetSeed operatorMgr) ;;
      let secretName := AuthConfig_Name authConfig +:+ "-operator-seed" in
      let secret :=
        {| Secret_Name := secretName;
           Secret_Namespace := AuthConfig_Namespace authConfig;
           Secret_OwnerReferences := [];
           Secret_Data := list_to_map [ ("operator.seed", seed) ];
           Secret_StringData := ∅ |} in
      do secret <- liftResult (SetControllerReference "NatsAuthConfig"
                                 (AuthConfig_Namespace authConfig)
                                 (AuthConfig_Name authConfig) secret) ;;
      do r <- try (Create_Secret secret) ;;
      match r with
      | Err err =>
        if IsAlreadyExists err then
          do secret <- Get_Secret (AuthConfig_Namespace authConfig, secretName) ;;
          ret (index (Secret_Data secret) "operator.seed")
        else fail err
      | Ok _ => ret seed
      end
    end
  end.

(** The loop of [collectAccountJWTs] over [accountList.Items]. *)
Fixpoint collectLoop (authConfig : NatsAuthConfig) (items : list NatsAccount)
    (accounts : list AccountJWT) : M (list AccountJWT) :=
  match items with
  | [] => ret accounts
  | account :: items =>
    if bool_decide (NatsAuthConfigRef_Name (Account_AuthConfigRef (Account_Spec account))
                    = AuthConfig_Name authConfig)
    then
      let secretName := Account_Name account +:+ "-account-jwt" in
      do r <- try (Get_Secret (Account_Namespace account, secretName)) ;;
      match r with
      | Err err =>
        if IsNotFound err then collectLoop authConfig items accounts
        else fail (Wrapf "failed to get account JWT secret" err)
      | Ok secret =>
        match Secret_Data secret !! "account.jwt" with
        | None => collectLoop authConfig items accounts
        | Some jwtData =>
          if nonEmpty (AccountID (Account_Status account)) then
            collectLoop authConfig items
              (accounts ++ [ {| AccountName := Account_Name account;
                                AccountJWT_AccountID := AccountID (Account_Status account);
                                AccountJWT_JWT := jwtData |} ])
          else collectLoop authConfig items accounts
        end
      end
    else collectLoop authConfig items accounts
  end.

Definition collectAccountJWTs (authConfig : NatsAuthConfig) : M (list AccountJWT) :=
  do accountList <- wrap "failed to list accounts"
                      (List_NatsAccount (AuthConfig_Namespace authConfig)) ;;
  collectLoop authConfig accountList [].

(** [for _, acc := range accounts { secretData[acc.AccountName] = []byte(acc.JWT) }] *)
Definition addAccountKeys (secretData : gmap string string) (accounts : list AccountJWT)
    : gmap string string :=
  foldl (fun secretData acc => <[ AccountName acc := AccountJWT_JWT acc ]> secretData)
        secretData accounts.

Definition reconcileJWTMode (authConfig : NatsAuthConfig) (w : World)
    : result unit * NatsAuthConfig * World :=
  let upToTheWrite : M string :=
    do operatorSeed <- wrap "failed to get operator seed"
                         (getOrCreateOperatorSeed authConfig) ;;
    match JWT (AuthConfig_Spec authConfig) with
    | None => fail (Panic "nil pointer dereference")
    | Some jwtConfig =>
      let operatorName :=
        if nonEmpty (OperatorName jwtConfig)
        then OperatorName jwtConfig else "NATS Operator" in
      do now <- Now ;;
      do operatorMgr <- wrap "failed to create operator manager"
                          (liftRng (NewOperatorManager operatorSeed operatorName now)) ;;
      do operatorPubKey <- wrap "failed to get operator public key"
                             (liftResult (OperatorManager_GetPublicKey operatorMgr)) ;;
      do accounts <- wrap "failed to collect account JWTs"
                       (collectAccountJWTs authConfig) ;;
      let secretData :=
        addAccountKeys {[ "operator" := OperatorManager_GetJWT operatorMgr ]} accounts in
      let ref := ServerAuthConfig (AuthConfig_Spec authConfig) in
      let secret :=
        {| Secret_Name := ServerAuthConfig_Name ref;
           Secret_Namespace := ServerAuthConfig_Namespace ref;
           Secret_OwnerReferences := [];
           Secret_Data := secretData;
           Secret_StringData := ∅ |} in
      do r <- try (Get_Secret (ServerAuthConfig_Namespace ref, ServerAuthConfig_Name ref)) ;;
      run match r with
          | Err err =>
            if IsNotFound err
            then wrap "failed to create JWT secret" (Create_Secret secret)
            else fail (Wrapf "failed to get existing secret" err)
          | Ok existingSecret =>
            let existingSecret := set_Secret_Data secretData existingSecret in
            wrap "failed to update JWT secret" (Update_Secret existingSecret)
          end ;;
      ret operatorPubKey
    end in
  match upToTheWrite w with
  | (Err err, w) => (Err err, authConfig, w)
  | (Ok operatorPubKey, w) =>
    (Ok tt,
     set_AuthConfig_Status
       {| OperatorPubKey := operatorPubKey; ResolverReady := true |} authConfig,
     w)
  end.

Definition reconcileTokenMode (authConfig : NatsAuthConfig) (w : World)
    : result unit * NatsAuthConfig * World :=
  let authConf := RenderTokenAuthConf [] in
  let ref := ServerAuthConfig (AuthConfig_Spec authConfig) in
  match WriteResolverConfig (ServerAuthConfig_Namespace ref) (ServerAuthConfig_Name ref)
          (ServerAuthConfig_Key ref) (ServerAuthConfig_Type ref) authConf w with
  | (Err err, w) => (Err (Wrapf "failed to write token auth config" err), authConfig, w)
  | (Ok _, w) =>
    (Ok tt,
     set_AuthConfig_Status
       {| OperatorPubKey := OperatorPubKey (AuthConfig_Status authConfig);
          ResolverReady := true |} authConfig,
     w)
  end.

Definition reconcileMixedMode (authConfig : NatsAuthConfig) (w : World)
    : result unit * NatsAuthConfig * World :=
  reconcileJWTMode authConfig w.

End AuthConfigController.

(** ** metav1, ctrl and controllerutil: what the entry points use *)

Inductive ConditionStatus := ConditionTrue | ConditionFalse | ConditionUnknown.

(** A text that ends up in a status: a literal of the repository, or
    [err.Error()] of an error. *)
Inductive Message :=
| Literal (s : string)
| ErrorText (e : error).

(** [metav1.Condition], the fields that the repository sets. *)
Record Condition := {
  Condition_Type : string;
  Condition_Status : ConditionStatus;
  Condition_Reason : string;
  Condition_Message : Message;
  LastTransitionTime : Z }.

(** [metav1.ObjectMeta], the fields that the repository reads or writes
    apart from name and namespace. *)
Record ObjectMeta := {
  Finalizers : list string;
  DeletionTimestamp : option Z;
  Generation : Z }.

(** The status fields that the three kinds have in common and that the
    entry points alone write. *)
Record Report := {
  Conditions : list Condition;
  ObservedGeneration : Z;
  LastReconciled : option Z }.

Inductive UserState := UserStateReady | UserStateError | UserStatePending.

#[global] Instance AuthMode_eq_dec : EqDecision AuthMode.
Proof. solve_decision. Defined.

#[global] Instance UserAuthType_eq_dec : EqDecision UserAuthType.
Proof. solve_decision. Defined.

(** [ctrl.Result]; a [time.Duration] counts nanoseconds. *)
Record Result := { RequeueAfter : Z }.

Definition Minute : Z := 60 * 1000000000.

Definition set_Finalizers (l : list string) (meta : ObjectMeta) : ObjectMeta :=
  {| Finalizers := l; DeletionTimestamp := DeletionTimestamp meta;
     Generation := Generation meta |}.

(** [controllerutil.ContainsFinalizer] *)
Definition ContainsFinalizer (meta : ObjectMeta) (finalizer : string) : bool :=
  bool_decide (finalizer ∈ Finalizers meta).

(** [controllerutil.AddFinalizer]: appended unless present. *)
Definition AddFinalizer (meta : ObjectMeta) (finalizer : string) : ObjectMeta :=
  if ContainsFinalizer meta finalizer then meta
  else set_Finalizers (Finalizers meta ++ [ finalizer ])%list meta.

(** [controllerutil.RemoveFinalizer]: every occurrence is removed. *)
Definition RemoveFinalizer (meta : ObjectMeta) (finalizer : string) : ObjectMeta :=
  set_Finalizers (filter (fun f => f <> finalizer) (Finalizers meta)) meta.

Definition set_LastTransitionTime (t : Z) (c : Condition) : Condition :=
  {| Condition_Type := Condition_Type c; Condition_Status := Condition_Status c;
     Condition_Reason := Condition_Reason c; Condition_Message := Condition_Message c;
     LastTransitionTime := t |}.

Definition set_Conditions (l : list Condition) (r : Report) : Report :=
  {| Conditions := l; ObservedGeneration := ObservedGeneration r;
     LastReconciled := LastReconciled r |}.

(** The loop of [updateCondition]: the first condition of the type of
    [condition] is replaced, and the loop left; [None] if there is none
    ([found] is still false). *)
Fixpoint replaceFirst (conditions : list Condition) (condition : Condition)
    : option (list Condition) :=
  match conditions with
  | [] => None
  | c :: conditions =>
    if String.eqb (Condition_Type c) (Condition_Type condition)
    then Some (condition :: conditions)
    else match replaceFirst conditions condition with
         | Some conditions => Some (c :: conditions)
         | None => None
         end
  end.

(** [updateCondition], the same function in the three controllers; [now]
    is [metav1.Now()]. *)
Definition updateCondition (now : Z) (report : Report) (condition : Condition) : Report :=
  let condition := set_LastTransitionTime now condition in
  match replaceFirst (Conditions report) condition with
  | Some conditions => set_Conditions conditions report
  | None => set_Conditions (Conditions report ++ [ condition ])%list report
  end.

(** A condition as the entry points write it down, before [updateCondition]
    fills in the time. *)
Definition condition (type : string) (status : ConditionStatus) (reason : string)
    (message : Message) : Condition :=
  {| Condition_Type := type; Condition_Status := status; Condition_Reason := reason;
     Condition_Message := message; LastTransitionTime := 0 |}.

(** ** The objects of the three kinds as a whole *)

Record AccountObject := {
  ao_meta : ObjectMeta;
  ao_account : NatsAccount;
  ao_report : Report }.

Record AuthConfigObject := {
  co_meta : ObjectMeta;
  co_authConfig : NatsAuthConfig;
  co_report : Report }.

Record UserObject := {
  uo_meta : ObjectMeta;
  uo_user : NatsUser;
  uo_state : UserState;
  uo_reason : Message;
  uo_report : Report }.

Definition set_ao_meta (m : ObjectMeta) (o : AccountObject) : AccountObject :=
  {| ao_meta := m; ao_account := ao_account o; ao_report := ao_report o |}.

Definition set_ao_account (a : NatsAccount) (o : AccountObject) : AccountObject :=
  {| ao_meta := ao_meta o; ao_account := a; ao_report := ao_report o |}.

Definition set_ao_report (r : Report) (o : AccountObject) : AccountObject :=
  {| ao_meta := ao_meta o; ao_account := ao_account o; ao_report := r |}.

Definition set_co_meta (m : ObjectMeta) (o : AuthConfigObject) : AuthConfigObject :=
  {| co_meta := m; co_authConfig := co_authConfig o; co_report := co_report o |}.

Definition set_co_authConfig (a : NatsAuthConfig) (o : AuthConfigObject) : AuthConfigObject :=
  {| co_meta := co_meta o; co_authConfig := a; co_report := co_report o |}.

Definition set_co_report (r : Report) (o : AuthConfigObject) : AuthConfigObject :=
  {| co_meta := co_meta o; co_authConfig := co_authConfig o; co_report := r |}.

Definition set_uo_meta (m : ObjectMeta) (o : UserObject) : UserObject :=
  {| uo_meta := m; uo_user := uo_user o; uo_state := uo_state o;
     uo_reason := uo_reason o; uo_report := uo_report o |}.

Definition set_uo_user (u : NatsUser) (o : UserObject) : UserObject :=
  {| uo_meta := uo_meta o; uo_user := u; uo_state := uo_state o;
     uo_reason := uo_reason o; uo_report := uo_report o |}.

Definition set_uo_report (r : Report) (o : UserObject) : UserObject :=
  {| uo_meta := uo_meta o; uo_user := uo_user o; uo_state := uo_state o;
     uo_reason := uo_reason o; uo_report := r |}.

(** [updateStatus] of the user controller. *)
Definition updateStatus (user : UserObject) (state : UserState) (reason : Message)
    : UserObject :=
  {| uo_meta := uo_meta user; uo_user := uo_user user; uo_state := state;
     uo_reason := reason; uo_report := uo_report user |}.

Definition set_ObservedGeneration (g : Z) (r : Report) : Report :=
  {| Conditions := Conditions r; ObservedGeneration := g;
     LastReconciled := LastReconciled r |}.

Definition set_LastReconciled (t : option Z) (r : Report) : Report :=
  {| Conditions := Conditions r; ObservedGeneration := ObservedGeneration r;
     LastReconciled := t |}.

Section ClusterClient.
Context `{P : Platform}.

(** The cluster as the entry points see it: the [World] of the reconcile
    functions, the metadata and the common status fields of the accounts
    and configurations in it, and the user objects. An object without an
    entry for its metadata has the zero value. The log of the world lists
    the writes of Secrets, ConfigMaps and configurations only. *)
Record Cluster := {
  c_world : World;
  c_accounts : gmap ObjectKey (ObjectMeta * Report);
  c_authconfigs : gmap ObjectKey (ObjectMeta * Report);
  c_users : gmap ObjectKey UserObject }.

Definition zero : ObjectMeta * Report :=
  ({| Finalizers := []; DeletionTimestamp := None; Generation := 0 |},
   {| Conditions := []; ObservedGeneration := 0; LastReconciled := None |}).

Definition set_c_world (w : World) (c : Cluster) : Cluster :=
  {| c_world := w; c_accounts := c_accounts c; c_authconfigs := c_authconfigs c;
     c_users := c_users c |}.

Definition set_w_accounts (a : gmap ObjectKey (NatsAccountSpec * NatsAccountStatus))
    (w : World) : World :=
  {| w_secrets := w_secrets w; w_configmaps := w_configmaps w;
     w_authconfigs := w_authconfigs w; w_accounts := a;
     w_rng := w_rng w; w_now := w_now w; w_writes := w_writes w |}.

Definition set_w_authconfigs (a : gmap ObjectKey NatsAuthConfig) (w : World) : World :=
  {| w_secrets := w_secrets w; w_configmaps := w_configmaps w;
     w_authconfigs := a; w_accounts := w_accounts w;
     w_rng := w_rng w; w_now := w_now w; w_writes := w_writes w |}.

(** [r.Get(ctx, key, &NatsAuthConfig{})] *)
Definition Get_NatsAuthConfig (key : ObjectKey) : M NatsAuthConfig :=
  fun w => match w_authconfigs w !! key with
           | Some c =>
             (Ok {| AuthConfig_Name := key.2; AuthConfig_Namespace := key.1;
                    AuthConfig_Annotations := AuthConfig_Annotations c;
                    AuthConfig_Spec := AuthConfig_Spec c;
                    AuthConfig_Status := AuthConfig_Status c |}, w)
           | None => (Err ErrNotFound, w)
           end.

(** The API server removes an object whose deletion has been requested
    once its last finalizer is gone. *)
Definition released (meta : ObjectMeta) : bool :=
  match DeletionTimestamp meta, Finalizers meta with
  | Some _, [] => true
  | _, _ => false
  end.

(** What an update may change of the metadata: the finalizers. The
    deletion timestamp and the generation are the API server's; no
    controller of the repository changes a spec, so the generation stays. *)
Definition updatedMeta (sent stored : ObjectMeta) : ObjectMeta :=
  set_Finalizers (Finalizers sent) stored.

(** [r.Get(ctx, req.NamespacedName, &NatsAccount{})] *)
Definition Get_AccountObject (key : ObjectKey) (c : Cluster) : result AccountObject :=
  match w_accounts (c_world c) !! key with
  | Some body =>
    let rest := default zero (c_accounts c !! key) in
    Ok {| ao_meta := rest.1; ao_account := accountAt key body; ao_report := rest.2 |}
  | None => Err ErrNotFound
  end.

(** [r.Update(ctx, account)]: the status is a subresource and stays as
    stored; the object comes back as the API server holds it. *)
Definition Update_AccountObject (o : AccountObject) (c : Cluster)
    : result AccountObject * Cluster :=
  let key := (Account_Namespace (ao_account o), Account_Name (ao_account o)) in
  match w_accounts (c_world c) !! key with
  | Some body =>
    let rest := default zero (c_accounts c !! key) in
    let meta := updatedMeta (ao_meta o) rest.1 in
    let body := (Account_Spec (ao_account o), body.2) in
    (Ok {| ao_meta := meta; ao_account := accountAt key body; ao_report := rest.2 |},
     if released meta then
       {| c_world := set_w_accounts (delete key (w_accounts (c_world c))) (c_world c);
          c_accounts := delete key (c_accounts c);
          c_authconfigs := c_authconfigs c; c_users := c_users c |}
     else
       {| c_world := set_w_accounts (<[ key := body ]> (w_accounts (c_world c))) (c_world c);
          c_accounts := <[ key := (meta, rest.2) ]> (c_accounts c);
          c_authconfigs := c_authconfigs c; c_users := c_users c |})
  | None => (Err ErrNotFound, c)
  end.

(** [r.Status().Update(ctx, account)]: the status alone is stored. *)
Definition Status_Update_AccountObject (o : AccountObject) (c : Cluster)
    : result AccountObject * Cluster :=
  let key := (Account_Namespace (ao_account o), Account_Name (ao_account o)) in
  match w_accounts (c_world c) !! key with
  | Some body =>
    let rest := default zero (c_accounts c !! key) in
    let body := (body.1, Account_Status (ao_account o)) in
    (Ok {| ao_meta := rest.1; ao_account := accountAt key body; ao_report := ao_report o |},
     {| c_world := set_w_accounts (<[ key := body ]> (w_accounts (c_world c))) (c_world c);
        c_accounts := <[ key := (rest.1, ao_report o) ]> (c_accounts c);
        c_authconfigs := c_authconfigs c; c_users := c_users c |})
  | None => (Err ErrNotFound, c)
  end.

(** [r.Get(ctx, req.NamespacedName, &NatsAuthConfig{})] *)
Definition Get_AuthConfigObject (key : ObjectKey) (c : Cluster) : result AuthConfigObject :=
  match Get_NatsAuthConfig key (c_world c) with
  | (Ok authConfig, _) =>
    let rest := default zero (c_authconfigs c !! key) in
    Ok {| co_meta := rest.1; co_authConfig := authConfig; co_report := rest.2 |}
  | (Err err, _) => Err err
  end.

(** [r.Update(ctx, authConfig)] *)
Definition Update_AuthConfigObject (o : AuthConfigObject) (c : Cluster)
    : result AuthConfigObject * Cluster :=
  let key := (AuthConfig_Namespace (co_authConfig o), AuthConfig_Name (co_authConfig o)) in
  match w_authconfigs (c_world c) !! key with
  | Some old =>
    let w := (Update_NatsAuthConfig (co_authConfig o) (c_world c)).2 in
    let rest := default zero (c_authconfigs c !! key) in
    let meta := updatedMeta (co_meta o) rest.1 in
    (Ok {| co_meta := meta;
           co_authConfig := set_AuthConfig_Status (AuthConfig_Status old) (co_authConfig o);
           co_report := rest.2 |},
     if released meta then
       {| c_world := set_w_authconfigs (delete key (w_authconfigs w)) w;
          c_accounts := c_accounts c;
          c_authconfigs := delete key (c_authconfigs c); c_users := c_users c |}
     else
       {| c_world := w; c_accounts := c_accounts c;
          c_authconfigs := <[ key := (meta, rest.2) ]> (c_authconfigs c);
          c_users := c_users c |})
  | None => (Err ErrNotFound, c)
  end.

(** [r.Status().Update(ctx, authConfig)] *)
Definition Status_Update_AuthConfigObject (o : AuthConfigObject) (c : Cluster)
    : result AuthConfigObject * Cluster :=
  let key := (AuthConfig_Namespace (co_authConfig o), AuthConfig_Name (co_authConfig o)) in
  match w_authconfigs (c_world c) !! key with
  | Some old =>
    let rest := default zero (c_authconfigs c !! key) in
    let stored :=
      {| AuthConfig_Name := key.2; AuthConfig_Namespace := key.1;
         AuthConfig_Annotations := AuthConfig_Annotations old;
         AuthConfig_Spec := AuthConfig_Spec old;
         AuthConfig_Status := AuthConfig_Status (co_authConfig o) |} in
    (Ok {| co_meta := rest.1; co_authConfig := stored; co_report := co_report o |},
     {| c_world := write_authconfig (Updated KindNatsAuthConfig key) key stored (c_world c);
        c_accounts := c_accounts c;
        c_authconfigs := <[ key := (rest.1, co_report o) ]> (c_authconfigs c);
        c_users := c_users c |})
  | None => (Err ErrNotFound, c)
  end.

Definition set_c_users (u : gmap ObjectKey UserObject) (c : Cluster) : Cluster :=
  {| c_world := c_world c; c_accounts := c_accounts c;
     c_authconfigs := c_authconfigs c; c_users := u |}.

Definition userAt (key : ObjectKey) (o : UserObject) : UserObject :=
  set_uo_user {| User_Name := key.2; User_Namespace := key.1;
                 User_Spec := User_Spec (uo_user o);
                 User_Status := User_Status (uo_user o) |} o.

(** [r.Get(ctx, req.NamespacedName, &NatsUser{})] *)
Definition Get_UserObject (key : ObjectKey) (c : Cluster) : result UserObject :=
  match c_users c !! key with
  | Some o => Ok (userAt key o)
  | None => Err ErrNotFound
  end.

(** [r.Update(ctx, user)] *)
Definition Update_UserObject (o : UserObject) (c : Cluster)
    : result UserObject * Cluster :=
  let key := (User_Namespace (uo_user o), User_Name (uo_user o)) in
  match c_users c !! key with
  | Some old =>
    let stored :=
      {| uo_meta := updatedMeta (uo_meta o) (uo_meta old);
         uo_user := {| User_Name := key.2; User_Namespace := key.1;
                       User_Spec := User_Spec (uo_user o);
                       User_Status := User_Status (uo_user old) |};
         uo_state := uo_state old; uo_reason := uo_reason old;
         uo_report := uo_report old |} in
    (Ok stored,
     if released (uo_meta stored) then set_c_users (delete key (c_users c)) c
     else set_c_users (<[ key := stored ]> (c_users c)) c)
  | None => (Err ErrNotFound, c)
  end.

(** [r.Status().Update(ctx, user)] *)
Definition Status_Update_UserObject (o : UserObject) (c : Cluster)
    : result UserObject * Cluster :=
  let key := (User_Namespace (uo_user o), User_Name (uo_user o)) in
  match c_users c !! key with
  | Some old =>
    let stored :=
      {| uo_meta := uo_meta old;
         uo_user := {| User_Name := key.2; User_Namespace := key.1;
                       User_Spec := User_Spec (uo_user old);
                       User_Status := User_Status (uo_user o) |};
         uo_state := uo_state o; uo_reason := uo_reason o;
         uo_report := uo_report o |} in
    (Ok stored, set_c_users (<[ key := stored ]> (c_users c)) c)
  | None => (Err ErrNotFound, c)
  end.

(** A run-time panic does not return to the caller: it unwinds the stack
    of [Reconcile]. The reconcile functions hand it on as an error through
    their wrappers; an entry point that meets one stops there. *)
Fixpoint unwinds (e : error) : bool :=
  match e with
  | Panic _ => true
  | Wrapf _ cause => unwinds cause
  | _ => false
  end.

(** What [Reconcile] returns. *)
Definition Outcome : Type := Result * result unit.

(** [ctrl.Result{}] *)
Definition noRequeue : Result := {| RequeueAfter := 0 |}.

Definition after (d : Z) : Result := {| RequeueAfter := d |}.

(** Code of an entry point, which can [return] at any statement: [inl]
    goes on to the next statement, [inr] is what the function returns. *)
Definition E (A : Type) : Type := Cluster -> (A + Outcome) * Cluster.

Definition goOn {A} (a : A) : E A := fun c => (inl a, c).

Definition Return {A} (o : Outcome) : E A := fun c => (inr o, c).

Definition andThen {A B} (m : E A) (k : A -> E B) : E B :=
  fun c => match m c with
           | (inl a, c) => k a c
           | (inr o, c) => (inr o, c)
           end.

(** [if err := f(); err != nil { return ctrl.Result{}, err }] *)
Definition orReturn {A} (m : Cluster -> result A * Cluster) : E A :=
  fun c => match m c with
           | (Ok a, c) => (inl a, c)
           | (Err err, c) => (inr (noRequeue, Err err), c)
           end.

(** A computation of the reconcile functions, run on the world of the
    cluster. *)
Definition inWorld {A} (m : M A) : E (result A) :=
  fun c => match m (c_world c) with (r, w) => (inl r, set_c_world w c) end.

(** [metav1.Now()] *)
Definition clock : E Z := fun c => (inl (w_now (c_world c)), c).

Definition finish (m : E Outcome) (c : Cluster) : Outcome * Cluster :=
  match m c with
  | (inl o, c) => (o, c)
  | (inr o, c) => (o, c)
  end.

End ClusterClient.

Declare Scope entry_scope.
Delimit Scope entry_scope with entry.
Notation "'do' x <- m ;; k" := (andThen m (fun x => k))
  (at level 10, x name, m at level 99, k at level 200, only parsing) : entry_scope.
Notation "'run' m ;; k" := (andThen m (fun _ => k))
  (at level 10, m at level 99, k at level 200, only parsing) : entry_scope.

(** ** internal/controller: [NatsAccountReconciler.Reconcile] *)

Module NatsAccountReconciler.
Section Entry.
Context `{P : Platform}.
Local Open Scope entry_scope.

Definition natsAccountFinalizer : string := "nats.jradikk/account-finalizer".

Definition getAuthConfig (account : NatsAccount) : M NatsAuthConfig :=
  let namespace := NatsAuthConfigRef_Namespace (Account_AuthConfigRef (Account_Spec account)) in
  let namespace := if nonEmpty namespace then namespace else Account_Namespace account in
  Get_NatsAuthConfig
    (namespace, NatsAuthConfigRef_Name (Account_AuthConfigRef (Account_Spec account))).

Definition handleDeletion (account : AccountObject) : E Outcome :=
  if ContainsFinalizer (ao_meta account) natsAccountFinalizer then
    do r <- inWorld (getAuthConfig (ao_account account)) ;;
    run match r with
        | Ok authConfig =>
          (* [_ = r.triggerAuthConfigReconcile(ctx, authConfig)] *)
          fun c => (inl tt, set_c_world (triggerAuthConfigReconcile authConfig (c_world c)).2 c)
        | Err _ => goOn tt
        end ;;
    let account :=
      set_ao_meta (RemoveFinalizer (ao_meta account) natsAccountFinalizer) account in
    run orReturn (Update_AccountObject account) ;;
    goOn (noRequeue, Ok tt)
  else goOn (noRequeue, Ok tt).

(** The three places where [Reconcile] gives up: the condition is set, the
    status sent, and the error returned with a requeue after a minute. *)
Definition giveUp (account : AccountObject) (reason : string) (err : error) : E Outcome :=
  do now <- clock ;;
  let account :=
    set_ao_report
      (updateCondition now (ao_report account)
         (condition "Ready" ConditionFalse reason (ErrorText err))) account in
  run orReturn (Status_Update_AccountObject account) ;;
  Return (after Minute, Err err).

Definition Reconcile (req : ObjectKey) : Cluster -> Outcome * Cluster :=
  finish (
    do fetched <- (fun c => (inl (Get_AccountObject req c), c)) ;;
    match fetched with
    | Err err =>
      if IsNotFound err then Return (noRequeue, Ok tt) else Return (noRequeue, Err err)
    | Ok account =>
      if bool_decide (DeletionTimestamp (ao_meta account) <> None)
      then handleDeletion account
      else
        do account <-
          (if negb (ContainsFinalizer (ao_meta account) natsAccountFinalizer) then
             orReturn (Update_AccountObject
                         (set_ao_meta (AddFinalizer (ao_meta account) natsAccountFinalizer)
                            account))
           else goOn account) ;;
        do r <- inWorld (getAuthConfig (ao_account account)) ;;
        match r with
        | Err err => giveUp account "AuthConfigNotFound" err
        | Ok authConfig =>
          if negb (bool_decide (Mode (AuthConfig_Spec authConfig) = AuthModeJWT)) &&
             negb (bool_decide (Mode (AuthConfig_Spec authConfig) = AuthModeMixed))
          then
            giveUp account "InvalidAuthMode"
              (Errorf "NatsAuthConfig must be in JWT or mixed mode for NatsAccount")
          else
            do r <- (fun c =>
                       let '(r, a, _, w) :=
                         reconcileAccount (ao_account account) authConfig (c_world c) in
                       (inl (r, a), set_c_world w c)) ;;
            let account := set_ao_account r.2 account in
            match r.1 with
            | Err err =>
              if unwinds err then Return (noRequeue, Err err)
              else giveUp account "ReconcileError" err
            | Ok _ =>
              do now <- clock ;;
              let report := set_LastReconciled (Some now) (ao_report account) in
              let report := set_ObservedGeneration (Generation (ao_meta account)) report in
              let report :=
                updateCondition now report
                  (condition "Ready" ConditionTrue "ReconcileSuccess"
                     (Literal "NatsAccount reconciled successfully")) in
              let account := set_ao_report report account in
              run orReturn (Status_Update_AccountObject account) ;;
              Return (after (5 * Minute), Ok tt)
            end
        end
    end).

End Entry.
End NatsAccountReconciler.

(** ** internal/controller: [NatsUserReconciler.Reconcile] *)

(** The Go strings behind the constants of [UserAuthType] and [AuthMode]:
    [Reconcile] converts the one into the other. *)
Definition authTypeName (t : UserAuthType) : string :=
  match t with
  | UserAuthTypeToken => "token"
  | UserAuthTypeJWT => "jwt"
  | UserAuthTypeInherit => "inherit"
  end.

Definition modeName (m : AuthMode) : string :=
  match m with
  | AuthModeToken => "token"
  | AuthModeJWT => "jwt"
  | AuthModeMixed => "mixed"
  end.

Module NatsUserReconciler.
Section Entry.
Context `{P : Platform}.
Local Open Scope entry_scope.

Definition natsUserFinalizer : string := "nats.jradikk/user-finalizer".

Definition getAuthConfig (user : NatsUser) : M NatsAuthConfig :=
  let namespace := NatsAuthConfigRef_Namespace (User_AuthConfigRef (User_Spec user)) in
  let namespace := if nonEmpty namespace then namespace else User_Namespace user in
  Get_NatsAuthConfig
    (namespace, NatsAuthConfigRef_Name (User_AuthConfigRef (User_Spec user))).

Definition handleDeletion (user : UserObject) : E Outcome :=
  if ContainsFinalizer (uo_meta user) natsUserFinalizer then
    let user := set_uo_meta (RemoveFinalizer (uo_meta user) natsUserFinalizer) user in
    run orReturn (Update_UserObject user) ;;
    goOn (noRequeue, Ok tt)
  else goOn (noRequeue, Ok tt).

Definition Reconcile (req : ObjectKey) : Cluster -> Outcome * Cluster :=
  finish (
    do fetched <- (fun c => (inl (Get_UserObject req c), c)) ;;
    match fetched with
    | Err err =>
      if IsNotFound err then Return (noRequeue, Ok tt) else Return (noRequeue, Err err)
    | Ok user =>
      if bool_decide (DeletionTimestamp (uo_meta user) <> None)
      then handleDeletion user
      else
        do user <-
          (if negb (ContainsFinalizer (uo_meta user) natsUserFinalizer) then
             orReturn (Update_UserObject
                         (set_uo_meta (AddFinalizer (uo_meta user) natsUserFinalizer) user))
           else goOn user) ;;
        do r <- inWorld (getAuthConfig (uo_user user)) ;;
        match r with
        | Err err =>
          let user := updateStatus user UserStateError (ErrorText err) in
          run orReturn (Status_Update_UserObject user) ;;
          Return (after Minute, Err err)
        | Ok authConfig =>
          let authType := authTypeName (AuthType (User_Spec (uo_user user))) in
          let authType :=
            if String.eqb authType (authTypeName UserAuthTypeInherit)
            then modeName (Mode (AuthConfig_Spec authConfig)) else authType in
          do r <- (fun c =>
                     if String.eqb authType (authTypeName UserAuthTypeJWT) then
                       let '(r, u, w) :=
                         reconcileJWTUser (uo_user user) authConfig (c_world c) in
                       (inl (r, u), set_c_world w c)
                     else if String.eqb authType (authTypeName UserAuthTypeToken) then
                       let '(r, u, w) :=
                         reconcileTokenUser (uo_user user) authConfig (c_world c) in
                       (inl (r, u), set_c_world w c)
                     else
                       (inl (Err (Errorf ("unsupported auth type: " +:+ authType)),
                             uo_user user), c)) ;;
          let reconcileErr := r.1 in
          let user := set_uo_user r.2 user in
          run (if match reconcileErr with Err err => unwinds err | Ok _ => false end
               then Return (noRequeue, reconcileErr) else goOn tt) ;;
          do now <- clock ;;
          let report := set_LastReconciled (Some now) (uo_report user) in
          let report := set_ObservedGeneration (Generation (uo_meta user)) report in
          let user := set_uo_report report user in
          match reconcileErr with
          | Err err =>
            let user := updateStatus user UserStateError (ErrorText err) in
            let user :=
              set_uo_report
                (updateCondition now (uo_report user)
                   (condition "Ready" ConditionFalse "ReconcileError" (ErrorText err)))
                user in
            run orReturn (Status_Update_UserObject user) ;;
            Return (after Minute, Err err)
          | Ok _ =>
            let user :=
              updateStatus user UserStateReady (Literal "User reconciled successfully") in
            let user :=
              set_uo_report
                (updateCondition now (uo_report user)
                   (condition "Ready" ConditionTrue "ReconcileSuccess"
                      (Literal "NatsUser reconciled successfully")))
                user in
            run orReturn (Status_Update_UserObject user) ;;
            Return (after (5 * Minute), Ok tt)
          end
        end
    end).

End Entry.
End NatsUserReconciler.

(** ** internal/controller: [NatsAuthConfigReconciler.Reconcile] *)

Module NatsAuthConfigReconciler.
Section Entry.
Context `{P : Platform}.
Local Open Scope entry_scope.

Definition natsAuthConfigFinalizer : string := "nats.jradikk/authconfig-finalizer".

Definition validateSpec (authConfig : NatsAuthConfig) : result unit :=
  if bool_decide (Mode (AuthConfig_Spec authConfig) = AuthModeJWT) ||
     bool_decide (Mode (AuthConfig_Spec authConfig) = AuthModeMixed)
  then
    match JWT (AuthConfig_Spec authConfig) with
    | None => Err (Errorf "JWT configuration is required for JWT or mixed mode")
    | Some _ => Ok tt
    end
  else Ok tt.

Definition handleDeletion (authConfig : AuthConfigObject) : E Outcome :=
  if ContainsFinalizer (co_meta authConfig) natsAuthConfigFinalizer then
    let authConfig :=
      set_co_meta (RemoveFinalizer (co_meta authConfig) natsAuthConfigFinalizer)
        authConfig in
    run orReturn (Update_AuthConfigObject authConfig) ;;
    goOn (noRequeue, Ok tt)
  else goOn (noRequeue, Ok tt).

(** [Mode] is one of the three constants, so the [default] branch of the
    switch in [Reconcile] is not reached. *)
Definition Reconcile (req : ObjectKey) : Cluster -> Outcome * Cluster :=
  finish (
    do fetched <- (fun c => (inl (Get_AuthConfigObject req c), c)) ;;
    match fetched with
    | Err err =>
      if IsNotFound err then Return (noRequeue, Ok tt) else Return (noRequeue, Err err)
    | Ok authConfig =>
      if bool_decide (DeletionTimestamp (co_meta authConfig) <> None)
      then handleDeletion authConfig
      else
        do authConfig <-
          (if negb (ContainsFinalizer (co_meta authConfig) natsAuthConfigFinalizer) then
             orReturn (Update_AuthConfigObject
                         (set_co_meta
                            (AddFinalizer (co_meta authConfig) natsAuthConfigFinalizer)
                            authConfig))
           else goOn authConfig) ;;
        match validateSpec (co_authConfig authConfig) with
        | Err err =>
          do now <- clock ;;
          let authConfig :=
            set_co_report
              (updateCondition now (co_report authConfig)
                 (condition "Ready" ConditionFalse "InvalidSpec" (ErrorText err)))
              authConfig in
          run orReturn (Status_Update_AuthConfigObject authConfig) ;;
          Return (after Minute, Ok tt)
        | Ok _ =>
          do r <- (fun c =>
                     let '(r, a, w) :=
                       match Mode (AuthConfig_Spec (co_authConfig authConfig)) with
                       | AuthModeJWT =>
                         reconcileJWTMode (co_authConfig authConfig) (c_world c)
                       | AuthModeToken =>
                         reconcileTokenMode (co_authConfig authConfig) (c_world c)
                       | AuthModeMixed =>
                         reconcileMixedMode (co_authConfig authConfig) (c_world c)
                       end in
                     (inl (r, a), set_c_world w c)) ;;
          let reconcileErr := r.1 in
          let authConfig := set_co_authConfig r.2 authConfig in
          run (if match reconcileErr with Err err => unwinds err | Ok _ => false end
               then Return (noRequeue, reconcileErr) else goOn tt) ;;
          do now <- clock ;;
          let report := set_LastReconciled (Some now) (co_report authConfig) in
          let report := set_ObservedGeneration (Generation (co_meta authConfig)) report in
          let authConfig := set_co_report report authConfig in
          match reconcileErr with
          | Err err =>
            let authConfig :=
              set_co_report
                (updateCondition now (co_report authConfig)
                   (condition "Ready" ConditionFalse "ReconcileError" (ErrorText err)))
                authConfig in
            run orReturn (Status_Update_AuthConfigObject authConfig) ;;
            Return (after Minute, Err err)
          | Ok _ =>
            let authConfig :=
              set_co_report
                (updateCondition now (co_report authConfig)
                   (condition "Ready" ConditionTrue "ReconcileSuccess"
                      (Literal "NatsAuthConfig reconciled successfully")))
                authConfig in
            run orReturn (Status_Update_AuthConfigObject authConfig) ;;
            Return (after (5 * Minute), Ok tt)
          end
        end
    end).

End Entry.
End NatsAuthConfigReconciler.

(** ** A small concrete platform

    Used to run the embedding on concrete inputs. Seeds are ["S"] followed
    by the public key, as nkeys seeds are; random draws are numbered. *)

Module Toy.

Definition digit (n : nat) : string :=
  String (ascii_of_nat (48 + n mod 10)) EmptyString.

Fixpoint repeat_string (n : nat) (s : string) : string :=
  match n with
  | O => ""
  | S n => s +:+ repeat_string n s
  end.

Definition FromSeed (seed : string) : result KeyPair :=
  match seed with
  | String "S" (String c rest) =>
    Ok {| kp_PublicKey := Ok (String c rest); kp_Seed := Ok seed |}
  | _ => Err (ErrLib "nkeys: invalid encoded key")
  end.

Definition letter (p : PrefixByte) : string :=
  match p with
  | PrefixByteOperator => "O"
  | PrefixByteAccount => "A"
  | PrefixByteUser => "U"
  end.

Definition CreatePair (p : PrefixByte) (rng : nat) : result KeyPair * nat :=
  (FromSeed ("S" +:+ letter p +:+ digit rng), S rng).

Definition NoLimit : Z := -1.

Definition NewOperatorClaims (subject : string) : OperatorClaims :=
  {| oc_Subject := subject; oc_Name := ""; oc_Issuer := ""; oc_IssuedAt := 0 |}.

Definition NewAccountClaims (subject : string) : AccountClaims :=
  {| ac_Subject := subject; ac_Name := ""; ac_Description := ""; ac_Issuer := "";
     ac_IssuedAt := 0;
     ac_Limits :=
       {| l_Conn := NoLimit; l_Subs := NoLimit; l_Payload := NoLimit;
          l_Data := NoLimit; l_Exports := NoLimit; l_Imports := NoLimit;
          l_WildcardExports := true;
          l_MemoryStorage := 0; l_DiskStorage := 0; l_Streams := 0;
          l_Consumer := 0; l_MaxAckPending := 0; l_MemoryMaxStreamBytes := 0;
          l_DiskMaxStreamBytes := 0; l_MaxBytesRequired := false |} |}.

Definition NewUserClaims (subject : string) : UserClaims :=
  {| uc_Subject := subject; uc_Name := ""; uc_Issuer := ""; uc_IssuedAt := 0;
     uc_PubAllow := []; uc_PubDeny := []; uc_SubAllow := []; uc_SubDeny := [] |}.

Definition showConn (z : Z) : string :=
  if z <? 0 then "-" else repeat_string (Z.to_nat (z / 100)) "c".

(** A token that shows who issued it, to whom, and the part of the claims
    that the examples change. *)
Definition Encode (c : Claims) (kp : KeyPair) : result string :=
  match kp_PublicKey kp with
  | Err e => Err e
  | Ok _ =>
    Ok match c with
       | OperatorC c => "iss=" +:+ oc_Issuer c +:+ ";sub=" +:+ oc_Subject c
       | AccountC c =>
         "iss=" +:+ ac_Issuer c +:+ ";sub=" +:+ ac_Subject c +:+
         ";conn=" +:+ showConn (l_Conn (ac_Limits c))
       | UserC c =>
         "iss=" +:+ uc_Issuer c +:+ ";sub=" +:+ uc_Subject c +:+
         ";pub=" +:+ String.concat "," (uc_PubAllow c)
       end
  end.

Definition Read (n : nat) (rng : nat) : result string * nat :=
  (Ok (repeat_string n (digit rng)), S rng).

Definition Quote (s : string) : string := dquote +:+ s +:+ dquote.

#[export] Instance platform : Platform :=
  {| Rng := nat;
     nkeys_FromSeed := FromSeed;
     nkeys_CreatePair := CreatePair;
     jwt_NewOperatorClaims := NewOperatorClaims;
     jwt_NewAccountClaims := NewAccountClaims;
     jwt_NewUserClaims := NewUserClaims;
     StringList_Add := fun l xs => (l ++ xs)%list;
     jwt_Encode := Encode;
     rand_Read := Read;
     base64_URLEncode := fun s => s +:+ s;
     strconv_Quote := Quote;
     time_FormatRFC3339 := fun z => repeat_string (Z.to_nat z) "t" |}.

(** The same platform with tokens that consist of their issuer alone. *)
Definition issuerOnly : Platform :=
  {| Rng := nat;
     nkeys_FromSeed := FromSeed;
     nkeys_CreatePair := CreatePair;
     jwt_NewOperatorClaims := NewOperatorClaims;
     jwt_NewAccountClaims := NewAccountClaims;
     jwt_NewUserClaims := NewUserClaims;
     StringList_Add := fun l xs => (l ++ xs)%list;
     jwt_Encode := fun c kp => Ok (claims_Issuer c);
     rand_Read := Read;
     base64_URLEncode := fun s => s +:+ s;
     strconv_Quote := Quote;
     time_FormatRFC3339 := fun z => repeat_string (Z.to_nat z) "t" |}.

End Toy.

(** * Properties *)

(** ** Vocabulary of the statements *)

Section Vocabulary.
Context `{P : Platform}.

(** A call of one of the two signers of subordinate tokens. *)
Inductive SignCall :=
| SignUser (am : AccountManager) (userClaims : UserClaims)
| SignAccount (om : OperatorManager) (accountClaims : AccountClaims).

(** The public key of the parent that signs. *)
Definition signer (call : SignCall) : result string :=
  match call with
  | SignUser am _ => AccountManager_GetPublicKey am
  | SignAccount om _ => OperatorManager_GetPublicKey om
  end.

(** The claims after the call, and the token. *)
Definition sign (call : SignCall) : Claims * result string :=
  match call with
  | SignUser am c =>
    (UserC (AccountManager_SignUserJWT am c).1, (AccountManager_SignUserJWT am c).2)
  | SignAccount om c =>
    (AccountC (OperatorManager_SignAccountJWT om c).1,
     (OperatorManager_SignAccountJWT om c).2)
  end.

(** The same call on claims whose issuer the caller has set to [x]. *)
Definition prepopulated (x : string) (call : SignCall) : SignCall :=
  match call with
  | SignUser am c => SignUser am (set_uc_Issuer x c)
  | SignAccount om c => SignAccount om (set_ac_Issuer x c)
  end.

(** The three constructors of key managers. *)
Inductive ManagerKind :=
| OperatorKind (operatorName : string) (now : Z)
| AccountKind
| UserKind.

Inductive Manager :=
| AnOperator (om : OperatorManager)
| AnAccount (am : AccountManager)
| AUser (um : UserManager).

Definition construct (k : ManagerKind) (seed : string) (rng : Rng)
    : result Manager * Rng :=
  match k with
  | OperatorKind operatorName now =>
    match NewOperatorManager seed operatorName now rng with
    | (Ok om, rng) => (Ok (AnOperator om), rng)
    | (Err e, rng) => (Err e, rng)
    end
  | AccountKind =>
    match NewAccountManager seed rng with
    | (Ok am, rng) => (Ok (AnAccount am), rng)
    | (Err e, rng) => (Err e, rng)
    end
  | UserKind =>
    match NewUserManager seed rng with
    | (Ok um, rng) => (Ok (AUser um), rng)
    | (Err e, rng) => (Err e, rng)
    end
  end.

Definition GetPublicKey (m : Manager) : result string :=
  match m with
  | AnOperator om => OperatorManager_GetPublicKey om
  | AnAccount am => AccountManager_GetPublicKey am
  | AUser um => UserManager_GetPublicKey um
  end.

Definition GetKeyPair (m : Manager) : KeyPair :=
  match m with
  | AnOperator om => operatorKP om
  | AnAccount am => accountKP am
  | AUser um => userKP um
  end.

(** The strings of a list, one after the other. *)
Definition catenate (l : list string) : string := foldr String.append "" l.

(** The entries that [RenderTokenAuthConf] writes, one for each user. *)
Definition userEntries (users : list TokenUser) : list string :=
  imap (writeUser (length users)) users.

(** The [resolver_preload] block made of the given bindings. *)
Definition preloadBlock (bindings : list string) : string :=
  match bindings with
  | [] => ""
  | _ :: _ =>
    line "resolver_preload: {" +:+
    Join bindings ("," +:+ newline) +:+ newline +:+
    line "}"
  end.

(** The mapping from account id to account token that a list of accounts
    stands for. *)
Definition preloadMapping (accounts : list AccountJWT) : gmap string string :=
  list_to_map (map (fun acc => (AccountJWT_AccountID acc, AccountJWT_JWT acc)) accounts).

(** The data entries of the object that [WriteResolverConfig] targets. *)
Definition targetData (configType : string) (key : ObjectKey) (w : World)
    : option (gmap string string) :=
  if decide (configType = "Secret")
  then Secret_Data <$> w_secrets w !! key
  else ConfigMap_Data <$> w_configmaps w !! key.

(** The spec of a flat-mode user sets [passwordFrom] with [generate] false
    and either no [secretRef] or one to a secret without a ["password"]
    entry. *)
Definition declaresNoPassword (user : NatsUser) (w : World) : Prop :=
  exists passwordFrom,
    PasswordFrom (User_Spec user) = Some passwordFrom /\
    Generate passwordFrom = false /\
    match PasswordSource_SecretRef passwordFrom with
    | None => True
    | Some ref =>
      exists secret,
        w_secrets w !! (SecretRef_Namespace ref, SecretRef_Name ref) = Some secret /\
        Secret_Data secret !! "password" = None
    end.

(** The user has a username: a declared one, or one that the generator
    yields from the current state of the random source. *)
Definition usernameAvailable (user : NatsUser) (w : World) : Prop :=
  nonEmpty (Username (User_Spec user)) = true \/
  isOk (GenerateUsername (User_Name user) (w_rng w)).1 = true.

Definition credsKey (user : NatsUser) : ObjectKey :=
  (User_Namespace user, User_Name user +:+ "-user-creds").

(** What [collectAccountJWTs] takes from one account of the namespace of
    [authConfig]: nothing if the account names another configuration, has
    no secret, has a secret without ["account.jwt"], or has no account id
    in its status. *)
Definition collected (authConfig : NatsAuthConfig) (w : World) (account : NatsAccount)
    : option AccountJWT :=
  if bool_decide (NatsAuthConfigRef_Name (Account_AuthConfigRef (Account_Spec account))
                  = AuthConfig_Name authConfig)
  then
    secret ← w_secrets w !! (Account_Namespace account,
                             Account_Name account +:+ "-account-jwt");
    jwtData ← Secret_Data secret !! "account.jwt";
    if nonEmpty (AccountID (Account_Status account))
    then Some {| AccountName := Account_Name account;
                 AccountJWT_AccountID := AccountID (Account_Status account);
                 AccountJWT_JWT := jwtData |}
    else None
  else None.

(** The key of the aggregate secret of a configuration. *)
Definition aggregateKey (authConfig : NatsAuthConfig) : ObjectKey :=
  (ServerAuthConfig_Namespace (ServerAuthConfig (AuthConfig_Spec authConfig)),
   ServerAuthConfig_Name (ServerAuthConfig (AuthConfig_Spec authConfig))).

End Vocabulary.

(** ** Concrete inputs *)

Module Scenario.
Import Toy.

Definition secret (namespace name : string) (data : list (string * string)) : Secret :=
  {| Secret_Name := name; Secret_Namespace := namespace;
     Secret_OwnerReferences := [];
     Secret_Data := list_to_map data; Secret_StringData := ∅ |}.

Definition secrets (l : list Secret) : gmap ObjectKey Secret :=
  list_to_map (map (fun s => (keyOf s, s)) l).

(** The NatsAuthConfig [ns/cfg] in JWT mode that manages its operator seed
    itself and aggregates into the secret [ns/nats-auth-jwts]. *)
Definition cfg : NatsAuthConfig :=
  {| AuthConfig_Name := "cfg"; AuthConfig_Namespace := "ns";
     AuthConfig_Annotations := ∅;
     AuthConfig_Spec :=
       {| NatsURL := "nats://nats:4222"; Mode := AuthModeJWT;
          ServerAuthConfig :=
            {| ServerAuthConfig_Name := "nats-auth-jwts";
               ServerAuthConfig_Namespace := "ns";
               ServerAuthConfig_Key := "auth.conf";
               ServerAuthConfig_Type := "Secret" |};
          JWT := Some {| ResolverDir := "/var/lib/nats-resolver";
                         OperatorSeedSecret := None;
                         OperatorName := "NATS Operator" |} |};
     AuthConfig_Status := {| OperatorPubKey := "O0"; ResolverReady := true |} |}.

Definition operatorSeed : Secret :=
  secret "ns" "cfg-operator-seed" [ ("operator.seed", "SO0") ].

Definition world (ss : list Secret)
    (accounts : list (ObjectKey * (NatsAccountSpec * NatsAccountStatus)))
    (rng : nat) (now : Z) : World :=
  {| w_secrets := secrets ss; w_configmaps := ∅;
     w_authconfigs := {[ ("ns", "cfg") := cfg ]};
     w_accounts := list_to_map accounts;
     w_rng := rng; w_now := now; w_writes := [] |}.

Definition limits (conn : Z) : AccountLimits :=
  {| Conn := conn; Subs := -1; Payload := -1; Data := -1; Exports := -1;
     Imports := -1; WildcardExports := true; JetStream := None |}.

Definition accountSpec (conn : Z) : NatsAccountSpec :=
  {| Account_AuthConfigRef := {| NatsAuthConfigRef_Name := "cfg";
                                 NatsAuthConfigRef_Namespace := "" |};
     Description := "production"; Limits := Some (limits conn);
     Account_ExistingSeedSecret := None |}.

Definition accountStatus (id : string) (name : string) : NatsAccountStatus :=
  {| AccountID := id; Account_PublicKey := id;
     JWTSecretRef := {| SecretRef_Name := name +:+ "-account-jwt";
                        SecretRef_Namespace := "ns" |} |}.

Definition noStatus : NatsAccountStatus :=
  {| AccountID := ""; Account_PublicKey := "";
     JWTSecretRef := {| SecretRef_Name := ""; SecretRef_Namespace := "" |} |}.

Definition account (name : string) (conn : Z) (status : NatsAccountStatus) : NatsAccount :=
  {| Account_Name := name; Account_Namespace := "ns";
     Account_Spec := accountSpec conn; Account_Status := status |}.

Definition withConn (conn : Z) (a : NatsAccount) : NatsAccount :=
  {| Account_Name := Account_Name a; Account_Namespace := Account_Namespace a;
     Account_Spec := accountSpec conn; Account_Status := Account_Status a |}.

(** The token and the seed in the secret of account [name]. *)
Definition accountRecord (name : string) (w : World) : option (string * string) :=
  s ← w_secrets w !! ("ns", name +:+ "-account-jwt");
  Some (index (Secret_Data s) "account.jwt", index (Secret_Data s) "account.seed").

(** The status id [A9] does not belong to the stored seed [SA1]. *)
Definition mismatchWorld : World :=
  world [ operatorSeed;
          secret "ns" "prod-account-jwt"
            [ ("account.jwt", "iss=O0;sub=A1;conn=c"); ("account.seed", "SA1") ] ]
        [] 5 2.

Definition mismatchAccount : NatsAccount := account "prod" 100 (accountStatus "A9" "prod").

(** Account [prod] is declared with 100 connections and not yet reconciled. *)
Definition freshWorld : World := world [ operatorSeed ] [] 5 2.

Definition freshAccount : NatsAccount := account "prod" 100 noStatus.

(** The world after the first pass over [prod], one tick later, with the
    status that the pass has set stored in the account object. *)
Definition afterFirstPass : World :=
  let r := reconcileAccount freshAccount cfg freshWorld in
  {| w_secrets := w_secrets r.2; w_configmaps := w_configmaps r.2;
     w_authconfigs := w_authconfigs r.2;
     w_accounts := {[ ("ns", "prod") := (accountSpec 100, Account_Status r.1.1.2) ]};
     w_rng := w_rng r.2; w_now := 3; w_writes := [] |}.

Definition reconciledAccount : NatsAccount :=
  (reconcileAccount freshAccount cfg freshWorld).1.1.2.

Definition reconciledCfg : NatsAuthConfig :=
  (reconcileAccount freshAccount cfg freshWorld).1.2.

Definition permissions (publishAllow : list string) : Permissions :=
  {| PublishAllow := publishAllow; PublishDeny := [];
     SubscribeAllow := []; SubscribeDeny := [] |}.

Definition noUserStatus : NatsUserStatus :=
  {| User_SecretRef := {| SecretRef_Name := ""; SecretRef_Namespace := "" |};
     User_PublicKey := "" |}.

(** A hierarchical user [svc] of account [prod]. *)
Definition jwtUser (publishAllow : list string) (status : NatsUserStatus) : NatsUser :=
  {| User_Name := "svc"; User_Namespace := "ns";
     User_Spec :=
       {| User_AuthConfigRef := {| NatsAuthConfigRef_Name := "cfg";
                                   NatsAuthConfigRef_Namespace := "" |};
          AuthType := UserAuthTypeJWT;
          AccountRef := Some {| NatsAccountRef_Name := "prod";
                                NatsAccountRef_Namespace := "" |};
          Username := "";
          PasswordFrom := None;
          User_Permissions := Some (permissions publishAllow);
          User_ExistingSeedSecret := None |};
     User_Status := status |}.

(** A flat-mode user [pub] with the given password source. *)
Definition tokenUser (passwordFrom : option PasswordSource) : NatsUser :=
  {| User_Name := "pub"; User_Namespace := "ns";
     User_Spec :=
       {| User_AuthConfigRef := {| NatsAuthConfigRef_Name := "cfg";
                                   NatsAuthConfigRef_Namespace := "" |};
          AuthType := UserAuthTypeToken;
          AccountRef := None;
          Username := "pub";
          PasswordFrom := passwordFrom;
          User_Permissions := Some (permissions [ "events.>" ]);
          User_ExistingSeedSecret := None |};
     User_Status := noUserStatus |}.

Definition generated : option PasswordSource :=
  Some {| Generate := true; PasswordSource_SecretRef := None |}.

Definition undeclared : option PasswordSource :=
  Some {| Generate := false; PasswordSource_SecretRef := None |}.

(** What the credentials secret of a user reads at [key]. *)
Definition credential (user : NatsUser) (key : string) (w : World) : option string :=
  s ← w_secrets w !! credsKey user;
  Some (index (Secret_Data s) key).

(** An account whose resource name is [operator], reconciled, with its
    token stored. *)
Definition operatorNamedWorld : World :=
  world [ operatorSeed;
          secret "ns" "operator-account-jwt"
            [ ("account.jwt", "iss=O0;sub=A1;conn=c"); ("account.seed", "SA1") ] ]
        [ (("ns", "operator"), (accountSpec 100, accountStatus "A1" "operator")) ]
        5 2.

(** The data of the aggregate secret. *)
Definition aggregate (w : World) : option (list (string * string)) :=
  s ← w_secrets w !! ("ns", "nats-auth-jwts");
  Some (map_to_list (Secret_Data s)).

End Scenario.

(** ** Vocabulary of the further statements *)

Section FurtherVocabulary.
Context `{P : Platform}.

(** The key of the secret that holds the token and the seed of an account. *)
Definition accountKey (account : NatsAccount) : ObjectKey :=
  (Account_Namespace account, Account_Name account +:+ "-account-jwt").

(** The early return of [reconcileAccount] applies: the secret of the
    account exists and passes the test against the status. *)
Definition upToDate (account : NatsAccount) (w : World) : bool :=
  match w_secrets w !! accountKey account with
  | Some s => matchesStatus account s
  | None => false
  end.

(** No newline among the bytes of a string. *)
Fixpoint oneLine (s : string) : bool :=
  match s with
  | EmptyString => true
  | String c s => negb (Ascii.eqb c (ascii_of_nat 10)) && oneLine s
  end.

(** The same user with another password. *)
Definition withPassword (password : string) (user : TokenUser) : TokenUser :=
  {| TokenUser_Username := TokenUser_Username user;
     TokenUser_Password := password;
     TokenUser_Token := TokenUser_Token user;
     TokenUser_Permissions := TokenUser_Permissions user |}.

(** The key of a configuration object. *)
Definition authConfigKey (authConfig : NatsAuthConfig) : ObjectKey :=
  (AuthConfig_Namespace authConfig, AuthConfig_Name authConfig).

(** From [w] to [w'] no secret other than those of [secretKeys] and no
    configuration other than those of [authConfigKeys] has changed, and no
    ConfigMap, no account object and not the clock. *)
Definition frame (secretKeys authConfigKeys : list ObjectKey) (w w' : World) : Prop :=
  (forall k, k ∉ secretKeys -> w_secrets w' !! k = w_secrets w !! k) /\
  (forall k, k ∉ authConfigKeys -> w_authconfigs w' !! k = w_authconfigs w !! k) /\
  w_configmaps w' = w_configmaps w /\
  w_accounts w' = w_accounts w /\
  w_now w' = w_now w.

(** A computation that stays within [frame], whatever its outcome. *)
Definition keeps {A} (secretKeys authConfigKeys : list ObjectKey) (m : M A) : Prop :=
  forall w, frame secretKeys authConfigKeys w (m w).2.

(** The key of the secret in which the configuration controller keeps an
    operator seed of its own making. *)
Definition managedSeedKey (authConfig : NatsAuthConfig) : ObjectKey :=
  (AuthConfig_Namespace authConfig, AuthConfig_Name authConfig +:+ "-operator-seed").

(** The seed that a reference to a secret of the user's own making
    designates, if the secret exists and has the entry. *)
Definition externalSeed (ref : SecretRef) (key : string) (w : World) : option string :=
  s ← w_secrets w !! (SecretRef_Namespace ref, SecretRef_Name ref);
  Secret_Data s !! key.

(** The early return of [reconcileJWTUser] applies: the status of the user
    has a public key and the credentials secret has a credentials file. *)
Definition credentialsIssued (user : NatsUser) (w : World) : bool :=
  match w_secrets w !! credsKey user with
  | Some s =>
    nonEmpty (User_PublicKey (User_Status user)) &&
    nonEmpty (index (Secret_Data s) "user.creds")
  | None => false
  end.

(** The name that the token of a hierarchical user carries. *)
Definition tokenName (user : NatsUser) : string :=
  if nonEmpty (Username (User_Spec user))
  then Username (User_Spec user) else User_Name user.


(** The name under which the configuration controller issues the operator
    token. *)
Definition operatorNameOf (jwtConfig : JWTConfig) : string :=
  if nonEmpty (OperatorName jwtConfig) then OperatorName jwtConfig else "NATS Operator".

(** The cluster after the first statements of [Reconcile] over an account
    that exists and is not being deleted: the finalizer is stored. *)
Definition withFinalizer (req : ObjectKey) (account : AccountObject) (c : Cluster)
    : Cluster :=
  if ContainsFinalizer (ao_meta account) NatsAccountReconciler.natsAccountFinalizer
  then c
  else {| c_world := c_world c;
          c_accounts :=
            <[ req := (AddFinalizer (ao_meta account)
                         NatsAccountReconciler.natsAccountFinalizer,
                       ao_report account) ]> (c_accounts c);
          c_authconfigs := c_authconfigs c; c_users := c_users c |}.

(** The cluster after the user controller has seen to its finalizer on a
    user object that is not being deleted. *)
Definition userWithFinalizer (req : ObjectKey) (user : UserObject) (c : Cluster)
    : Cluster :=
  if ContainsFinalizer (uo_meta user) NatsUserReconciler.natsUserFinalizer
  then c
  else set_c_users
         (<[ req := set_uo_meta (AddFinalizer (uo_meta user)
                                   NatsUserReconciler.natsUserFinalizer) user ]>
            (c_users c)) c.

End FurtherVocabulary.

(** ** Clusters for the entry points *)

Module EntryScenario.
Import Toy Scenario.

(** The configuration [ns/cfg] in another mode, or without its [jwt]
    block. *)
Definition cfgWith (mode : AuthMode) (jwt : option JWTConfig) : NatsAuthConfig :=
  {| AuthConfig_Name := "cfg"; AuthConfig_Namespace := "ns";
     AuthConfig_Annotations := ∅;
     AuthConfig_Spec :=
       {| NatsURL := NatsURL (AuthConfig_Spec cfg); Mode := mode;
          ServerAuthConfig := ServerAuthConfig (AuthConfig_Spec cfg);
          JWT := jwt |};
     AuthConfig_Status := {| OperatorPubKey := ""; ResolverReady := false |} |}.

(** A cluster with the configuration [ns/cfg], its operator seed, the
    account [ns/prod] not yet reconciled, and the given metadata of
    accounts and user objects. *)
Definition cluster (authConfig : NatsAuthConfig)
    (accounts : gmap ObjectKey (ObjectMeta * Report))
    (users : gmap ObjectKey UserObject) : Cluster :=
  {| c_world :=
       {| w_secrets := secrets [ operatorSeed ]; w_configmaps := ∅;
          w_authconfigs := {[ ("ns", "cfg") := authConfig ]};
          w_accounts := {[ ("ns", "prod") := (accountSpec 100, noStatus) ]};
          w_rng := 5%nat; w_now := 2; w_writes := [] |};
     c_accounts := accounts; c_authconfigs := ∅; c_users := users |}.

(** The metadata of an object that is being deleted. *)
Definition deleting (finalizers : list string) : ObjectMeta :=
  {| Finalizers := finalizers; DeletionTimestamp := Some 1; Generation := 1 |}.

Definition accountObject (meta : ObjectMeta) : AccountObject :=
  {| ao_meta := meta; ao_account := freshAccount; ao_report := zero.2 |}.

Definition userObject (meta : ObjectMeta) (user : NatsUser) : UserObject :=
  {| uo_meta := meta; uo_user := user; uo_state := UserStatePending;
     uo_reason := Literal ""; uo_report := zero.2 |}.

(** The user [ns/svc] of account [prod] with the given [authType]. *)
Definition userOfType (authType : UserAuthType) : NatsUser :=
  {| User_Name := "svc"; User_Namespace := "ns";
     User_Spec :=
       {| User_AuthConfigRef := {| NatsAuthConfigRef_Name := "cfg";
                                   NatsAuthConfigRef_Namespace := "" |};
          AuthType := authType;
          AccountRef := Some {| NatsAccountRef_Name := "prod";
                                NatsAccountRef_Namespace := "" |};
          Username := "";
          PasswordFrom := None;
          User_Permissions := None;
          User_ExistingSeedSecret := None |};
     User_Status := noUserStatus |}.

End EntryScenario.

(** ** Token signing and key managers *)

Section JwtProperties.
Context `{P : Platform}.

Lemma set_uc_Issuer_twice x y c : set_uc_Issuer y (set_uc_Issuer x c) = set_uc_Issuer y c.
Proof. reflexivity. Qed.

Lemma set_ac_Issuer_twice x y c : set_ac_Issuer y (set_ac_Issuer x c) = set_ac_Issuer y c.
Proof. reflexivity. Qed.

(** C1. Whenever [SignUserJWT] or [SignAccountJWT] returns a token, the
    signing parent has a public key, the issuer of the signed claims and of
    the token is that key, and the outcome is the same whatever issuer the
    caller had put into the claims. The issuer of a token is read by any
    [issuerOf] that returns the issuer written into the encoded claims. *)
Theorem sign_issuer_is_parent (issuerOf : string -> option string)
    (call : SignCall) (claims' : Claims) (token : string) :
  (forall c kp pub t,
      kp_PublicKey kp = Ok pub -> claims_Issuer c = pub ->
      jwt_Encode c kp = Ok t -> issuerOf t = Some pub) ->
  sign call = (claims', Ok token) ->
  exists pub,
    signer call = Ok pub /\
    claims_Issuer claims' = pub /\
    issuerOf token = Some pub /\
    forall x, sign (prepopulated x call) = (claims', Ok token).
Proof.
  intros Hlib Hsign.
  destruct call as [am c | om c]; simpl in Hsign |- *.
  - unfold AccountManager_SignUserJWT, AccountManager_GetPublicKey in *.
    destruct (kp_PublicKey (accountKP am)) as [pub | e] eqn:Hpub; [| discriminate].
    destruct (jwt_Encode (UserC (set_uc_Issuer pub c)) (accountKP am))
      as [t | e] eqn:Henc; [| discriminate].
    simpl in Hsign. injection Hsign as <- <-.
    exists pub. split; [reflexivity |]. split; [reflexivity |].
    split; [exact (Hlib (UserC (set_uc_Issuer pub c)) _ pub _ Hpub eq_refl Henc) |].
    intros x. rewrite !set_uc_Issuer_twice, Henc. reflexivity.
  - unfold OperatorManager_SignAccountJWT, OperatorManager_GetPublicKey in *.
    destruct (kp_PublicKey (operatorKP om)) as [pub | e] eqn:Hpub; [| discriminate].
    destruct (jwt_Encode (AccountC (set_ac_Issuer pub c)) (operatorKP om))
      as [t | e] eqn:Henc; [| discriminate].
    simpl in Hsign. injection Hsign as <- <-.
    exists pub. split; [reflexivity |]. split; [reflexivity |].
    split; [exact (Hlib (AccountC (set_ac_Issuer pub c)) _ pub _ Hpub eq_refl Henc) |].
    intros x. rewrite !set_ac_Issuer_twice, Henc. reflexivity.
Qed.

Lemma construct_from_seed k seed rng kp :
  nonEmpty seed = true -> nkeys_FromSeed seed = Ok kp ->
  forall m rng', construct k seed rng = (Ok m, rng') -> GetKeyPair m = kp /\ rng' = rng.
Proof.
  intros Hne Hkp m rng'. destruct k as [name now | |]; simpl;
    unfold NewOperatorManager, NewAccountManager, NewUserManager;
    rewrite Hne, Hkp.
  - destruct (kp_PublicKey kp); [| intros [=]].
    destruct (jwt_Encode _ kp); intros [= <- <-]. done.
  - intros [= <- <-]. done.
  - intros [= <- <-]. done.
Qed.

(** C5. For a non-empty seed, any two constructions of key managers from
    it that return a manager return the same public key, whatever the
    random source and the clock; none of them draws from the random source;
    the account and user constructors return a manager whenever nkeys
    accepts the seed; and every constructor returns the error of nkeys,
    wrapped, when nkeys refuses the seed. *)
Theorem managers_from_seed_agree (seed : string) (k1 k2 : ManagerKind)
    (rng1 rng2 : Rng) :
  nonEmpty seed = true ->
  (forall m1 m2 rng1' rng2',
      construct k1 seed rng1 = (Ok m1, rng1') ->
      construct k2 seed rng2 = (Ok m2, rng2') ->
      GetPublicKey m1 = GetPublicKey m2 /\ rng1' = rng1 /\ rng2' = rng2) /\
  (forall kp, nkeys_FromSeed seed = Ok kp ->
      construct AccountKind seed rng1 = (Ok (AnAccount {| accountKP := kp |}), rng1) /\
      construct UserKind seed rng1 = (Ok (AUser {| userKP := kp |}), rng1)) /\
  (forall e, nkeys_FromSeed seed = Err e ->
      construct k1 seed rng1 =
        (Err (Wrapf "failed to create keypair from seed" e), rng1)).
Proof.
  intros Hne. split; [| split].
  - intros m1 m2 rng1' rng2' H1 H2.
    destruct (nkeys_FromSeed seed) as [kp | e] eqn:Hkp.
    + destruct (construct_from_seed _ _ _ _ Hne Hkp _ _ H1) as [E1 ->].
      destruct (construct_from_seed _ _ _ _ Hne Hkp _ _ H2) as [E2 ->].
      repeat split.
      destruct m1, m2; simpl in *;
        unfold OperatorManager_GetPublicKey, AccountManager_GetPublicKey,
          UserManager_GetPublicKey; congruence.
    + exfalso. destruct k1; simpl in H1;
        unfold NewOperatorManager, NewAccountManager, NewUserManager in H1;
        rewrite Hne, Hkp in H1; discriminate.
  - intros kp Hkp. simpl. unfold NewAccountManager, NewUserManager.
    rewrite Hne, Hkp. done.
  - intros e He. destruct k1; simpl;
      unfold NewOperatorManager, NewAccountManager, NewUserManager;
      rewrite Hne, He; reflexivity.
Qed.

End JwtProperties.

(** ** Rendering *)

Section RenderProperties.
Context `{P : Platform}.

Lemma append_assoc (a b c : string) : (a +:+ b) +:+ c = a +:+ b +:+ c.
Proof.
  induction a as [| ch a IH]; [reflexivity |].
  change (String ch ((a +:+ b) +:+ c) = String ch (a +:+ b +:+ c)).
  f_equal. exact IH.
Qed.

Lemma append_empty_r (a : string) : a +:+ "" = a.
Proof.
  induction a as [| ch a IH]; [reflexivity |].
  change (String ch (a +:+ "") = String ch a). f_equal. exact IH.
Qed.

Lemma append_empty_l (a : string) : "" +:+ a = a.
Proof. reflexivity. Qed.

(** The loop over a slice appends the text of each iteration in order. *)
Lemma rangeWrite_catenate {A} (body : nat -> A -> string) (xs : list A) :
  forall sb i,
    rangeWrite body sb i xs = sb +:+ catenate (imap (fun j => body (i + j)%nat) xs).
Proof.
  induction xs as [| x xs IH]; intros sb i; simpl.
  - now rewrite append_empty_r.
  - rewrite IH, append_assoc, Nat.add_0_r. do 3 f_equal.
    apply imap_ext. intros j y _. simpl. f_equal. lia.
Qed.

Lemma rangeWrite_from_0 {A} (body : nat -> A -> string) (xs : list A) (sb : string) :
  rangeWrite body sb 0 xs = sb +:+ catenate (imap body xs).
Proof. rewrite rangeWrite_catenate. reflexivity. Qed.

(** C8. With no users [RenderTokenAuthConf] returns the empty string. With
    at least one user it returns one [authorization] block whose [users]
    list holds one entry for each user, in order: the user's fields between
    braces, followed by a comma except after the last. *)
Theorem RenderTokenAuthConf_entries :
  RenderTokenAuthConf [] = "" /\
  forall (user : TokenUser) (rest : list TokenUser),
    let users := user :: rest in
    RenderTokenAuthConf users =
      line "authorization {" +:+ line "  users = [" +:+
      catenate (userEntries users) +:+
      line "  ]" +:+ line "}" /\
    length (userEntries users) = length users /\
    forall i u, users !! i = Some u ->
      userEntries users !! i =
        Some (line "    {" +:+ writeUserFields u +:+ "    }" +:+
              (if bool_decide (S i = length users) then "" else ",") +:+ newline).
Proof.
  split; [reflexivity |].
  intros user rest users. split; [| split].
  - unfold RenderTokenAuthConf. fold users.
    change (match users with [] => "" | _ :: _ => ?x end) with x.
    cbv zeta. rewrite rangeWrite_from_0. unfold userEntries.
    rewrite !append_assoc. reflexivity.
  - unfold userEntries. apply length_imap.
  - intros i u Hi. unfold userEntries. rewrite list_lookup_imap, Hi. simpl.
    unfold writeUser, comma. do 5 f_equal.
    apply lookup_lt_Some in Hi. subst users. simpl in Hi |- *.
    case_bool_decide; destruct (Nat.ltb_spec i (length rest - 0)%nat);
      try reflexivity; lia.
Qed.

Lemma preload_entries_join (accounts : list AccountJWT) :
  forall i, accounts <> [] ->
    catenate (imap (fun j => writePreload (i + length accounts) (i + j)) accounts) =
    Join (map preloadBinding accounts) ("," +:+ newline) +:+ newline.
Proof.
  induction accounts as [| a accounts IH]; intros i Hne; [done |].
  destruct accounts as [| b accounts].
  - simpl. unfold writePreload, comma.
    replace (i + 0 <? i + 1 - 1)%nat with false
      by (symmetry; apply Nat.ltb_ge; lia).
    simpl. now rewrite append_empty_r.
  - specialize (IH (S i) ltac:(done)).
    change (catenate (imap ?f (a :: ?l))) with (f 0%nat a +:+ catenate (imap (f ∘ S) l)).
    change (Join (map preloadBinding (a :: b :: accounts)) ?sep)
      with (preloadBinding a +:+ sep +:+ Join (map preloadBinding (b :: accounts)) sep).
    unfold writePreload at 1, comma.
    replace (i + 0 <? i + length (a :: b :: accounts) - 1)%nat with true
      by (symmetry; apply Nat.ltb_lt; simpl; lia).
    rewrite !append_assoc. do 3 f_equal. rewrite <- IH.
    f_equal. apply imap_ext. intros j y _. simpl.
    f_equal; simpl; lia.
Qed.

Lemma preload_entries_join_0 (accounts : list AccountJWT) :
  accounts <> [] ->
  catenate (imap (writePreload (length accounts)) accounts) =
  Join (map preloadBinding accounts) ("," +:+ newline) +:+ newline.
Proof.
  intros Hne. rewrite <- (preload_entries_join accounts 0 Hne).
  f_equal.
Qed.

Lemma RenderJWTAuthConfWithPreload_form (operatorJWT : string) (accounts : list AccountJWT) :
  RenderJWTAuthConfWithPreload operatorJWT accounts =
    "operator: " +:+ operatorJWT +:+ newline +:+ newline +:+
    preloadBlock (map preloadBinding accounts).
Proof.
  destruct accounts as [| a accounts].
  - simpl. now rewrite !append_assoc, append_empty_r.
  - unfold RenderJWTAuthConfWithPreload. cbv zeta.
    rewrite rangeWrite_from_0.
    rewrite (preload_entries_join_0 (a :: accounts) ltac:(done)).
    unfold preloadBlock. simpl map.
    rewrite !append_assoc. reflexivity.
Qed.

(** C7. [RenderJWTAuthConfWithPreload] returns equal bytes for equal
    inputs. For two lists of accounts that are permutations of each other
    the two outputs are the operator line followed by a [resolver_preload]
    block of the same bindings, up to their order; and, where no two
    accounts share an id, the mapping from id to token is the same. *)
Theorem preload_rendering_order_independent (operatorJWT : string)
    (accounts accounts' : list AccountJWT) :
  accounts ≡ₚ accounts' ->
  (forall o1 o2 l1 l2, o1 = o2 -> l1 = l2 ->
     RenderJWTAuthConfWithPreload o1 l1 = RenderJWTAuthConfWithPreload o2 l2) /\
  RenderJWTAuthConfWithPreload operatorJWT accounts =
    "operator: " +:+ operatorJWT +:+ newline +:+ newline +:+
    preloadBlock (map preloadBinding accounts) /\
  RenderJWTAuthConfWithPreload operatorJWT accounts' =
    "operator: " +:+ operatorJWT +:+ newline +:+ newline +:+
    preloadBlock (map preloadBinding accounts') /\
  map preloadBinding accounts ≡ₚ map preloadBinding accounts' /\
  (NoDup (map AccountJWT_AccountID accounts) ->
   preloadMapping accounts = preloadMapping accounts').
Proof.
  intros Hperm. split; [| split; [| split; [| split]]].
  - intros o1 o2 l1 l2 -> ->. reflexivity.
  - apply RenderJWTAuthConfWithPreload_form.
  - apply RenderJWTAuthConfWithPreload_form.
  - now apply Permutation_map.
  - intros Hnodup. unfold preloadMapping.
    apply list_to_map_proper.
    + rewrite <- list_fmap_compose. exact Hnodup.
    + now apply Permutation_map.
Qed.

End RenderProperties.

(** ** The resolver writer *)

Section WriterProperties.
Context `{P : Platform}.

(** C9. [WriteResolverConfig] returns without error, and afterwards the
    target object holds the data it held before (none, if it did not
    exist) with the entry at the requested key set to the content; no other
    ConfigMap or Secret changes, nor does an object of another kind. *)
Theorem WriteResolverConfig_sets_one_entry
    (namespace name key configType content : string) (w : World) :
  exists w',
    WriteResolverConfig namespace name key configType content w = (Ok tt, w') /\
    targetData configType (namespace, name) w' =
      Some (<[ key := content ]>
              (default ∅ (targetData configType (namespace, name) w))) /\
    (forall other, other <> (namespace, name) ->
       w_secrets w' !! other = w_secrets w !! other /\
       w_configmaps w' !! other = w_configmaps w !! other) /\
    (if decide (configType = "Secret")
     then w_configmaps w' = w_configmaps w
     else w_secrets w' = w_secrets w) /\
    w_accounts w' = w_accounts w /\
    w_authconfigs w' = w_authconfigs w.
Proof.
  unfold WriteResolverConfig, targetData.
  destruct (decide (configType = "Secret")) as [_ | _].
  - unfold writeToSecret, bind, try, wrap, fail, Get_Secret, Create_Secret,
      Update_Secret, keyOf; simpl.
    destruct (w_secrets w !! (namespace, name)) as [s |] eqn:Hs; simpl; rewrite Hs; simpl.
    + eexists. split; [reflexivity |]. simpl.
      rewrite lookup_insert_eq. simpl. rewrite (left_id_L ∅ (∪)).
      repeat split; try reflexivity.
      now rewrite lookup_insert_ne.
    + eexists. split; [reflexivity |]. simpl.
      rewrite lookup_insert_eq. simpl. rewrite (right_id_L ∅ (∪)).
      rewrite insert_empty.
      repeat split; try reflexivity.
      now rewrite lookup_insert_ne.
  - unfold writeToConfigMap, bind, try, wrap, fail, Get_ConfigMap, Create_ConfigMap,
      Update_ConfigMap, keyOfConfigMap; simpl.
    destruct (w_configmaps w !! (namespace, name)) as [c |] eqn:Hc; simpl; rewrite Hc; simpl.
    + eexists. split; [reflexivity |]. simpl.
      rewrite lookup_insert_eq. simpl.
      repeat split; try reflexivity.
      now rewrite lookup_insert_ne.
    + eexists. split; [reflexivity |]. simpl.
      rewrite lookup_insert_eq. simpl. rewrite insert_empty.
      repeat split; try reflexivity.
      now rewrite lookup_insert_ne.
Qed.

End WriterProperties.

(** ** Flat-mode users *)

Section TokenUserProperties.
Context `{P : Platform}.

Lemma username_step (user : NatsUser) (w : World) :
  usernameAvailable user w ->
  exists username w1,
    (if nonEmpty (Username (User_Spec user)) then ret (Username (User_Spec user))
     else wrap "failed to generate username"
            (liftRng (GenerateUsername (User_Name user)))) w = (Ok username, w1) /\
    w_secrets w1 = w_secrets w.
Proof.
  intros [Hname | Hgen].
  - rewrite Hname. eauto.
  - destruct (nonEmpty (Username (User_Spec user))); [eauto |].
    unfold wrap, liftRng.
    destruct (GenerateUsername (User_Name user) (w_rng w)) as [[username | e] rng];
      [| discriminate]. eauto.
Qed.

Lemma password_step (user : NatsUser) (w w1 : World) :
  declaresNoPassword user w -> w_secrets w1 = w_secrets w ->
  match PasswordFrom (User_Spec user) with
  | Some passwordFrom =>
    if Generate passwordFrom then
      wrap "failed to generate password" (liftRng GeneratePassword)
    else
      match PasswordSource_SecretRef passwordFrom with
      | Some ref =>
        bind (wrap "failed to get password secret"
                (Get_Secret (SecretRef_Namespace ref, SecretRef_Name ref)))
             (fun secret => ret (index (Secret_Data secret) "password"))
      | None => ret ""
      end
  | None => wrap "failed to generate password" (liftRng GeneratePassword)
  end w1 = (Ok "", w1).
Proof.
  intros (pf & -> & -> & Hsrc) Hw.
  destruct (PasswordSource_SecretRef pf) as [ref |]; [| reflexivity].
  destruct Hsrc as (secret & Hsec & Hpw).
  unfold bind, wrap, Get_Secret. rewrite Hw, Hsec. simpl.
  unfold ret, index. simpl. rewrite Hpw. reflexivity.
Qed.

Lemma password_entry_of_new_data (username url : string) (old : gmap string string) :
  index ((list_to_map [ ("USERNAME", username); ("PASSWORD", ""); ("NATS_URL", url) ]
            : gmap string string) ∪ old) "PASSWORD" = "".
Proof.
  unfold index. simpl.
  erewrite lookup_union_Some_l; [reflexivity |].
  rewrite lookup_insert_ne by discriminate. apply lookup_insert_eq.
Qed.

(** C10. For a flat-mode user whose spec sets [passwordFrom] with
    [generate] false and no [secretRef], or a [secretRef] to a secret
    without a ["password"] entry, and who has a username,
    [reconcileTokenUser] returns without error; afterwards the credentials
    secret of the user exists and reads the empty string at ["PASSWORD"],
    and the status of the user points to that secret. *)
Theorem reconcileTokenUser_empty_password (user : NatsUser)
    (authConfig : NatsAuthConfig) (w : World) :
  declaresNoPassword user w ->
  usernameAvailable user w ->
  exists user' w' s,
    reconcileTokenUser user authConfig w = (Ok tt, user', w') /\
    w_secrets w' !! credsKey user = Some s /\
    index (Secret_Data s) "PASSWORD" = "" /\
    User_SecretRef (User_Status user') =
      {| SecretRef_Name := User_Name user +:+ "-user-creds";
         SecretRef_Namespace := User_Namespace user |}.
Proof.
  intros Hpw Hname.
  destruct (username_step user w Hname) as (username & w1 & Hu & Hw1).
  pose proof (password_step user w w1 Hpw Hw1) as Hp.
  unfold reconcileTokenUser, credsKey.
  unfold bind at 1. rewrite Hu.
  unfold bind at 1. rewrite Hp.
  unfold SetControllerReference. rewrite decide_True by reflexivity.
  unfold bind at 1. unfold liftResult at 1.
  unfold bind at 1. unfold try, Get_Secret. simpl.
  destruct (w_secrets w1 !! (User_Namespace user, User_Name user +:+ "-user-creds"))
    as [existing |] eqn:Hex.
  - simpl.
    destruct (bool_decide (Secret_Data existing = ∅)
              || negb (String.eqb (index (Secret_Data existing) "USERNAME") username)
              || negb (String.eqb (index (Secret_Data existing) "PASSWORD") ""))
      eqn:Hcond.
    + unfold wrap, Update_Secret, keyOf. simpl. rewrite Hex.
      eexists _, _, _. split; [reflexivity |]. simpl.
      rewrite lookup_insert_eq. split; [reflexivity |]. split; [| reflexivity].
      apply password_entry_of_new_data.
    + apply orb_false_iff in Hcond as [_ Hcond].
      apply negb_false_iff, String.eqb_eq in Hcond.
      eexists _, _, _. split; [reflexivity |]. split; [exact Hex |].
      split; [exact Hcond | reflexivity].
  - simpl. unfold wrap, Create_Secret, keyOf. simpl. rewrite Hex.
    eexists _, _, _. split; [reflexivity |]. simpl.
    rewrite lookup_insert_eq. split; [reflexivity |]. split; [| reflexivity].
    apply password_entry_of_new_data.
Qed.

End TokenUserProperties.

(** ** Reconciliation of accounts and hierarchical users *)

Section ReconcileProperties.
Context `{P : Platform}.

Lemma bind_Ok {A B} (m : M A) (k : A -> M B) (w w' : World) (b : B) :
  bind m k w = (Ok b, w') ->
  exists a w1, m w = (Ok a, w1) /\ k a w1 = (Ok b, w').
Proof.
  unfold bind. destruct (m w) as [[a | e] w1]; [eauto | discriminate].
Qed.

Lemma wrap_Ok {A} (msg : string) (m : M A) (w w' : World) (a : A) :
  wrap msg m w = (Ok a, w') -> m w = (Ok a, w').
Proof.
  unfold wrap. destruct (m w) as [[a' | e] w1]; [tauto | discriminate].
Qed.

Lemma liftResult_Ok {A} (r : result A) (w w' : World) (a : A) :
  liftResult r w = (Ok a, w') -> r = Ok a /\ w' = w.
Proof. unfold liftResult. now intros [= -> ->]. Qed.

Lemma liftRng_Ok {A} (f : Rng -> result A * Rng) (w w' : World) (a : A) :
  liftRng f w = (Ok a, w') ->
  exists rng', f (w_rng w) = (Ok a, rng') /\ w' = set_w_rng rng' w.
Proof.
  unfold liftRng. destruct (f (w_rng w)) as [r rng']. intros [= -> <-]. eauto.
Qed.

(** Where the secret of the account exists and passes the test against
    the status, [reconcileAccount] returns at once: nothing is read from
    the spec of the account, nothing is signed, nothing is written. *)
Lemma reconcileAccount_skips (account : NatsAccount) (authConfig : NatsAuthConfig)
    (w : World) (s : Secret) :
  w_secrets w !! (Account_Namespace account, Account_Name account +:+ "-account-jwt")
    = Some s ->
  matchesStatus account s = true ->
  reconcileAccount account authConfig w = (Ok tt, account, authConfig, w).
Proof.
  intros Hs Hm. unfold reconcileAccount, bind, try, Get_Secret. simpl.
  rewrite Hs. simpl.
  change (matchesStatus account _) with (matchesStatus account s).
  rewrite Hm. reflexivity.
Qed.

Lemma reconcileJWTUser_skips (user : NatsUser) (authConfig : NatsAuthConfig)
    (w : World) (ref : NatsAccountRef) (account : NatsAccount) (s : Secret) :
  AccountRef (User_Spec user) = Some ref ->
  getAccount user w = (Ok account, w) ->
  nonEmpty (AccountID (Account_Status account)) = true ->
  w_secrets w !! credsKey user = Some s ->
  nonEmpty (User_PublicKey (User_Status user)) = true ->
  nonEmpty (index (Secret_Data s) "user.creds") = true ->
  reconcileJWTUser user authConfig w = (Ok tt, user, w).
Proof.
  intros Href Hacc Hid Hs Hpk Hcreds.
  unfold reconcileJWTUser. rewrite Href.
  unfold bind at 1. unfold wrap at 1. rewrite Hacc. rewrite Hid.
  unfold bind, try, Get_Secret. unfold credsKey in Hs. rewrite Hs. simpl.
  rewrite Hpk, Hcreds. reflexivity.
Qed.

Lemma getOperatorSeed_reads (authConfig : NatsAuthConfig) (w w1 : World) (r : result string) :
  getOperatorSeed authConfig w = (r, w1) -> w1 = w.
Proof.
  unfold getOperatorSeed. destruct (JWT (AuthConfig_Spec authConfig)) as [jc |].
  - destruct (OperatorSeedSecret jc) as [ref |];
      unfold bind, wrap, Get_Secret;
      (destruct (w_secrets w !! _) as [sec |]; simpl;
       [destruct (Secret_Data sec !! _) |]); now intros [= _ <-].
  - now intros [= _ <-].
Qed.

Lemma getOrCreateAccountSeed_fresh (account : NatsAccount) (w w1 : World) (seed : string) :
  Account_ExistingSeedSecret (Account_Spec account) = None ->
  getOrCreateAccountSeed account w = (Ok seed, w1) ->
  exists kp rng',
    nkeys_CreatePair PrefixByteAccount (w_rng w) = (Ok kp, rng') /\
    kp_Seed kp = Ok seed /\ w1 = set_w_rng rng' w.
Proof.
  intros Hnone H. unfold getOrCreateAccountSeed in H. rewrite Hnone in H.
  apply bind_Ok in H as (am & w2 & Ham & H).
  apply bind_Ok in H as (seed' & w3 & Hseed & H).
  apply liftRng_Ok in Ham as (rng' & Ham & ->).
  apply liftResult_Ok in Hseed as (Hseed & ->).
  injection H as <- <-.
  unfold NewAccountManager in Ham. simpl in Ham.
  destruct (nkeys_CreatePair PrefixByteAccount (w_rng w)) as [[kp | e] rng''];
    [| discriminate].
  injection Ham as <- <-. eauto.
Qed.

Lemma reconcileAccount_draws_new_seed (account account' : NatsAccount)
    (authConfig authConfig' : NatsAuthConfig) (w w' : World) (s : Secret) :
  w_secrets w !! (Account_Namespace account, Account_Name account +:+ "-account-jwt")
    = Some s ->
  matchesStatus account s = false ->
  Account_ExistingSeedSecret (Account_Spec account) = None ->
  reconcileAccount account authConfig w = (Ok tt, account', authConfig', w') ->
  exists kp rng' seed s',
    nkeys_CreatePair PrefixByteAccount (w_rng w) = (Ok kp, rng') /\
    kp_Seed kp = Ok seed /\
    w_secrets w' !! (Account_Namespace account, Account_Name account +:+ "-account-jwt")
      = Some s' /\
    Secret_Data s' !! "account.seed" = Some seed.
Proof.
  intros Hs Hm Hnone H. unfold reconcileAccount in H.
  unfold bind at 1 in H. unfold try, Get_Secret in H. rewrite Hs in H.
  cbn [fst snd] in H.
  change (matchesStatus account _) with (matchesStatus account s) in H.
  rewrite Hm in H.
  match type of H with
  | match ?m w with _ => _ end = _ => destruct (m w) as [[r | e] w2] eqn:Hrun
  end; [| discriminate].
  apply bind_Ok in Hrun as (accountSeed & w3 & Hseed & Hrun).
  apply wrap_Ok in Hseed.
  apply (getOrCreateAccountSeed_fresh _ _ _ _ Hnone) in Hseed
    as (kp & rng' & Hkp & Hkpseed & ->).
  apply bind_Ok in Hrun as (accountMgr & w4 & Hmgr & Hrun).
  apply wrap_Ok, liftRng_Ok in Hmgr as (rng4 & _ & ->).
  apply bind_Ok in Hrun as (accountPubKey & w5 & Hpub & Hrun).
  apply wrap_Ok, liftResult_Ok in Hpub as (_ & ->).
  apply bind_Ok in Hrun as (now & w6 & Hnow & Hrun).
  injection Hnow as <- <-.
  apply bind_Ok in Hrun as (accountClaims & w7 & Hclaims & Hrun).
  apply wrap_Ok, liftResult_Ok in Hclaims as (_ & ->).
  apply bind_Ok in Hrun as (operatorSeed & w8 & Hopseed & Hrun).
  apply wrap_Ok, getOperatorSeed_reads in Hopseed as ->.
  apply bind_Ok in Hrun as (operatorMgr & w9 & Hopmgr & Hrun).
  apply wrap_Ok, liftRng_Ok in Hopmgr as (rng9 & _ & ->).
  apply bind_Ok in Hrun as (accountJWT & w10 & Hjwt & Hrun).
  apply wrap_Ok, liftResult_Ok in Hjwt as (_ & ->).
  apply bind_Ok in Hrun as (jwtSecret & w11 & Howner & Hrun).
  apply liftResult_Ok in Howner as (Howner & ->).
  unfold SetControllerReference in Howner. rewrite decide_True in Howner by reflexivity.
  injection Howner as <-.
  apply bind_Ok in Hrun as ([] & w12 & Hupd & Hrun).
  injection Hrun as <- <-.
  cbv iota in H.
  apply wrap_Ok in Hupd. unfold Update_Secret, keyOf in Hupd. simpl in Hupd.
  rewrite Hs in Hupd. injection Hupd as <-.
  unfold triggerAuthConfigReconcile, Update_NatsAuthConfig in H. simpl in H.
  destruct (w_authconfigs w !! _) as [old |]; [| discriminate].
  injection H as <- <- <-.
  exists kp, rng', accountSeed. eexists. split; [exact Hkp |]. split; [exact Hkpseed |].
  simpl. rewrite lookup_insert_eq. split; [reflexivity |].
  simpl. rewrite (left_id_L ∅ (∪)).
  rewrite lookup_insert_ne by discriminate. apply lookup_insert_eq.
Qed.

End ReconcileProperties.

(** ** Repeated passes *)

Section IdempotenceProperties.
Context `{P : Platform}.

Lemma matchesStatus_after_signing (account : NatsAccount) (s : Secret)
    (am : AccountManager) (rng rng' : Rng) (seed jwt pubKey : string) :
  NewAccountManager seed rng = (Ok am, rng') ->
  AccountManager_GetPublicKey am = Ok pubKey ->
  AccountID (Account_Status account) = pubKey ->
  Secret_Data s = list_to_map [ ("account.jwt", jwt); ("account.seed", seed) ] ->
  nonEmpty pubKey = true -> nonEmpty jwt = true -> nonEmpty seed = true ->
  matchesStatus account s = true.
Proof.
  intros Ham Hpub Hid Hdata Hp Hj Hs.
  unfold matchesStatus. rewrite Hid, Hdata. unfold index. simpl.
  rewrite lookup_insert_eq, lookup_insert_ne by discriminate.
  rewrite lookup_insert_eq. simpl. rewrite Hp, Hj, Hs. simpl.
  unfold NewAccountManager in Ham. rewrite Hs in Ham.
  destruct (nkeys_FromSeed seed) as [kp | e]; [| discriminate].
  injection Ham as <- <-. unfold AccountManager_GetPublicKey in Hpub. simpl in Hpub.
  rewrite Hpub. now apply bool_decide_eq_true.
Qed.

Lemma getOrCreateAccountSeed_secrets (account : NatsAccount) (w w1 : World)
    (r : result string) :
  getOrCreateAccountSeed account w = (r, w1) -> w_secrets w1 = w_secrets w.
Proof.
  unfold getOrCreateAccountSeed.
  destruct (Account_ExistingSeedSecret (Account_Spec account)) as [ref |].
  - unfold bind, wrap, Get_Secret.
    destruct (w_secrets w !! _) as [sec |]; simpl;
      [destruct (Secret_Data sec !! _) |]; now intros [= _ <-].
  - unfold bind, liftRng, liftResult, ret.
    destruct (NewAccountManager "" (w_rng w)) as [[am | e] rng]; [| now intros [= _ <-]].
    destruct (AccountManager_GetSeed am) as [seed | e]; now intros [= _ <-].
Qed.

(** The steps of [reconcileAccount] from the seed to the write of the
    secret, taken apart. *)
Ltac regenerate_inv Hrun :=
  let accountSeed := fresh "accountSeed" in
  let Hseed := fresh "Hseed" in
  apply bind_Ok in Hrun as (accountSeed & ? & Hseed & Hrun);
  apply wrap_Ok in Hseed;
  pose proof (getOrCreateAccountSeed_secrets _ _ _ _ Hseed) as Hsecrets;
  apply bind_Ok in Hrun as (accountMgr & ? & Hmgr & Hrun);
  apply wrap_Ok, liftRng_Ok in Hmgr as (rng4 & Hmgr & ->);
  apply bind_Ok in Hrun as (accountPubKey & ? & Hpub & Hrun);
  apply wrap_Ok, liftResult_Ok in Hpub as (Hpub & ->);
  apply bind_Ok in Hrun as (now & ? & Hnow & Hrun);
  injection Hnow as <- <-;
  apply bind_Ok in Hrun as (accountClaims & ? & Hclaims & Hrun);
  apply wrap_Ok, liftResult_Ok in Hclaims as (_ & ->);
  apply bind_Ok in Hrun as (operatorSeed & ? & Hopseed & Hrun);
  apply wrap_Ok, getOperatorSeed_reads in Hopseed as ->;
  apply bind_Ok in Hrun as (operatorMgr & ? & Hopmgr & Hrun);
  apply wrap_Ok, liftRng_Ok in Hopmgr as (rng9 & _ & ->);
  apply bind_Ok in Hrun as (accountJWT & ? & Hjwt & Hrun);
  apply wrap_Ok, liftResult_Ok in Hjwt as (_ & ->);
  apply bind_Ok in Hrun as (jwtSecret & ? & Howner & Hrun);
  apply liftResult_Ok in Howner as (Howner & ->);
  unfold SetControllerReference in Howner;
  rewrite decide_True in Howner by reflexivity;
  injection Howner as <-;
  apply bind_Ok in Hrun as ([] & ? & Hput & Hrun);
  injection Hrun as <- <-.

(** The status update and the notification at the end of
    [reconcileAccount], taken apart. *)
Ltac trigger_inv H :=
  cbv iota in H;
  unfold triggerAuthConfigReconcile, Update_NatsAuthConfig in H; simpl in H;
  match type of H with
  | context [w_authconfigs ?w !! ?k] => destruct (w_authconfigs w !! k); [| discriminate]
  end;
  injection H as <- <- <-.

(** After a pass over an account that returned without error, the secret
    of the account exists, and it passes the test against the status of
    the account unless the account id, the token or the seed is empty. *)
Lemma reconcileAccount_establishes_guard (account account' : NatsAccount)
    (authConfig authConfig' : NatsAuthConfig) (w w' : World) :
  reconcileAccount account authConfig w = (Ok tt, account', authConfig', w') ->
  exists s',
    w_secrets w' !! (Account_Namespace account, Account_Name account +:+ "-account-jwt")
      = Some s' /\
    Account_Name account' = Account_Name account /\
    Account_Namespace account' = Account_Namespace account /\
    (nonEmpty (AccountID (Account_Status account')) = true ->
     nonEmpty (index (Secret_Data s') "account.jwt") = true ->
     nonEmpty (index (Secret_Data s') "account.seed") = true ->
     matchesStatus account' s' = true).
Proof.
  intros H. unfold reconcileAccount in H.
  unfold bind at 1 in H. unfold try, Get_Secret in H.
  destruct (w_secrets w !! _) as [s |] eqn:Hs; cbn [fst snd IsNotFound] in H.
  - change (matchesStatus account _) with (matchesStatus account s) in H.
    destruct (matchesStatus account s) eqn:Hm.
    + injection H as <- <- <-. exists s. auto.
    + match type of H with
      | match ?m w with _ => _ end = _ => destruct (m w) as [[r | e] w2] eqn:Hrun
      end; [| discriminate].
      regenerate_inv Hrun.
      apply wrap_Ok in Hput. unfold Update_Secret, keyOf in Hput. simpl in Hput.
      rewrite Hsecrets, Hs in Hput. injection Hput as <-.
      trigger_inv H.
      eexists. split; [simpl; apply lookup_insert_eq |].
      split; [reflexivity |]. split; [reflexivity |]. simpl.
      rewrite (left_id_L ∅ (∪)). intros Hp Hj Hsd.
      eapply matchesStatus_after_signing; eauto.
  - match type of H with
    | match ?m w with _ => _ end = _ => destruct (m w) as [[r | e] w2] eqn:Hrun
    end; [| discriminate].
    regenerate_inv Hrun.
    apply wrap_Ok in Hput. unfold Create_Secret, keyOf in Hput. simpl in Hput.
    rewrite Hsecrets, Hs in Hput. injection Hput as <-.
    trigger_inv H.
    eexists. split; [simpl; apply lookup_insert_eq |].
    split; [reflexivity |]. split; [reflexivity |]. simpl.
    rewrite (left_id_L ∅ (∪)). intros Hp Hj Hsd.
    eapply matchesStatus_after_signing; eauto.
Qed.
(** The next pass over an account after one that returned without error
    returns at once, whatever the spec of the account has become: it
    writes nothing and signs nothing. *)
Lemma reconcileAccount_second_pass_skips (account account' : NatsAccount)
    (authConfig authConfig' : NatsAuthConfig) (w w' : World) (s' : Secret) :
  reconcileAccount account authConfig w = (Ok tt, account', authConfig', w') ->
  w_secrets w' !! (Account_Namespace account, Account_Name account +:+ "-account-jwt")
    = Some s' ->
  nonEmpty (AccountID (Account_Status account')) = true ->
  nonEmpty (index (Secret_Data s') "account.jwt") = true ->
  nonEmpty (index (Secret_Data s') "account.seed") = true ->
  forall (spec : NatsAccountSpec) (authConfig'' : NatsAuthConfig) (w'' : World),
    w_secrets w'' !! (Account_Namespace account, Account_Name account +:+ "-account-jwt")
      = Some s' ->
    reconcileAccount (set_Account_Spec spec account') authConfig'' w'' =
      (Ok tt, set_Account_Spec spec account', authConfig'', w'').
Proof.
  intros H Hs' Hid Hjwt Hseed spec authConfig'' w'' Hs''.
  apply reconcileAccount_establishes_guard in H as (s0 & Hs0 & Hname & Hns & Hguard).
  rewrite Hs' in Hs0. injection Hs0 as <-.
  apply (reconcileAccount_skips _ _ _ s').
  - simpl. rewrite Hname, Hns. exact Hs''.
  - change (matchesStatus (set_Account_Spec spec account') s')
      with (matchesStatus account' s'). auto.
Qed.

(** A flat-mode user with a declared username and a generated password:
    whenever the password drawn in this pass differs from the stored one,
    the pass updates the secret with it. *)
Lemma reconcileTokenUser_rotates (user : NatsUser) (authConfig : NatsAuthConfig)
    (w : World) (s : Secret) (password : string) (rng' : Rng) :
  nonEmpty (Username (User_Spec user)) = true ->
  match PasswordFrom (User_Spec user) with
  | Some passwordFrom => Generate passwordFrom = true
  | None => True
  end ->
  GeneratePassword (w_rng w) = (Ok password, rng') ->
  w_secrets w !! credsKey user = Some s ->
  index (Secret_Data s) "PASSWORD" <> password ->
  exists user' w' s',
    reconcileTokenUser user authConfig w = (Ok tt, user', w') /\
    w_writes w' = (w_writes w ++ [ Updated KindSecret (credsKey user) ])%list /\
    w_secrets w' !! credsKey user = Some s' /\
    index (Secret_Data s') "PASSWORD" = password.
Proof.
  intros Hname Hgen Hpw Hs Hne.
  assert (Hp : match PasswordFrom (User_Spec user) with
               | Some passwordFrom =>
                 if Generate passwordFrom then
                   wrap "failed to generate password" (liftRng GeneratePassword)
                 else
                   match PasswordSource_SecretRef passwordFrom with
                   | Some ref =>
                     bind (wrap "failed to get password secret"
                             (Get_Secret (SecretRef_Namespace ref, SecretRef_Name ref)))
                          (fun secret => ret (index (Secret_Data secret) "password"))
                   | None => ret ""
                   end
               | None => wrap "failed to generate password" (liftRng GeneratePassword)
               end w = (Ok password, set_w_rng rng' w)).
  { destruct (PasswordFrom (User_Spec user)) as [pf |]; [rewrite Hgen |];
      unfold wrap, liftRng; now rewrite Hpw. }
  unfold reconcileTokenUser, credsKey in *.
  unfold bind at 1. rewrite Hname. unfold ret at 1.
  unfold bind at 1. rewrite Hp.
  unfold SetControllerReference. rewrite decide_True by reflexivity.
  unfold bind at 1. unfold liftResult at 1.
  unfold bind at 1. unfold try, Get_Secret. simpl. rewrite Hs. simpl.
  replace (negb (String.eqb (index (Secret_Data s) "PASSWORD") password)) with true
    by (symmetry; apply negb_true_iff, String.eqb_neq, Hne).
  rewrite !orb_true_r.
  unfold wrap, Update_Secret, keyOf. simpl. rewrite Hs.
  eexists _, _, _. split; [reflexivity |]. simpl.
  split; [reflexivity |]. rewrite lookup_insert_eq. split; [reflexivity |].
  unfold index. simpl.
  erewrite lookup_union_Some_l; [reflexivity |].
  rewrite lookup_insert_ne by discriminate. apply lookup_insert_eq.
Qed.

End IdempotenceProperties.

(** ** Aggregation *)

Section AggregationProperties.
Context `{P : Platform}.

(** The loop of [collectAccountJWTs] never fails in this store, reads
    only, and appends what [collected] gives for each item. *)
Lemma collectLoop_collected (authConfig : NatsAuthConfig) (items : list NatsAccount) :
  forall (accounts : list AccountJWT) (w : World),
    collectLoop authConfig items accounts w =
      (Ok ((accounts ++ omap (collected authConfig w) items)%list), w).
Proof.
  induction items as [| account items IH]; intros accounts w.
  - simpl. unfold ret. now rewrite app_nil_r.
  - cbn [collectLoop].
    change (omap ?f (account :: items))
      with (match f account with Some y => y :: omap f items | None => omap f items end).
    pose proof (IH accounts w) as IHskip.
    set (rest := omap (collected authConfig w) items) in *.
    unfold collected.
    destruct (bool_decide _) eqn:Hname; [| exact IHskip].
    unfold bind, try, Get_Secret.
    destruct (w_secrets w !! _) as [secret |] eqn:Hsec; cbn; [| exact IHskip].
    destruct (Secret_Data secret !! "account.jwt") as [jwtData |]; cbn; [| exact IHskip].
    destruct (nonEmpty (AccountID (Account_Status account))); [| exact IHskip].
    rewrite IH, <- app_assoc. reflexivity.
Qed.

Lemma collectAccountJWTs_collected (authConfig : NatsAuthConfig) (w : World) :
  collectAccountJWTs authConfig w =
    (Ok (omap (collected authConfig w) (listed (AuthConfig_Namespace authConfig) w)), w).
Proof.
  unfold collectAccountJWTs, bind, wrap, List_NatsAccount.
  now rewrite collectLoop_collected.
Qed.

Lemma addAccountKeys_other (accounts : list AccountJWT) :
  forall (m : gmap string string) (k : string),
    (forall acc, acc ∈ accounts -> AccountName acc <> k) ->
    addAccountKeys m accounts !! k = m !! k.
Proof.
  induction accounts as [| a accounts IH]; intros m k Hk; [reflexivity |].
  unfold addAccountKeys in *. simpl. rewrite IH.
  - apply lookup_insert_ne. apply Hk. left.
  - intros acc Hacc. apply Hk. now right.
Qed.

Lemma addAccountKeys_member (accounts : list AccountJWT) :
  forall (m : gmap string string) (acc : AccountJWT),
    NoDup (map AccountName accounts) -> acc ∈ accounts ->
    addAccountKeys m accounts !! AccountName acc = Some (AccountJWT_JWT acc).
Proof.
  induction accounts as [| a accounts IH]; intros m acc Hnd Hacc.
  - inversion Hacc.
  - simpl in Hnd. apply NoDup_cons in Hnd as [Hnotin Hnd].
    change (addAccountKeys m (a :: accounts))
      with (addAccountKeys (<[AccountName a := AccountJWT_JWT a]> m) accounts).
    apply elem_of_cons in Hacc as [-> | Hacc].
    + rewrite addAccountKeys_other; [apply lookup_insert_eq |].
      intros acc Hacc Heq. apply Hnotin. rewrite <- Heq.
      apply list_elem_of_fmap. eauto.
    + now apply IH.
Qed.

Lemma addAccountKeys_keys (accounts : list AccountJWT) :
  forall (m : gmap string string) (k v : string),
    addAccountKeys m accounts !! k = Some v ->
    m !! k = Some v \/ exists acc, acc ∈ accounts /\ AccountName acc = k /\ AccountJWT_JWT acc = v.
Proof.
  induction accounts as [| a accounts IH]; intros m k v H; [now left |].
  change (addAccountKeys m (a :: accounts))
    with (addAccountKeys (<[AccountName a := AccountJWT_JWT a]> m) accounts) in H.
  apply IH in H as [H | (acc & Hacc & Hk & Hv)].
  - destruct (decide (AccountName a = k)) as [<- | Hne].
    + rewrite lookup_insert_eq in H. injection H as <-.
      right. exists a. split; [left | done].
    + rewrite lookup_insert_ne in H by done. now left.
  - right. exists acc. split; [now right | done].
Qed.

(** Within a namespace the resource name identifies the account. *)
Lemma listed_names_NoDup (namespace : string) (w : World) :
  NoDup (map Account_Name (listed namespace w)).
Proof.
  unfold listed. rewrite <- list_fmap_compose.
  apply NoDup_fmap_2_strong.
  - intros [[ns1 n1] b1] [[ns2 n2] b2] H1 H2 Hn. simpl in Hn. subst n2.
    apply list_elem_of_filter in H1 as [Hns1 H1], H2 as [Hns2 H2].
    simpl in Hns1, Hns2. subst ns1 ns2.
    apply elem_of_map_to_list in H1, H2. congruence.
  - apply NoDup_filter, NoDup_map_to_list.
Qed.

Lemma collected_name (authConfig : NatsAuthConfig) (w : World)
    (account : NatsAccount) (acc : AccountJWT) :
  collected authConfig w account = Some acc -> AccountName acc = Account_Name account.
Proof.
  unfold collected. destruct (bool_decide _); [| discriminate].
  destruct (w_secrets w !! _) as [secret |]; [| discriminate]. simpl.
  destruct (Secret_Data secret !! "account.jwt"); [| discriminate]. simpl.
  destruct (nonEmpty _); [| discriminate]. now intros [= <-].
Qed.

Lemma collected_names_NoDup (authConfig : NatsAuthConfig) (w : World)
    (items : list NatsAccount) :
  NoDup (map Account_Name items) ->
  NoDup (map AccountName (omap (collected authConfig w) items)).
Proof.
  induction items as [| account items IH]; intros Hnd; [constructor |].
  simpl in Hnd. apply NoDup_cons in Hnd as [Hnotin Hnd].
  change (omap ?f (account :: items))
    with (match f account with Some y => y :: omap f items | None => omap f items end).
  destruct (collected authConfig w account) as [acc |] eqn:Hacc; [| now apply IH].
  simpl. apply NoDup_cons. split; [| now apply IH].
  intros Hin. apply Hnotin.
  apply list_elem_of_fmap in Hin as (acc' & Hname & Hin).
  apply list_elem_of_omap in Hin as (account' & Hin & Hacc').
  apply list_elem_of_fmap. exists account'. split; [| exact Hin].
  apply collected_name in Hacc, Hacc'. congruence.
Qed.

Lemma getOrCreateOperatorSeed_accounts (authConfig : NatsAuthConfig) (w w1 : World)
    (r : result string) :
  getOrCreateOperatorSeed authConfig w = (r, w1) -> w_accounts w1 = w_accounts w.
Proof.
  unfold getOrCreateOperatorSeed.
  destruct (JWT (AuthConfig_Spec authConfig)) as [jc |]; [| now intros [= _ <-]].
  destruct (OperatorSeedSecret jc) as [ref |].
  - unfold bind, wrap, Get_Secret.
    destruct (w_secrets w !! _) as [sec |]; simpl;
      [destruct (Secret_Data sec !! _) |]; now intros [= _ <-].
  - unfold bind, Now, liftRng, liftResult, try, Create_Secret, Get_Secret, ret, fail.
    destruct (NewOperatorManager _ _ _ _) as [[om | e] rng]; [| now intros [= _ <-]].
    destruct (OperatorManager_GetSeed om) as [seed | e]; [| now intros [= _ <-]].
    unfold SetControllerReference. rewrite decide_True by reflexivity.
    unfold keyOf. simpl.
    destruct (w_secrets w !! _) as [sec |] eqn:Hsec; simpl.
    + rewrite Hsec. now intros [= _ <-].
    + now intros [= _ <-].
Qed.

(** What a JWT-mode aggregation that returns without error leaves in the
    aggregate secret: the operator token at ["operator"], overlaid with
    one entry for each collected account of the namespace, keyed by the
    resource name of the account. *)
Lemma reconcileJWTMode_aggregate (authConfig authConfig' : NatsAuthConfig)
    (w w' : World) :
  reconcileJWTMode authConfig w = (Ok tt, authConfig', w') ->
  exists (w1 : World) (om : OperatorManager) (s' : Secret),
    w_accounts w1 = w_accounts w /\
    w_secrets w' !! aggregateKey authConfig = Some s' /\
    Secret_Data s' =
      addAccountKeys {[ "operator" := OperatorManager_GetJWT om ]}
        (omap (collected authConfig w1) (listed (AuthConfig_Namespace authConfig) w1)) /\
    OperatorManager_GetPublicKey om = Ok (OperatorPubKey (AuthConfig_Status authConfig')).
Proof.
  intros H. unfold reconcileJWTMode in H.
  match type of H with
  | match ?m w with _ => _ end = _ => destruct (m w) as [[pk | e] w2] eqn:Hrun
  end; [| discriminate].
  injection H as <- <-.
  apply bind_Ok in Hrun as (operatorSeed & w1 & Hseed & Hrun).
  apply wrap_Ok, getOrCreateOperatorSeed_accounts in Hseed.
  destruct (JWT (AuthConfig_Spec authConfig)) as [jc |]; [| discriminate].
  apply bind_Ok in Hrun as (now & w3 & Hnow & Hrun). injection Hnow as <- <-.
  apply bind_Ok in Hrun as (om & w4 & Hom & Hrun).
  apply wrap_Ok, liftRng_Ok in Hom as (rng4 & _ & ->).
  apply bind_Ok in Hrun as (pubKey & w5 & Hpub & Hrun).
  apply wrap_Ok, liftResult_Ok in Hpub as (Hpub & ->).
  apply bind_Ok in Hrun as (accounts & w6 & Hcollect & Hrun).
  apply wrap_Ok in Hcollect. rewrite collectAccountJWTs_collected in Hcollect.
  injection Hcollect as <- <-.
  apply bind_Ok in Hrun as (r & w7 & Hget & Hrun).
  apply bind_Ok in Hrun as ([] & w8 & Hput & Hrun).
  injection Hrun as <- <-.
  exists (set_w_rng rng4 w1), om.
  unfold try, Get_Secret in Hget. simpl in Hget.
  destruct (w_secrets w1 !! _) as [existing |] eqn:Hex; injection Hget as <- <-.
  - apply wrap_Ok in Hput. unfold Update_Secret, keyOf in Hput. simpl in Hput.
    rewrite Hex in Hput. injection Hput as <-.
    eexists. split; [exact Hseed |]. unfold aggregateKey. simpl.
    rewrite lookup_insert_eq. split; [reflexivity |]. simpl.
    rewrite (left_id_L ∅ (∪)). split; [reflexivity | exact Hpub].
  - simpl in Hput. apply wrap_Ok in Hput. unfold Create_Secret, keyOf in Hput.
    simpl in Hput. rewrite Hex in Hput. injection Hput as <-.
    eexists. split; [exact Hseed |]. unfold aggregateKey. simpl.
    rewrite lookup_insert_eq. split; [reflexivity |]. simpl.
    rewrite (left_id_L ∅ (∪)). split; [reflexivity | exact Hpub].
Qed.

(** Unless one of the collected accounts has the resource name
    ["operator"], the aggregate holds the operator token, the token of
    each collected account under the name of the account, and nothing
    else. *)
Lemma reconcileJWTMode_aggregate_entries (authConfig authConfig' : NatsAuthConfig)
    (w w' : World) :
  reconcileJWTMode authConfig w = (Ok tt, authConfig', w') ->
  exists (w1 : World) (om : OperatorManager) (s' : Secret),
    let accounts :=
      omap (collected authConfig w1) (listed (AuthConfig_Namespace authConfig) w1) in
    w_accounts w1 = w_accounts w /\
    w_secrets w' !! aggregateKey authConfig = Some s' /\
    (forall acc, acc ∈ accounts ->
       Secret_Data s' !! AccountName acc = Some (AccountJWT_JWT acc)) /\
    ((forall acc, acc ∈ accounts -> AccountName acc <> "operator") ->
       Secret_Data s' !! "operator" = Some (OperatorManager_GetJWT om)) /\
    (forall k v, Secret_Data s' !! k = Some v ->
       (k = "operator" /\ v = OperatorManager_GetJWT om) \/
       exists acc, acc ∈ accounts /\ AccountName acc = k /\ AccountJWT_JWT acc = v).
Proof.
  intros H. apply reconcileJWTMode_aggregate in H as (w1 & om & s' & Hacc & Hs' & Hdata & _).
  exists w1, om, s'. cbv zeta. split; [exact Hacc |]. split; [exact Hs' |].
  rewrite Hdata. split; [| split].
  - intros acc Hin. apply addAccountKeys_member; [| exact Hin].
    apply collected_names_NoDup, listed_names_NoDup.
  - intros Hno. rewrite addAccountKeys_other by exact Hno. apply lookup_singleton_eq.
  - intros k v Hk. apply addAccountKeys_keys in Hk as [Hk | Hk]; [left | now right].
    apply lookup_singleton_Some in Hk as [<- <-]. split; reflexivity.
Qed.

End AggregationProperties.

(** ** Further properties of internal/jwt, internal/token and internal/authconf *)

Section PackageProperties.
Context `{P : Platform}.

(** X1. The token that [NewOperatorManager] keeps is self-issued: it is the
    encoding, under the manager's own key pair, of operator claims whose
    issuer is the manager's public key, whose name is the given name and
    whose issue time is the current time. With a seed the key pair is the
    one nkeys derives from it and the random source is not used; without
    one it is a key pair drawn with the operator prefix. *)
Theorem NewOperatorManager_self_issued (issuerOf : string -> option string)
    (seed operatorName : string) (now : Z) (rng rng' : Rng) (om : OperatorManager) :
  (forall c kp pub t,
      kp_PublicKey kp = Ok pub -> claims_Issuer c = pub ->
      jwt_Encode c kp = Ok t -> issuerOf t = Some pub) ->
  NewOperatorManager seed operatorName now rng = (Ok om, rng') ->
  exists pub c,
    OperatorManager_GetPublicKey om = Ok pub /\
    jwt_Encode (OperatorC c) (operatorKP om) = Ok (OperatorManager_GetJWT om) /\
    oc_Issuer c = pub /\ oc_Name c = operatorName /\ oc_IssuedAt c = now /\
    oc_Subject c = oc_Subject (jwt_NewOperatorClaims pub) /\
    issuerOf (OperatorManager_GetJWT om) = Some pub /\
    (if nonEmpty seed
     then nkeys_FromSeed seed = Ok (operatorKP om) /\ rng' = rng
     else nkeys_CreatePair PrefixByteOperator rng = (Ok (operatorKP om), rng')).
Proof.
  intros Hlib H. unfold NewOperatorManager in H.
  destruct (nonEmpty seed).
  - destruct (nkeys_FromSeed seed) as [kp | e]; [| discriminate].
    destruct (kp_PublicKey kp) as [pub | e] eqn:Hpub; [| discriminate].
    destruct (jwt_Encode _ kp) as [jwt | e] eqn:Henc in H; [| discriminate].
    injection H as <- <-.
    exists pub. eexists.
    unfold OperatorManager_GetPublicKey, OperatorManager_GetJWT. simpl.
    split; [exact Hpub |]. split; [exact Henc |].
    repeat (split; [reflexivity |]).
    split; [eapply Hlib; [exact Hpub | | exact Henc]; reflexivity | done].
  - destruct (nkeys_CreatePair PrefixByteOperator rng) as [[kp | e] rng1];
      [| discriminate].
    destruct (kp_PublicKey kp) as [pub | e] eqn:Hpub; [| discriminate].
    destruct (jwt_Encode _ kp) as [jwt | e] eqn:Henc in H; [| discriminate].
    injection H as <- <-.
    exists pub. eexists.
    unfold OperatorManager_GetPublicKey, OperatorManager_GetJWT. simpl.
    split; [exact Hpub |]. split; [exact Henc |].
    repeat (split; [reflexivity |]).
    split; [eapply Hlib; [exact Hpub | | exact Henc]; reflexivity | done].
Qed.

Lemma length_append (a b : string) :
  String.length (a +:+ b) = (String.length a + String.length b)%nat.
Proof.
  induction a as [| x a IH]; [reflexivity |].
  change (String x a +:+ b) with (String x (a +:+ b)). simpl. now rewrite IH.
Qed.

Lemma append_cancel_r (a b c : string) : a +:+ c = b +:+ c -> a = b.
Proof.
  revert b. induction a as [| x a IH]; intros [| y b] H.
  - reflexivity.
  - exfalso. apply (f_equal String.length) in H.
    rewrite !length_append in H. simpl in H. lia.
  - exfalso. apply (f_equal String.length) in H.
    rewrite !length_append in H. simpl in H. lia.
  - change (String x (a +:+ c) = String y (b +:+ c)) in H.
    injection H as -> H. f_equal. now apply IH.
Qed.

Lemma oneLine_prefix (a b r1 r2 : string) :
  oneLine a = true -> oneLine b = true ->
  a +:+ newline +:+ r1 = b +:+ newline +:+ r2 -> a = b /\ r1 = r2.
Proof.
  revert b. induction a as [| x a IH]; intros [| y b] Ha Hb H.
  - change (String (ascii_of_nat 10) r1 = String (ascii_of_nat 10) r2) in H.
    injection H as ->. done.
  - exfalso. change (String (ascii_of_nat 10) r1 = String y (b +:+ newline +:+ r2)) in H.
    injection H as <- _. simpl in Hb. discriminate.
  - exfalso. change (String x (a +:+ newline +:+ r1) = String (ascii_of_nat 10) r2) in H.
    injection H as -> _. simpl in Ha. discriminate.
  - change (String x (a +:+ newline +:+ r1) = String y (b +:+ newline +:+ r2)) in H.
    injection H as -> H. simpl in Ha, Hb.
    apply andb_true_iff in Ha as [_ Ha]. apply andb_true_iff in Hb as [_ Hb].
    destruct (IH b Ha Hb H) as [-> ->]. done.
Qed.

(** X2. A credentials file determines the token and the seed it was made
    from: two files made by [GenerateCredsFile] from tokens without a
    newline are equal only if the tokens are equal and the seeds are
    equal. *)
Theorem GenerateCredsFile_injective (jwt1 jwt2 seed1 seed2 : string) :
  oneLine jwt1 = true -> oneLine jwt2 = true ->
  GenerateCredsFile jwt1 seed1 = GenerateCredsFile jwt2 seed2 ->
  jwt1 = jwt2 /\ seed1 = seed2.
Proof.
  intros H1 H2 H. unfold GenerateCredsFile in H.
  do 2 apply String.app_inj in H.
  apply oneLine_prefix in H as [-> H]; [| assumption ..].
  split; [reflexivity |].
  do 12 apply String.app_inj in H.
  now apply append_cancel_r in H.
Qed.

Lemma length_substring_0 (n : nat) (s : string) :
  (n <= String.length s)%nat -> String.length (substring 0 n s) = n.
Proof.
  revert s. induction n as [| n IH]; intros s Hn.
  - destruct s; reflexivity.
  - destruct s as [| c s]; simpl in Hn; [lia |]. simpl. rewrite IH; [reflexivity | lia].
Qed.

(** X3. A name that [GenerateUsername] returns is the prefix, or [user]
    for an empty prefix, then a dash, then the first 12 bytes of the
    base64 text of 8 bytes read from the random source in one read; it is
    13 bytes longer than the prefix it starts with. *)
Theorem GenerateUsername_shape (prefix name : string) (rng rng' : Rng) :
  GenerateUsername prefix rng = (Ok name, rng') ->
  exists b,
    rand_Read 8 rng = (Ok b, rng') /\
    let start := if nonEmpty prefix then prefix else "user" in
    name = start +:+ "-" +:+ substring 0 12 (base64_URLEncode b) /\
    String.length name = (String.length start + 13)%nat.
Proof.
  unfold GenerateUsername, GenerateToken.
  change (Z.to_nat (if 8 <=? 0 then 32 else 8)) with 8%nat.
  destruct (rand_Read 8 rng) as [[b | e] rng1]; [| discriminate].
  destruct (Nat.leb_spec 12 (String.length (base64_URLEncode b))) as [Hlen | Hlen];
    [| discriminate].
  intros [= <- <-]. exists b. split; [reflexivity |]. cbv zeta. split; [reflexivity |].
  rewrite !length_append, length_substring_0 by exact Hlen. simpl. lia.
Qed.

Lemma writeUserFields_token (password : string) (user : TokenUser) :
  nonEmpty (TokenUser_Token user) = true ->
  writeUserFields (withPassword password user) = writeUserFields user.
Proof. intros H. unfold writeUserFields. simpl. now rewrite H. Qed.

(** X4. The password of a user that has a token never reaches the output
    of [RenderTokenAuthConf]: replacing the passwords of such users by
    anything leaves every byte of the output as it was. *)
Theorem RenderTokenAuthConf_token_hides_password
    (other : TokenUser -> string) (users : list TokenUser) :
  RenderTokenAuthConf
    (map (fun user => if nonEmpty (TokenUser_Token user)
                      then withPassword (other user) user else user) users)
  = RenderTokenAuthConf users.
Proof.
  set (f := fun user => if nonEmpty (TokenUser_Token user)
                        then withPassword (other user) user else user).
  destruct users as [| user rest]; [reflexivity |].
  unfold RenderTokenAuthConf.
  change (map f (user :: rest)) with (f user :: map f rest).
  cbv zeta. rewrite !rangeWrite_from_0.
  change (f user :: map f rest) with (map f (user :: rest)).
  rewrite length_map. do 2 f_equal.
  rewrite imap_fmap. f_equal. f_equal. apply imap_ext. intros i u _. simpl.
  unfold writeUser. do 2 f_equal.
  unfold f. destruct (nonEmpty (TokenUser_Token u)) eqn:Ht; [| reflexivity].
  now apply writeUserFields_token.
Qed.

End PackageProperties.

(** ** Further properties of internal/resolver *)

Section WriterComposition.
Context `{P : Platform}.

Lemma WriteResolverConfig_data (namespace name key configType content : string)
    (w : World) :
  (WriteResolverConfig namespace name key configType content w).1 = Ok tt /\
  targetData configType (namespace, name)
    (WriteResolverConfig namespace name key configType content w).2 =
    Some (<[ key := content ]>
            (default ∅ (targetData configType (namespace, name) w))).
Proof.
  unfold WriteResolverConfig, targetData.
  destruct (decide (configType = "Secret")) as [_ | _].
  - unfold writeToSecret, bind, try, wrap, fail, Get_Secret, Create_Secret,
      Update_Secret, keyOf; simpl.
    destruct (w_secrets w !! (namespace, name)) as [s |] eqn:Hs; simpl; rewrite Hs; simpl.
    + rewrite lookup_insert_eq. simpl. now rewrite (left_id_L ∅ (∪)).
    + rewrite lookup_insert_eq. simpl. now rewrite (right_id_L ∅ (∪)), insert_empty.
  - unfold writeToConfigMap, bind, try, wrap, fail, Get_ConfigMap, Create_ConfigMap,
      Update_ConfigMap, keyOfConfigMap; simpl.
    destruct (w_configmaps w !! (namespace, name)) as [c |] eqn:Hc; simpl; rewrite Hc; simpl.
    + now rewrite lookup_insert_eq.
    + rewrite lookup_insert_eq. simpl. now rewrite insert_empty.
Qed.

(** X5. Two calls of [WriteResolverConfig] for the same object and key:
    both return without error, the object ends with the data that the
    second call alone would have given and reads the second content at the
    key; writing the same content again changes no data. *)
Theorem WriteResolverConfig_last_write_wins
    (namespace name key configType content1 content2 : string) (w : World) :
  let write := WriteResolverConfig namespace name key configType in
  let w1 := (write content1 w).2 in
  let w2 := (write content2 w1).2 in
  (write content1 w).1 = Ok tt /\
  (write content2 w1).1 = Ok tt /\
  targetData configType (namespace, name) w2 =
    targetData configType (namespace, name) (write content2 w).2 /\
  (forall data, targetData configType (namespace, name) w2 = Some data ->
     data !! key = Some content2) /\
  (content1 = content2 ->
   targetData configType (namespace, name) w2 =
   targetData configType (namespace, name) w1).
Proof.
  intros write w1 w2. subst write w1 w2.
  destruct (WriteResolverConfig_data namespace name key configType content1 w)
    as [Hr1 Hd1].
  destruct (WriteResolverConfig_data namespace name key configType content2
              (WriteResolverConfig namespace name key configType content1 w).2)
    as [Hr2 Hd2].
  destruct (WriteResolverConfig_data namespace name key configType content2 w)
    as [_ Hd].
  split; [exact Hr1 |]. split; [exact Hr2 |].
  rewrite Hd2, Hd1, Hd. simpl. rewrite insert_insert_eq.
  split; [reflexivity |]. split.
  - intros data [= <-]. apply lookup_insert_eq.
  - now intros ->.
Qed.

(** X6. Calls of [WriteResolverConfig] for two different keys of the same
    object commute: the data of the object is the same in either order,
    and holds both contents. *)
Theorem WriteResolverConfig_keys_commute
    (namespace name key1 key2 configType content1 content2 : string) (w : World) :
  key1 <> key2 ->
  let write1 := WriteResolverConfig namespace name key1 configType content1 in
  let write2 := WriteResolverConfig namespace name key2 configType content2 in
  targetData configType (namespace, name) (write2 (write1 w).2).2 =
  targetData configType (namespace, name) (write1 (write2 w).2).2 /\
  forall data,
    targetData configType (namespace, name) (write2 (write1 w).2).2 = Some data ->
    data !! key1 = Some content1 /\ data !! key2 = Some content2.
Proof.
  intros Hne write1 write2. subst write1 write2.
  rewrite (proj2 (WriteResolverConfig_data namespace name key2 configType content2 _)).
  rewrite (proj2 (WriteResolverConfig_data namespace name key1 configType content1
                    (WriteResolverConfig namespace name key2 configType content2 w).2)).
  rewrite !(proj2 (WriteResolverConfig_data _ _ _ _ _ w)). simpl.
  split.
  - f_equal. now apply insert_insert_ne.
  - intros data [= <-]. split.
    + rewrite lookup_insert_ne by congruence. apply lookup_insert_eq.
    + apply lookup_insert_eq.
Qed.

End WriterComposition.

(** ** What a reconciliation leaves alone *)

Section FrameProperties.
Context `{P : Platform}.

Lemma frame_refl (ks cs : list ObjectKey) (w : World) : frame ks cs w w.
Proof. unfold frame. tauto. Qed.

Lemma frame_trans (ks cs : list ObjectKey) (w1 w2 w3 : World) :
  frame ks cs w1 w2 -> frame ks cs w2 w3 -> frame ks cs w1 w3.
Proof.
  intros (Hs1 & Hc1 & Hm1 & Ha1 & Hn1) (Hs2 & Hc2 & Hm2 & Ha2 & Hn2).
  unfold frame. repeat split; try congruence.
  - intros k Hk. now rewrite Hs2, Hs1.
  - intros k Hk. now rewrite Hc2, Hc1.
Qed.

Lemma keeps_ret {A} (ks cs : list ObjectKey) (a : A) : keeps ks cs (ret a).
Proof. intros w. apply frame_refl. Qed.

Lemma keeps_fail {A} (ks cs : list ObjectKey) (e : error) : keeps ks cs (@fail _ A e).
Proof. intros w. apply frame_refl. Qed.

Lemma keeps_Now (ks cs : list ObjectKey) : keeps ks cs Now.
Proof. intros w. apply frame_refl. Qed.

Lemma keeps_liftResult {A} (ks cs : list ObjectKey) (r : result A) :
  keeps ks cs (liftResult r).
Proof. intros w. apply frame_refl. Qed.

Lemma keeps_liftRng {A} (ks cs : list ObjectKey) (f : Rng -> result A * Rng) :
  keeps ks cs (liftRng f).
Proof.
  intros w. unfold liftRng. destruct (f (w_rng w)) as [r rng].
  unfold frame. simpl. tauto.
Qed.

Lemma keeps_bind {A B} (ks cs : list ObjectKey) (m : M A) (k : A -> M B) :
  keeps ks cs m ->
  (forall a w w', m w = (Ok a, w') -> keeps ks cs (k a)) ->
  keeps ks cs (bind m k).
Proof.
  intros Hm Hk w. specialize (Hm w). unfold bind.
  destruct (m w) as [[a | e] w1] eqn:Hrun; simpl in Hm; [| exact Hm].
  eapply frame_trans; [exact Hm | eapply Hk, Hrun].
Qed.

Lemma keeps_try {A} (ks cs : list ObjectKey) (m : M A) :
  keeps ks cs m -> keeps ks cs (try m).
Proof.
  intros Hm w. specialize (Hm w). unfold try. now destruct (m w) as [r w1].
Qed.

Lemma keeps_wrap {A} (ks cs : list ObjectKey) (msg : string) (m : M A) :
  keeps ks cs m -> keeps ks cs (wrap msg m).
Proof.
  intros Hm w. specialize (Hm w). unfold wrap. now destruct (m w) as [[a | e] w1].
Qed.

Lemma keeps_Get_Secret (ks cs : list ObjectKey) (key : ObjectKey) :
  keeps ks cs (Get_Secret key).
Proof.
  intros w. unfold Get_Secret. destruct (w_secrets w !! key); apply frame_refl.
Qed.

Lemma frame_write_secret (ks cs : list ObjectKey) (ev : Write) (key : ObjectKey)
    (s : Secret) (w : World) :
  key ∈ ks -> frame ks cs w (write_secret ev key s w).
Proof.
  intros Hin. unfold frame. simpl. repeat split; try reflexivity.
  intros k Hk. apply lookup_insert_ne. intros ->. contradiction.
Qed.

Lemma keeps_Create_Secret (ks cs : list ObjectKey) (s : Secret) :
  keyOf s ∈ ks -> keeps ks cs (Create_Secret s).
Proof.
  intros Hin w. unfold Create_Secret.
  destruct (w_secrets w !! keyOf s); [apply frame_refl | now apply frame_write_secret].
Qed.

Lemma keeps_Update_Secret (ks cs : list ObjectKey) (s : Secret) :
  keyOf s ∈ ks -> keeps ks cs (Update_Secret s).
Proof.
  intros Hin w. unfold Update_Secret.
  destruct (w_secrets w !! keyOf s); [now apply frame_write_secret | apply frame_refl].
Qed.

Lemma Get_Secret_key (key : ObjectKey) (w w' : World) (s : Secret) :
  Get_Secret key w = (Ok s, w') -> keyOf s = key.
Proof.
  unfold Get_Secret. destruct (w_secrets w !! key); [| discriminate].
  intros [= <- _]. now destruct key.
Qed.

Lemma try_Get_Secret_key (key : ObjectKey) (w w' : World) (s : Secret) :
  try (Get_Secret key) w = (Ok (Ok s), w') -> keyOf s = key.
Proof.
  unfold try. destruct (Get_Secret key w) as [r w1] eqn:Hget.
  intros [= -> _]. eapply Get_Secret_key, Hget.
Qed.

Lemma SetControllerReference_key (kind namespace name : string) (s s' : Secret)
    (w w' : World) :
  liftResult (SetControllerReference kind namespace name s) w = (Ok s', w') ->
  keyOf s' = keyOf s.
Proof.
  unfold liftResult, SetControllerReference.
  destruct (decide _); [| discriminate]. now intros [= <- _].
Qed.

Ltac keeps_step :=
  first
    [ apply keeps_ret | apply keeps_fail | apply keeps_Now | apply keeps_liftResult
    | apply keeps_liftRng | apply keeps_Get_Secret
    | apply keeps_try | apply keeps_wrap
    | apply keeps_bind; [| intros ? ? ? ?]
    | match goal with
      | |- keeps _ _ (match ?x with _ => _ end) => destruct x eqn:?
      | |- keeps _ _ (if ?x then _ else _) => destruct x eqn:?
      end ].

(** The write at the end of a pass goes to the secret that the pass has
    read or built. *)
Ltac keeps_write :=
  first [ apply keeps_Update_Secret | apply keeps_Create_Secret ];
  repeat match goal with
         | H : try (Get_Secret _) _ = (Ok (Ok _), _) |- _ =>
           apply try_Get_Secret_key in H
         | H : liftResult (SetControllerReference _ _ _ _) _ = (Ok _, _) |- _ =>
           apply SetControllerReference_key in H
         end;
  repeat match goal with
         | |- context [keyOf (set_Secret_Data ?d ?s)] =>
           change (keyOf (set_Secret_Data d s)) with (keyOf s)
         | |- context [keyOf (set_Secret_StringData ?d ?s)] =>
           change (keyOf (set_Secret_StringData d s)) with (keyOf s)
         end;
  match goal with
  | H : keyOf ?s = _ |- keyOf ?s ∈ _ => rewrite H
  end;
  unfold keyOf; simpl; set_solver.

Lemma keeps_getOrCreateAccountSeed (ks cs : list ObjectKey) (account : NatsAccount) :
  keeps ks cs (getOrCreateAccountSeed account).
Proof. unfold getOrCreateAccountSeed. repeat keeps_step. Qed.

Lemma keeps_getOperatorSeed (ks cs : list ObjectKey) (authConfig : NatsAuthConfig) :
  keeps ks cs (getOperatorSeed authConfig).
Proof. unfold getOperatorSeed. repeat keeps_step. Qed.

Lemma reconcileAccount_keeps (account : NatsAccount) (authConfig : NatsAuthConfig)
    (w : World) :
  frame [accountKey account] [authConfigKey authConfig] w
        (reconcileAccount account authConfig w).2.
Proof.
  unfold reconcileAccount.
  match goal with
  | |- frame ?ks ?cs _ (match ?m w with _ => _ end).2 =>
    assert (Hm : keeps ks cs m)
  end.
  { repeat first [ apply keeps_getOrCreateAccountSeed | apply keeps_getOperatorSeed
                 | keeps_step ].
    all: keeps_write. }
  specialize (Hm w).
  match type of Hm with
  | context [?m w] => destruct (m w) as [[[accountPubKey |] | err] w1]
  end; simpl in Hm; try exact Hm.
  eapply frame_trans; [exact Hm |].
  unfold triggerAuthConfigReconcile, Update_NatsAuthConfig. simpl.
  destruct (w_authconfigs w1 !! _); simpl; [| apply frame_refl].
  unfold frame. simpl. repeat split; try reflexivity.
  intros k Hk. apply lookup_insert_ne. intros <-. apply Hk. set_solver.
Qed.

(** X7. A pass of [reconcileAccount], whatever its outcome, changes no
    secret other than the one of the account, no configuration other than
    the one it was given, no ConfigMap and no account object. *)
Theorem reconcileAccount_frame (account : NatsAccount) (authConfig : NatsAuthConfig)
    (w : World) :
  frame [accountKey account] [authConfigKey authConfig] w
        (reconcileAccount account authConfig w).2.
Proof. apply reconcileAccount_keeps. Qed.

Lemma keeps_Get_NatsAccount (ks cs : list ObjectKey) (key : ObjectKey) :
  keeps ks cs (Get_NatsAccount key).
Proof.
  intros w. unfold Get_NatsAccount. destruct (w_accounts w !! key); apply frame_refl.
Qed.

Lemma keeps_getOrCreateUserSeed (ks cs : list ObjectKey) (user : NatsUser) :
  keeps ks cs (getOrCreateUserSeed user).
Proof. unfold getOrCreateUserSeed. repeat keeps_step. Qed.

Lemma keeps_getAccount (ks cs : list ObjectKey) (user : NatsUser) :
  keeps ks cs (getAccount user).
Proof.
  unfold getAccount. repeat first [ apply keeps_Get_NatsAccount | keeps_step ].
Qed.

Lemma keeps_getAccountSeed (ks cs : list ObjectKey) (account : NatsAccount) :
  keeps ks cs (getAccountSeed account).
Proof. unfold getAccountSeed. repeat keeps_step. Qed.

Lemma reconcileJWTUser_keeps (user : NatsUser) (authConfig : NatsAuthConfig)
    (w : World) :
  frame [credsKey user] [] w (reconcileJWTUser user authConfig w).2.
Proof.
  unfold reconcileJWTUser.
  match goal with
  | |- frame ?ks ?cs _ (match ?m w with _ => _ end).2 =>
    assert (Hm : keeps ks cs m)
  end.
  { repeat first [ apply keeps_getOrCreateUserSeed | apply keeps_getAccount
                 | apply keeps_getAccountSeed | keeps_step ].
    all: keeps_write. }
  specialize (Hm w).
  match type of Hm with
  | context [?m w] => destruct (m w) as [[[userPubKey |] | err] w1]
  end; exact Hm.
Qed.

Lemma reconcileTokenUser_keeps (user : NatsUser) (authConfig : NatsAuthConfig)
    (w : World) :
  frame [credsKey user] [] w (reconcileTokenUser user authConfig w).2.
Proof.
  unfold reconcileTokenUser.
  match goal with
  | |- frame ?ks ?cs _ (match ?m w with _ => _ end).2 =>
    assert (Hm : keeps ks cs m)
  end.
  { repeat keeps_step.
    all: keeps_write. }
  specialize (Hm w).
  match type of Hm with
  | context [?m w] => destruct (m w) as [[[] | err] w1]
  end; exact Hm.
Qed.

(** X8. A pass over a user, hierarchical or flat and whatever its outcome,
    changes no secret other than the credentials secret of the user, and
    no configuration, ConfigMap or account object. *)
Theorem reconcileUser_frame (user : NatsUser) (authConfig : NatsAuthConfig) (w : World) :
  frame [credsKey user] [] w (reconcileJWTUser user authConfig w).2 /\
  frame [credsKey user] [] w (reconcileTokenUser user authConfig w).2.
Proof.
  split; [apply reconcileJWTUser_keeps | apply reconcileTokenUser_keeps].
Qed.

Lemma keeps_getOrCreateOperatorSeed (cs : list ObjectKey) (authConfig : NatsAuthConfig)
    (k : ObjectKey) :
  keeps [managedSeedKey authConfig; k] cs (getOrCreateOperatorSeed authConfig).
Proof.
  unfold getOrCreateOperatorSeed. repeat keeps_step.
  apply keeps_Create_Secret.
  match goal with
  | H : liftResult (SetControllerReference _ _ _ _) _ = (Ok _, _) |- _ =>
    apply SetControllerReference_key in H; rewrite H
  end.
  unfold keyOf, managedSeedKey. simpl. set_solver.
Qed.

Lemma keeps_collectLoop (ks cs : list ObjectKey) (authConfig : NatsAuthConfig)
    (items : list NatsAccount) :
  forall accounts, keeps ks cs (collectLoop authConfig items accounts).
Proof.
  induction items as [| account items IH]; intros accounts; cbn [collectLoop].
  - apply keeps_ret.
  - repeat first [ apply IH | keeps_step ].
Qed.

Lemma keeps_collectAccountJWTs (ks cs : list ObjectKey) (authConfig : NatsAuthConfig) :
  keeps ks cs (collectAccountJWTs authConfig).
Proof.
  unfold collectAccountJWTs. apply keeps_bind.
  - apply keeps_wrap. intros w. apply frame_refl.
  - intros. apply keeps_collectLoop.
Qed.

Lemma reconcileJWTMode_keeps (authConfig : NatsAuthConfig) (w : World) :
  frame [managedSeedKey authConfig; aggregateKey authConfig] [] w
        (reconcileJWTMode authConfig w).2.
Proof.
  unfold reconcileJWTMode.
  match goal with
  | |- frame ?ks ?cs _ (match ?m w with _ => _ end).2 =>
    assert (Hm : keeps ks cs m)
  end.
  { repeat first [ apply keeps_getOrCreateOperatorSeed | apply keeps_collectAccountJWTs
                 | keeps_step ].
    - apply keeps_Update_Secret.
      match goal with
      | H : try (Get_Secret _) _ = (Ok (Ok _), _) |- _ => apply try_Get_Secret_key in H
      end.
      change (keyOf (set_Secret_Data ?d ?s)) with (keyOf s).
      match goal with H : keyOf ?s = _ |- keyOf ?s ∈ _ => rewrite H end.
      unfold aggregateKey. set_solver.
    - apply keeps_Create_Secret. unfold keyOf, aggregateKey. simpl. set_solver. }
  specialize (Hm w).
  match type of Hm with
  | context [?m w] => destruct (m w) as [[operatorPubKey | err] w1]
  end; exact Hm.
Qed.

(** X9. A JWT-mode pass over a configuration, whatever its outcome,
    changes no secret other than the aggregate secret and the secret that
    holds the operator seed of the controller's own making; it changes no
    configuration object, no ConfigMap and no account object. *)
Theorem reconcileJWTMode_frame (authConfig : NatsAuthConfig) (w : World) :
  frame [managedSeedKey authConfig; aggregateKey authConfig] [] w
        (reconcileJWTMode authConfig w).2.
Proof. apply reconcileJWTMode_keeps. Qed.

End FrameProperties.

(** ** What a pass over an account signs and stores *)

Section AccountPassProperties.
Context `{P : Platform}.

Lemma frame_nil (w w' : World) :
  frame [] [] w w' ->
  w_secrets w' = w_secrets w /\ w_authconfigs w' = w_authconfigs w /\
  w_configmaps w' = w_configmaps w /\ w_accounts w' = w_accounts w /\
  w_now w' = w_now w.
Proof.
  intros (Hs & Hc & Hm & Ha & Hn). repeat split; try assumption.
  - apply map_eq. intros k. apply Hs. apply not_elem_of_nil.
  - apply map_eq. intros k. apply Hc. apply not_elem_of_nil.
Qed.

Lemma getOperatorSeed_ext (authConfig : NatsAuthConfig) (w1 w2 : World) :
  w_secrets w1 = w_secrets w2 ->
  (getOperatorSeed authConfig w1).1 = (getOperatorSeed authConfig w2).1.
Proof.
  intros Heq. unfold getOperatorSeed.
  destruct (JWT (AuthConfig_Spec authConfig)) as [jc |]; [| reflexivity].
  destruct (OperatorSeedSecret jc) as [ref |];
    unfold bind, wrap, Get_Secret; rewrite Heq;
    (destruct (w_secrets w2 !! _) as [sec |]; simpl;
     [destruct (Secret_Data sec !! _) |]); reflexivity.
Qed.

(** The steps of [reconcileAccount] from the seed to the write of the
    secret, taken apart with what each has returned. *)
Ltac account_steps Hrun :=
  apply bind_Ok in Hrun as (accountSeed & w1 & Hseed & Hrun);
  apply wrap_Ok in Hseed;
  match type of Hseed with
  | getOrCreateAccountSeed ?a ?w = _ =>
    pose proof (frame_nil _ _ (keeps_getOrCreateAccountSeed [] [] a w))
      as (Hsecrets & _ & _ & _ & Hnow);
    rewrite Hseed in Hsecrets, Hnow; cbn [snd] in Hsecrets, Hnow
  end;
  apply bind_Ok in Hrun as (am & ? & Hmgr & Hrun);
  apply wrap_Ok, liftRng_Ok in Hmgr as (rng2 & Hmgr & ->);
  apply bind_Ok in Hrun as (pub & ? & Hpub & Hrun);
  apply wrap_Ok, liftResult_Ok in Hpub as (Hpub & ->);
  apply bind_Ok in Hrun as (now & ? & Hclock & Hrun);
  injection Hclock as <- <-;
  apply bind_Ok in Hrun as (created & ? & Hclaims & Hrun);
  apply wrap_Ok, liftResult_Ok in Hclaims as (Hclaims & ->);
  apply bind_Ok in Hrun as (operatorSeed & ? & Hopseed & Hrun);
  apply wrap_Ok in Hopseed;
  pose proof (getOperatorSeed_reads _ _ _ _ Hopseed) as ->;
  apply bind_Ok in Hrun as (om & ? & Hopmgr & Hrun);
  apply wrap_Ok, liftRng_Ok in Hopmgr as (rng3 & Hopmgr & ->);
  apply bind_Ok in Hrun as (token & ? & Hjwt & Hrun);
  apply wrap_Ok, liftResult_Ok in Hjwt as (Hjwt & ->);
  apply bind_Ok in Hrun as (jwtSecret & ? & Howner & Hrun);
  apply liftResult_Ok in Howner as (Howner & ->);
  unfold SetControllerReference in Howner;
  rewrite decide_True in Howner by reflexivity;
  injection Howner as <-;
  apply bind_Ok in Hrun as ([] & ? & Hput & Hrun);
  injection Hrun as <- <-;
  apply wrap_Ok in Hput.

(** The status update and the notification at the end of
    [reconcileAccount], taken apart. *)
Ltac account_trigger H :=
  cbv iota in H;
  unfold triggerAuthConfigReconcile, Update_NatsAuthConfig in H; simpl in H;
  match type of H with
  | context [w_authconfigs ?w !! ?k] => destruct (w_authconfigs w !! k); [| discriminate]
  end;
  injection H as <- <- <-.

(** The steps of a pass of [reconcileAccount] that does not return early
    and ends without error. *)
Lemma reconcileAccount_run (account account' : NatsAccount)
    (authConfig authConfig' : NatsAuthConfig) (w w' : World) :
  upToDate account w = false ->
  reconcileAccount account authConfig w = (Ok tt, account', authConfig', w') ->
  exists (accountSeed : string) (w1 : World) (am : AccountManager) (rng2 rng3 : Rng)
         (pub : string) (created : AccountClaims) (operatorSeed : string)
         (om : OperatorManager) (token : string) (s' : Secret),
    getOrCreateAccountSeed account w = (Ok accountSeed, w1) /\
    NewAccountManager accountSeed (w_rng w1) = (Ok am, rng2) /\
    AccountManager_GetPublicKey am = Ok pub /\
    AccountManager_CreateAccountClaims am (Account_Name account)
      (Description (Account_Spec account)) (Limits (Account_Spec account)) (w_now w)
      = Ok created /\
    (getOperatorSeed authConfig w).1 = Ok operatorSeed /\
    NewOperatorManager operatorSeed "" (w_now w) rng2 = (Ok om, rng3) /\
    (OperatorManager_SignAccountJWT om created).2 = Ok token /\
    w_secrets w' !! accountKey account = Some s' /\
    Secret_Data s' = list_to_map [ ("account.jwt", token); ("account.seed", accountSeed) ] /\
    Account_Status account' =
      {| AccountID := pub; Account_PublicKey := pub;
         JWTSecretRef := {| SecretRef_Name := Account_Name account +:+ "-account-jwt";
                            SecretRef_Namespace := Account_Namespace account |} |} /\
    w_rng w' = rng3.
Proof.
  intros Hup H. unfold reconcileAccount in H.
  unfold bind at 1 in H. unfold try, Get_Secret in H.
  unfold upToDate, accountKey in Hup. unfold accountKey.
  destruct (w_secrets w !! _) as [s |] eqn:Hs; cbn [fst snd IsNotFound] in H.
  - change (matchesStatus account _) with (matchesStatus account s) in H.
    rewrite Hup in H.
    match type of H with
    | match ?m w with _ => _ end = _ => destruct (m w) as [[r | e] w2] eqn:Hrun
    end; [| discriminate].
    account_steps Hrun.
    unfold Update_Secret, keyOf in Hput. simpl in Hput.
    rewrite Hsecrets, Hs in Hput. injection Hput as <-.
    account_trigger H.
    simpl in Hclaims, Hopmgr. rewrite Hnow in Hclaims, Hopmgr.
    exists accountSeed, w1, am, rng2, rng3, pub, created, operatorSeed, om, token.
    eexists. repeat (split; [eassumption |]).
    split.
    { rewrite (getOperatorSeed_ext authConfig w (set_w_rng rng2 w1))
        by (simpl; now rewrite Hsecrets).
      now rewrite Hopseed. }
    repeat (split; [eassumption |]).
    simpl. rewrite lookup_insert_eq. split; [reflexivity |]. simpl.
    rewrite (left_id_L ∅ (∪)). auto.
  - match type of H with
    | match ?m w with _ => _ end = _ => destruct (m w) as [[r | e] w2] eqn:Hrun
    end; [| discriminate].
    account_steps Hrun.
    unfold Create_Secret, keyOf in Hput. simpl in Hput.
    rewrite Hsecrets, Hs in Hput. injection Hput as <-.
    account_trigger H.
    simpl in Hclaims, Hopmgr. rewrite Hnow in Hclaims, Hopmgr.
    exists accountSeed, w1, am, rng2, rng3, pub, created, operatorSeed, om, token.
    eexists. repeat (split; [eassumption |]).
    split.
    { rewrite (getOperatorSeed_ext authConfig w (set_w_rng rng2 w1))
        by (simpl; now rewrite Hsecrets).
      now rewrite Hopseed. }
    repeat (split; [eassumption |]).
    simpl. rewrite lookup_insert_eq. split; [reflexivity |]. simpl.
    rewrite (left_id_L ∅ (∪)). auto.
Qed.


Lemma getOrCreateAccountSeed_external (account : NatsAccount) (ref : SecretRef)
    (w : World) :
  Account_ExistingSeedSecret (Account_Spec account) = Some ref ->
  getOrCreateAccountSeed account w =
    (match w_secrets w !! (SecretRef_Namespace ref, SecretRef_Name ref) with
     | None => Err (Wrapf "failed to get account seed secret" ErrNotFound)
     | Some s =>
       match Secret_Data s !! "account.seed" with
       | None => Err (Errorf "account seed not found in secret")
       | Some seed => Ok seed
       end
     end, w).
Proof.
  intros Href. unfold getOrCreateAccountSeed. rewrite Href.
  unfold bind, wrap, Get_Secret.
  destruct (w_secrets w !! _) as [s |]; simpl; [| reflexivity].
  now destruct (Secret_Data s !! "account.seed").
Qed.

Lemma reconcileAccount_seed_error (account : NatsAccount) (authConfig : NatsAuthConfig)
    (w : World) (e : error) :
  upToDate account w = false ->
  getOrCreateAccountSeed account w = (Err e, w) ->
  reconcileAccount account authConfig w =
    (Err (Wrapf "failed to get account seed" e), account, authConfig, w).
Proof.
  intros Hup Hseed. unfold reconcileAccount.
  unfold bind at 1. unfold try, Get_Secret.
  unfold upToDate, accountKey in Hup.
  destruct (w_secrets w !! (Account_Namespace account, _)) as [s |] eqn:Hs;
    cbn [fst snd IsNotFound].
  - match goal with
    | |- context [matchesStatus account ?x] =>
      change (matchesStatus account x) with (matchesStatus account s)
    end.
    rewrite Hup. unfold bind at 1. unfold wrap at 1. now rewrite Hseed.
  - unfold bind at 1. unfold wrap at 1. now rewrite Hseed.
Qed.

(** X11. An account that declares [existingSeedSecret] and has no
    up-to-date record: if the referenced secret is missing or has no
    ["account.seed"] entry, the pass fails and changes nothing, neither the
    cluster nor the account object; otherwise a pass that ends without
    error has stored that very seed next to the token. *)
Theorem reconcileAccount_external_seed (account : NatsAccount)
    (authConfig : NatsAuthConfig) (w : World) (ref : SecretRef) :
  upToDate account w = false ->
  Account_ExistingSeedSecret (Account_Spec account) = Some ref ->
  let r := reconcileAccount account authConfig w in
  match externalSeed ref "account.seed" w with
  | None => isOk r.1.1.1 = false /\ r.1.1.2 = account /\ r.2 = w
  | Some seed =>
    r.1.1.1 = Ok tt ->
    exists s', w_secrets r.2 !! accountKey account = Some s' /\
               Secret_Data s' !! "account.seed" = Some seed
  end.
Proof.
  intros Hup Href r.
  pose proof (getOrCreateAccountSeed_external account ref w Href) as Hseed.
  unfold externalSeed.
  destruct (w_secrets w !! (SecretRef_Namespace ref, SecretRef_Name ref))
    as [sec |] eqn:Hsec; simpl.
  1: destruct (Secret_Data sec !! "account.seed") as [seed |] eqn:Hentry.
  - subst r. destruct (reconcileAccount account authConfig w)
      as [[[res account'] authConfig'] w'] eqn:Hr.
    simpl. intros ->.
    destruct (reconcileAccount_run _ _ _ _ _ _ Hup Hr)
      as (accountSeed & w1 & am & rng2 & rng3 & pub & created & operatorSeed & om &
          token & s' & Hseed' & _ & _ & _ & _ & _ & _ & Hs' & Hdata & _).
    rewrite Hseed in Hseed'. injection Hseed' as <- _.
    exists s'. split; [exact Hs' |]. rewrite Hdata. simpl.
    rewrite lookup_insert_ne by discriminate. apply lookup_insert_eq.
  - subst r. rewrite (reconcileAccount_seed_error _ authConfig _ _ Hup Hseed). auto.
  - subst r. rewrite (reconcileAccount_seed_error _ authConfig _ _ Hup Hseed). auto.
Qed.

(** X12. Reconciling an account twice is reconciling it once: after a pass
    that ended without error, the account with its new status is up to
    date, and a pass over it with the configuration and the cluster that
    the first pass has left returns without error and changes nothing. The
    libraries are assumed not to have produced an empty account id, token
    or seed. *)
Theorem reconcileAccount_idempotent (account account' : NatsAccount)
    (authConfig authConfig' : NatsAuthConfig) (w w' : World) :
  reconcileAccount account authConfig w = (Ok tt, account', authConfig', w') ->
  (forall s', w_secrets w' !! accountKey account = Some s' ->
     nonEmpty (AccountID (Account_Status account')) &&
     nonEmpty (index (Secret_Data s') "account.jwt") &&
     nonEmpty (index (Secret_Data s') "account.seed") = true) ->
  upToDate account' w' = true /\
  reconcileAccount account' authConfig' w' = (Ok tt, account', authConfig', w').
Proof.
  intros H Hne.
  apply reconcileAccount_establishes_guard in H as (s' & Hs' & Hname & Hns & Hguard).
  specialize (Hne s' Hs'). apply andb_prop in Hne as [Hne Hseed].
  apply andb_prop in Hne as [Hid Hjwt].
  specialize (Hguard Hid Hjwt Hseed).
  assert (Hkey : w_secrets w' !! accountKey account' = Some s').
  { unfold accountKey. now rewrite Hname, Hns. }
  split.
  - unfold upToDate. now rewrite Hkey.
  - now apply (reconcileAccount_skips _ _ _ s').
Qed.

Lemma set_w_rng_id (w : World) : set_w_rng (w_rng w) w = w.
Proof. now destruct w. Qed.

Lemma getOrCreateAccountSeed_rng (account : NatsAccount) (w : World) :
  exists rng, (getOrCreateAccountSeed account w).2 = set_w_rng rng w.
Proof.
  unfold getOrCreateAccountSeed.
  destruct (Account_ExistingSeedSecret (Account_Spec account)) as [ref |].
  - exists (w_rng w). rewrite set_w_rng_id. unfold bind, wrap, Get_Secret.
    destruct (w_secrets w !! _) as [sec |]; simpl; [| reflexivity].
    now destruct (Secret_Data sec !! _).
  - unfold bind, liftRng, liftResult, ret.
    destruct (NewAccountManager "" (w_rng w)) as [[am | e] rng]; [| eauto].
    destruct (AccountManager_GetSeed am); eauto.
Qed.

Ltac early_failure e rng :=
  exists e, rng; split; [reflexivity |];
  right; eexists _, _; split; [reflexivity |];
  repeat first [ now left | right ].

Ltac no_jwt_steps account w Hjwt :=
  let rng1 := fresh "rng" in
  let Hrng1 := fresh "Hrng" in
  let seed := fresh "seed" in
  let e := fresh "e" in
  let w1 := fresh "w" in
  let am := fresh "am" in
  let rng2 := fresh "rng" in
  let pub := fresh "pub" in
  let claims := fresh "claims" in
  unfold bind at 1; unfold wrap at 1;
  destruct (getOrCreateAccountSeed_rng account w) as (rng1 & Hrng1);
  destruct (getOrCreateAccountSeed account w) as [[seed | e] w1];
  simpl in Hrng1; subst w1;
  [| early_failure (Wrapf "failed to get account seed" e) rng1 ];
  unfold bind at 1; unfold wrap at 1; unfold liftRng at 1; cbn [w_rng set_w_rng];
  destruct (NewAccountManager seed rng1) as [[am | e] rng2];
  [| early_failure (Wrapf "failed to create account manager" e) rng2 ];
  unfold bind at 1; unfold wrap at 1; unfold liftResult at 1;
  destruct (AccountManager_GetPublicKey am) as [pub | e];
  [| early_failure (Wrapf "failed to get account public key" e) rng2 ];
  unfold bind at 1; unfold Now at 1;
  unfold bind at 1; unfold wrap at 1; unfold liftResult at 1;
  destruct (AccountManager_CreateAccountClaims am _ _ _ _) as [claims | e];
  [| early_failure (Wrapf "failed to create account claims" e) rng2 ];
  unfold bind at 1; unfold wrap at 1; unfold getOperatorSeed; rewrite Hjwt;
  exists (Wrapf "failed to get operator seed" (Panic "nil pointer dereference")), rng2;
  split; [reflexivity | left; reflexivity].

(** X26. The account controller does not look for the [jwt] block before
    it uses it. Under a configuration without one, a pass of
    [reconcileAccount] over an account that has no up-to-date record never
    ends without error and writes nothing, neither a Secret nor the
    configuration, and leaves the status of the account as it was: it
    fails in one of the steps that make the key and the claims of the
    account, or else at the dereference of the missing block in
    [getOperatorSeed], which is a run-time panic. *)
Theorem reconcileAccount_without_jwt_block (account : NatsAccount)
    (authConfig : NatsAuthConfig) (w : World) :
  JWT (AuthConfig_Spec authConfig) = None ->
  upToDate account w = false ->
  let r := reconcileAccount account authConfig w in
  (exists e, r.1.1.1 = Err e /\
     (unwinds e = true \/
      exists cause msg,
        e = Wrapf msg cause /\
        msg ∈ [ "failed to get account seed"; "failed to create account manager";
                "failed to get account public key";
                "failed to create account claims" ])) /\
  r.1.1.2 = account /\
  w_secrets r.2 = w_secrets w /\
  w_authconfigs r.2 = w_authconfigs w /\
  w_writes r.2 = w_writes w.
Proof.
  intros Hjwt Hup r.
  assert (Hregen : exists e rng,
    r = (Err e, account, authConfig, set_w_rng rng w) /\
    (unwinds e = true \/
      exists cause msg,
        e = Wrapf msg cause /\
        msg ∈ [ "failed to get account seed"; "failed to create account manager";
                "failed to get account public key";
                "failed to create account claims" ])).
  { subst r. unfold reconcileAccount.
    unfold bind at 1. unfold try, Get_Secret.
    unfold upToDate, accountKey in Hup.
    destruct (w_secrets w !! (Account_Namespace account, _)) as [s |] eqn:Hs;
      cbn [fst snd IsNotFound].
    - match goal with
      | |- context [matchesStatus account ?x] =>
        change (matchesStatus account x) with (matchesStatus account s)
      end.
      rewrite Hup. no_jwt_steps account w Hjwt.
    - no_jwt_steps account w Hjwt. }
  destruct Hregen as (e & rng & Hrun & He). rewrite Hrun. cbn [fst snd].
  split; [exists e; split; [reflexivity | exact He] |].
  now destruct w.
Qed.

End AccountPassProperties.

(** ** What a pass over a hierarchical user signs and stores *)

Section UserPassProperties.
Context `{P : Platform}.

Lemma getAccount_reads (user : NatsUser) (w : World) : (getAccount user w).2 = w.
Proof.
  unfold getAccount. destruct (AccountRef (User_Spec user)) as [ref |]; [| reflexivity].
  unfold Get_NatsAccount. now destruct (w_accounts w !! _).
Qed.

Lemma getAccountSeed_reads (account : NatsAccount) (w : World) :
  (getAccountSeed account w).2 = w.
Proof.
  unfold getAccountSeed. destruct (nonEmpty _); [| reflexivity].
  unfold bind, wrap, Get_Secret.
  destruct (w_secrets w !! _) as [sec |]; simpl; [| reflexivity].
  now destruct (Secret_Data sec !! _).
Qed.

Lemma getAccountSeed_ext (account : NatsAccount) (w1 w2 : World) :
  w_secrets w1 = w_secrets w2 ->
  (getAccountSeed account w1).1 = (getAccountSeed account w2).1.
Proof.
  intros Heq. unfold getAccountSeed. destruct (nonEmpty _); [| reflexivity].
  unfold bind, wrap, Get_Secret. rewrite Heq.
  destruct (w_secrets w2 !! _) as [sec |]; simpl; [| reflexivity].
  now destruct (Secret_Data sec !! _).
Qed.

(** The steps of [reconcileJWTUser] from the seed of the user to the write
    of the credentials secret, taken apart with what each has returned. *)
Ltac user_steps Hrun :=
  apply bind_Ok in Hrun as (userSeed & w1 & Hseed & Hrun);
  apply wrap_Ok in Hseed;
  match type of Hseed with
  | getOrCreateUserSeed ?u ?w = _ =>
    pose proof (frame_nil _ _ (keeps_getOrCreateUserSeed [] [] u w))
      as (Hsecrets & _ & _ & Haccounts & Hnow);
    rewrite Hseed in Hsecrets, Haccounts, Hnow;
    cbn [snd] in Hsecrets, Haccounts, Hnow
  end;
  apply bind_Ok in Hrun as (um & ? & Hum & Hrun);
  apply wrap_Ok, liftRng_Ok in Hum as (rng2 & Hum & ->);
  apply bind_Ok in Hrun as (userPub & ? & Hpub & Hrun);
  apply wrap_Ok, liftResult_Ok in Hpub as (Hpub & ->);
  apply bind_Ok in Hrun as (now & ? & Hclock & Hrun);
  injection Hclock as <- <-;
  apply bind_Ok in Hrun as (created & ? & Hclaims & Hrun);
  apply wrap_Ok, liftResult_Ok in Hclaims as (Hclaims & ->);
  apply bind_Ok in Hrun as (accountSeed & w5 & Hacseed & Hrun);
  apply wrap_Ok in Hacseed;
  match type of Hacseed with
  | getAccountSeed ?a ?w = _ =>
    let Hreads := fresh "Hreads" in
    pose proof (getAccountSeed_reads a w) as Hreads;
    rewrite Hacseed in Hreads; cbn [snd] in Hreads; subst w5
  end;
  apply bind_Ok in Hrun as (am & ? & Hmgr & Hrun);
  apply wrap_Ok, liftRng_Ok in Hmgr as (rng3 & Hmgr & ->);
  apply bind_Ok in Hrun as (token & ? & Hjwt & Hrun);
  apply wrap_Ok, liftResult_Ok in Hjwt as (Hjwt & ->);
  apply bind_Ok in Hrun as (secret & ? & Howner & Hrun);
  apply liftResult_Ok in Howner as (Howner & ->);
  unfold SetControllerReference in Howner;
  rewrite decide_True in Howner by reflexivity;
  injection Howner as <-;
  apply bind_Ok in Hrun as (check & w9 & Hcheck & Hrun);
  apply bind_Ok in Hrun as ([] & ? & Hput & Hrun);
  injection Hrun as <- <-.

(** The steps of a pass of [reconcileJWTUser] that does not return early
    and ends without error. *)
Lemma reconcileJWTUser_run (user user' : NatsUser) (authConfig : NatsAuthConfig)
    (w w' : World) :
  credentialsIssued user w = false ->
  reconcileJWTUser user authConfig w = (Ok tt, user', w') ->
  exists (account : NatsAccount) (userSeed : string) (w1 : World) (um : UserManager)
         (rng2 rng3 : Rng) (userPub : string) (created : UserClaims)
         (accountSeed : string) (am : AccountManager) (token : string) (s' : Secret),
    getAccount user w = (Ok account, w) /\
    nonEmpty (AccountID (Account_Status account)) = true /\
    getOrCreateUserSeed user w = (Ok userSeed, w1) /\
    NewUserManager userSeed (w_rng w1) = (Ok um, rng2) /\
    UserManager_GetPublicKey um = Ok userPub /\
    UserManager_CreateUserClaims um (tokenName user)
      (User_Permissions (User_Spec user)) (w_now w) = Ok created /\
    (getAccountSeed account w).1 = Ok accountSeed /\
    NewAccountManager accountSeed rng2 = (Ok am, rng3) /\
    (AccountManager_SignUserJWT am created).2 = Ok token /\
    w_secrets w' !! credsKey user = Some s' /\
    Secret_Data s' =
      list_to_map [ ("user.creds", GenerateCredsFile token userSeed);
                    ("user.jwt", token);
                    ("NATS_URL", NatsURL (AuthConfig_Spec authConfig)) ]
      ∪ list_to_map [ ("seed.nk", userSeed) ] /\
    user' =
      set_User_Status
        {| User_SecretRef := {| SecretRef_Name := User_Name user +:+ "-user-creds";
                                SecretRef_Namespace := User_Namespace user |};
           User_PublicKey := userPub |} user /\
    w_accounts w' = w_accounts w.
Proof.
  intros Hskip H. unfold reconcileJWTUser in H.
  match type of H with
  | match ?m w with _ => _ end = _ => destruct (m w) as [[r | e] w2] eqn:Hrun
  end; [| discriminate].
  destruct (AccountRef (User_Spec user)) as [ref |] eqn:Href; [| discriminate].
  apply bind_Ok in Hrun as (account & w0 & Hacc & Hrun).
  apply wrap_Ok in Hacc.
  pose proof (getAccount_reads user w) as Hw0. rewrite Hacc in Hw0. simpl in Hw0.
  subst w0.
  destruct (nonEmpty (AccountID (Account_Status account))) eqn:Hid; [| discriminate].
  apply bind_Ok in Hrun as (r0 & w0 & Hget & Hrun).
  unfold credentialsIssued, credsKey in Hskip.
  unfold try, Get_Secret in Hget.
  destruct (w_secrets w !! (User_Namespace user, User_Name user +:+ "-user-creds"))
    as [s |] eqn:Hs; injection Hget as <- <-; cbn [IsNotFound] in Hrun.
  - cbn [Secret_Data] in Hrun. rewrite Hskip in Hrun.
    user_steps Hrun.
    unfold try, Get_Secret in Hcheck. cbn [w_secrets set_w_rng] in Hcheck.
    rewrite Hsecrets, Hs in Hcheck. injection Hcheck as <- <-.
    apply wrap_Ok in Hput. unfold Update_Secret, keyOf in Hput. simpl in Hput.
    rewrite Hsecrets, Hs in Hput. injection Hput as <-.
    cbv iota in H. injection H as <- <-.
    simpl in Hclaims, Hmgr. rewrite Hnow in Hclaims.
    exists account, userSeed, w1, um, rng2, rng3, userPub, created, accountSeed, am, token.
    eexists. repeat (split; [eassumption |]).
    split.
    { rewrite (getAccountSeed_ext account w (set_w_rng rng2 w1))
        by (simpl; now rewrite Hsecrets).
      now rewrite Hacseed. }
    repeat (split; [eassumption |]).
    unfold credsKey. simpl. rewrite lookup_insert_eq. auto.
  - user_steps Hrun.
    unfold try, Get_Secret in Hcheck. cbn [w_secrets set_w_rng] in Hcheck.
    rewrite Hsecrets, Hs in Hcheck. injection Hcheck as <- <-.
    cbn [IsNotFound] in Hput.
    apply wrap_Ok in Hput. unfold Create_Secret, keyOf in Hput. simpl in Hput.
    rewrite Hsecrets, Hs in Hput. injection Hput as <-.
    cbv iota in H. injection H as <- <-.
    simpl in Hclaims, Hmgr. rewrite Hnow in Hclaims.
    exists account, userSeed, w1, um, rng2, rng3, userPub, created, accountSeed, am, token.
    eexists. repeat (split; [eassumption |]).
    split.
    { rewrite (getAccountSeed_ext account w (set_w_rng rng2 w1))
        by (simpl; now rewrite Hsecrets).
      now rewrite Hacseed. }
    repeat (split; [eassumption |]).
    unfold credsKey. simpl. rewrite lookup_insert_eq. auto.
Qed.


(** X14. Unless the account that a hierarchical user names exists and has
    an account id in its status, a pass over the user fails and changes
    nothing: no key is drawn, no secret is written, and the user object is
    as it was. *)
Theorem reconcileJWTUser_account_not_ready (user : NatsUser)
    (authConfig : NatsAuthConfig) (w : World) :
  match (getAccount user w).1 with
  | Ok account => nonEmpty (AccountID (Account_Status account)) = false
  | Err _ => True
  end ->
  exists e, reconcileJWTUser user authConfig w = (Err e, user, w).
Proof.
  intros Hnot. unfold reconcileJWTUser.
  pose proof (getAccount_reads user w) as Hreads.
  destruct (AccountRef (User_Spec user)) as [ref |]; [| eauto].
  unfold bind at 1. unfold wrap at 1.
  destruct (getAccount user w) as [[account | e] w0]; simpl in Hnot, Hreads; subst w0.
  - rewrite Hnot. eauto.
  - eauto.
Qed.

Lemma getAccount_ext (user1 user2 : NatsUser) (w1 w2 : World) :
  User_Spec user1 = User_Spec user2 ->
  User_Namespace user1 = User_Namespace user2 ->
  w_accounts w1 = w_accounts w2 ->
  (getAccount user1 w1).1 = (getAccount user2 w2).1.
Proof.
  intros Hspec Hns Hacc. unfold getAccount. rewrite Hspec, Hns.
  destruct (AccountRef (User_Spec user2)) as [ref |]; [| reflexivity].
  unfold Get_NatsAccount. rewrite Hacc. now destruct (w_accounts w2 !! _).
Qed.

Lemma reconcileJWTUser_early (user user' : NatsUser) (authConfig : NatsAuthConfig)
    (w w' : World) :
  credentialsIssued user w = true ->
  reconcileJWTUser user authConfig w = (Ok tt, user', w') ->
  user' = user /\ w' = w /\
  forall authConfig', reconcileJWTUser user authConfig' w = (Ok tt, user, w).
Proof.
  intros Hskip H. unfold credentialsIssued, credsKey in Hskip.
  destruct (w_secrets w !! _) as [s |] eqn:Hs; [| discriminate].
  apply andb_prop in Hskip as [Hpk Hcreds].
  pose proof H as H0. unfold reconcileJWTUser in H0.
  destruct (AccountRef (User_Spec user)) as [ref |] eqn:Href; [| discriminate].
  unfold bind at 1 in H0. unfold wrap at 1 in H0.
  pose proof (getAccount_reads user w) as Hreads.
  destruct (getAccount user w) as [[account | e] w0] eqn:Hacc; [| discriminate].
  simpl in Hreads. subst w0.
  destruct (nonEmpty (AccountID (Account_Status account))) eqn:Hid; [| discriminate].
  clear H0.
  assert (Hgo : forall authConfig', reconcileJWTUser user authConfig' w = (Ok tt, user, w)).
  { intros authConfig'. now apply (reconcileJWTUser_skips _ _ _ ref account s). }
  rewrite Hgo in H. injection H as <- <-. auto.
Qed.

(** X15. Reconciling a hierarchical user twice is reconciling it once:
    after a pass that ended without error and left a public key in the
    status, the early return applies to the user with its new status, and
    a pass over it with the cluster as the first pass has left it, under
    any configuration, returns without error and changes nothing. *)
Theorem reconcileJWTUser_idempotent (user user' : NatsUser)
    (authConfig : NatsAuthConfig) (w w' : World) :
  reconcileJWTUser user authConfig w = (Ok tt, user', w') ->
  nonEmpty (User_PublicKey (User_Status user')) = true ->
  credentialsIssued user' w' = true /\
  forall authConfig', reconcileJWTUser user' authConfig' w' = (Ok tt, user', w').
Proof.
  intros H Hpk.
  destruct (credentialsIssued user w) eqn:Hskip.
  - destruct (reconcileJWTUser_early _ _ _ _ _ Hskip H) as (-> & -> & Hgo). auto.
  - destruct (reconcileJWTUser_run _ _ _ _ _ Hskip H)
      as (account & userSeed & w1 & um & rng2 & rng3 & userPub & created & accountSeed &
          am & token & s' & Hacc & Hid & _ & _ & _ & _ & _ & _ & _ &
          Hs' & Hdata & -> & Haccounts).
    assert (Hcreds : nonEmpty (index (Secret_Data s') "user.creds") = true).
    { unfold index. rewrite Hdata.
      erewrite lookup_union_Some_l by apply lookup_insert_eq. reflexivity. }
    cbn [set_User_Status User_Status User_PublicKey] in Hpk.
    split.
    + unfold credentialsIssued.
      change (credsKey (set_User_Status _ user)) with (credsKey user).
      rewrite Hs'. cbn [set_User_Status User_Status User_PublicKey].
      now rewrite Hpk, Hcreds.
    + intros authConfig'.
      destruct (AccountRef (User_Spec user)) as [ref |] eqn:Href.
      2: { unfold getAccount in Hacc. rewrite Href in Hacc. discriminate. }
      apply (reconcileJWTUser_skips _ _ _ ref account s'); try assumption.
      pose proof (getAccount_ext
                    (set_User_Status
                       {| User_SecretRef :=
                            {| SecretRef_Name := User_Name user +:+ "-user-creds";
                               SecretRef_Namespace := User_Namespace user |};
                          User_PublicKey := userPub |} user)
                    user w' w eq_refl eq_refl Haccounts) as Hext.
      pose proof (getAccount_reads
                    (set_User_Status
                       {| User_SecretRef :=
                            {| SecretRef_Name := User_Name user +:+ "-user-creds";
                               SecretRef_Namespace := User_Namespace user |};
                          User_PublicKey := userPub |} user) w') as Hreads.
      rewrite Hacc in Hext. simpl in Hext.
      destruct (getAccount _ w') as [r w0]. simpl in Hext, Hreads. now subst.
Qed.

End UserPassProperties.

(** ** Flat-mode users with a password of their own *)

Section TokenUserPassProperties.
Context `{P : Platform}.

(** X16. A flat-mode user with a declared username whose password is taken
    from a secret that exists: the pass ends without error, draws nothing
    from the random source, and the credentials secret then reads the
    declared username and the ["password"] entry of the referenced secret.
    Where the credentials secret already read both, the pass writes
    nothing, whatever else the secret holds. *)
Theorem reconcileTokenUser_password_from_secret (user : NatsUser)
    (authConfig : NatsAuthConfig) (w : World) (passwordFrom : PasswordSource)
    (ref : SecretRef) (sec : Secret) :
  nonEmpty (Username (User_Spec user)) = true ->
  PasswordFrom (User_Spec user) = Some passwordFrom ->
  Generate passwordFrom = false ->
  PasswordSource_SecretRef passwordFrom = Some ref ->
  w_secrets w !! (SecretRef_Namespace ref, SecretRef_Name ref) = Some sec ->
  exists user' w' s',
    reconcileTokenUser user authConfig w = (Ok tt, user', w') /\
    w_secrets w' !! credsKey user = Some s' /\
    index (Secret_Data s') "USERNAME" = Username (User_Spec user) /\
    index (Secret_Data s') "PASSWORD" = index (Secret_Data sec) "password" /\
    w_rng w' = w_rng w /\
    (forall s, w_secrets w !! credsKey user = Some s ->
       Secret_Data s <> ∅ ->
       index (Secret_Data s) "USERNAME" = Username (User_Spec user) ->
       index (Secret_Data s) "PASSWORD" = index (Secret_Data sec) "password" ->
       w' = w).
Proof.
  intros Hname Hpf Hgen Href Hsec.
  unfold reconcileTokenUser, credsKey.
  rewrite Hname, Hpf, Hgen, Href.
  unfold bind at 1. unfold ret at 1.
  unfold bind at 1. unfold bind at 1. unfold wrap at 1. unfold Get_Secret at 1.
  rewrite Hsec. unfold ret at 1. cbn [Secret_Data].
  unfold SetControllerReference. rewrite decide_True by reflexivity.
  unfold bind at 1. unfold liftResult at 1.
  unfold bind at 1. unfold try, Get_Secret.
  destruct (w_secrets w !! (User_Namespace user, User_Name user +:+ "-user-creds"))
    as [s |] eqn:Hs; cbn [IsNotFound fst snd Secret_Data].
  - destruct (bool_decide (Secret_Data s = ∅) ||
              negb (String.eqb (index (Secret_Data s) "USERNAME") (Username (User_Spec user))) ||
              negb (String.eqb (index (Secret_Data s) "PASSWORD")
                      (index (Secret_Data sec) "password"))) eqn:Hguard.
    + unfold wrap, Update_Secret, keyOf. simpl. rewrite Hs.
      eexists _, _, _. split; [reflexivity |]. simpl.
      rewrite lookup_insert_eq. split; [reflexivity |].
      unfold index. simpl.
      split; [| split; [| split; [reflexivity |]]].
      * erewrite lookup_union_Some_l; [reflexivity |]. apply lookup_insert_eq.
      * erewrite lookup_union_Some_l; [reflexivity |].
        rewrite lookup_insert_ne by discriminate. apply lookup_insert_eq.
      * intros s0 [= <-] Hne Hu Hp. exfalso.
        apply orb_prop in Hguard as [Hguard | Hguard];
          [apply orb_prop in Hguard as [Hguard | Hguard] |].
        -- apply bool_decide_eq_true in Hguard. contradiction.
        -- apply negb_true_iff, String.eqb_neq in Hguard. contradiction.
        -- apply negb_true_iff, String.eqb_neq in Hguard. contradiction.
    + apply orb_false_elim in Hguard as [Hguard Hp].
      apply orb_false_elim in Hguard as [_ Hu].
      apply negb_false_iff, String.eqb_eq in Hu, Hp.
      eexists _, _, s. split; [reflexivity |]. auto.
  - unfold wrap, Create_Secret, keyOf. simpl. rewrite Hs.
    eexists _, _, _. split; [reflexivity |]. simpl.
    rewrite lookup_insert_eq. split; [reflexivity |].
    unfold index. simpl.
    split; [| split; [| split; [reflexivity | discriminate]]].
    + erewrite lookup_union_Some_l; [reflexivity |]. apply lookup_insert_eq.
    + erewrite lookup_union_Some_l; [reflexivity |].
      rewrite lookup_insert_ne by discriminate. apply lookup_insert_eq.
Qed.

End TokenUserPassProperties.

(** ** The operator seed *)

Section OperatorSeedProperties.
Context `{P : Platform}.

(** What a call of [getOrCreateOperatorSeed] that returns a seed has read
    or written. *)
Lemma getOrCreateOperatorSeed_Ok (authConfig : NatsAuthConfig) (w w' : World)
    (seed : string) :
  getOrCreateOperatorSeed authConfig w = (Ok seed, w') ->
  exists jwtConfig,
    JWT (AuthConfig_Spec authConfig) = Some jwtConfig /\
    match OperatorSeedSecret jwtConfig with
    | Some ref =>
      w' = w /\
      exists s,
        w_secrets w !! (OperatorSeedSecret_Namespace ref, OperatorSeedSecret_Name ref)
          = Some s /\
        Secret_Data s !! (if nonEmpty (OperatorSeedSecret_Key ref)
                           then OperatorSeedSecret_Key ref else "operator.seed")
          = Some seed
    | None =>
      match w_secrets w !! managedSeedKey authConfig with
      | Some s =>
        w_secrets w' = w_secrets w /\ seed = index (Secret_Data s) "operator.seed"
      | None =>
        exists s',
          w_secrets w' = <[ managedSeedKey authConfig := s' ]> (w_secrets w) /\
          Secret_Data s' = {[ "operator.seed" := seed ]}
      end
    end.
Proof.
  unfold getOrCreateOperatorSeed. intros H.
  destruct (JWT (AuthConfig_Spec authConfig)) as [jc |]; [| discriminate].
  exists jc. split; [reflexivity |].
  destruct (OperatorSeedSecret jc) as [ref |].
  - unfold bind, wrap, Get_Secret in H.
    destruct (w_secrets w !! _) as [s |]; [| discriminate]. simpl in H.
    destruct (Secret_Data s !! _) as [seed' |] eqn:Hentry; [| discriminate].
    injection H as <- <-. eauto.
  - apply bind_Ok in H as (now & w1 & Hclock & H). injection Hclock as <- <-.
    apply bind_Ok in H as (om & w1 & Hom & H).
    apply liftRng_Ok in Hom as (rng1 & _ & ->).
    apply bind_Ok in H as (seed' & w1 & Hseed & H).
    apply liftResult_Ok in Hseed as (_ & ->).
    apply bind_Ok in H as (secret & w1 & Howner & H).
    apply liftResult_Ok in Howner as (Howner & ->).
    unfold SetControllerReference in Howner.
    rewrite decide_True in Howner by reflexivity. injection Howner as <-.
    unfold bind, try, Create_Secret, keyOf in H. simpl in H.
    unfold managedSeedKey.
    destruct (w_secrets w !! (AuthConfig_Namespace authConfig, _)) as [s |] eqn:Hs.
    + simpl in H. unfold Get_Secret in H. simpl in H. rewrite Hs in H.
      injection H as <- <-. auto.
    + simpl in H. injection H as <- <-. eexists. split; [reflexivity |].
      simpl. rewrite (left_id_L ∅ (∪)). now rewrite insert_empty.
Qed.

(** X17. The operator seed is stable and the controllers agree on it. A
    call of [getOrCreateOperatorSeed] that returns a seed changes no secret
    that existed; every later call on the same secrets returns the same
    seed and writes no secret, whatever the random source and the clock;
    and whenever [getOperatorSeed] of the account controller returns a
    seed afterwards, it is that seed, which it does unless the seed is
    empty. *)
Theorem operator_seed_is_stable (authConfig : NatsAuthConfig) (w w' : World)
    (seed : string) :
  getOrCreateOperatorSeed authConfig w = (Ok seed, w') ->
  (forall k s, w_secrets w !! k = Some s -> w_secrets w' !! k = Some s) /\
  (forall w2 w3 seed2,
     w_secrets w2 = w_secrets w' ->
     getOrCreateOperatorSeed authConfig w2 = (Ok seed2, w3) ->
     seed2 = seed /\ w_secrets w3 = w_secrets w2) /\
  (forall seed', (getOperatorSeed authConfig w').1 = Ok seed' -> seed' = seed) /\
  (nonEmpty seed = true -> (getOperatorSeed authConfig w').1 = Ok seed).
Proof.
  intros H. apply getOrCreateOperatorSeed_Ok in H as (jc & Hjc & H).
  split; [| split].
  - intros k s Hk. destruct (OperatorSeedSecret jc) as [ref |].
    + destruct H as (-> & _). exact Hk.
    + destruct (w_secrets w !! managedSeedKey authConfig) as [s0 |] eqn:Hs0.
      * destruct H as (-> & _). exact Hk.
      * destruct H as (s' & -> & _).
        rewrite lookup_insert_ne; [exact Hk |]. intros <-. congruence.
  - intros w2 w3 seed2 Hw2 H2.
    apply getOrCreateOperatorSeed_Ok in H2 as (jc2 & Hjc2 & H2).
    rewrite Hjc in Hjc2. injection Hjc2 as <-.
    destruct (OperatorSeedSecret jc) as [ref |].
    + destruct H as (-> & s & Hs & Hentry). destruct H2 as (-> & s2 & Hs2 & Hentry2).
      rewrite Hw2, Hs in Hs2. injection Hs2 as <-. split; [congruence | reflexivity].
    + rewrite Hw2 in H2.
      destruct (w_secrets w !! managedSeedKey authConfig) as [s0 |] eqn:Hs0.
      * destruct H as (Hw' & ->). rewrite Hw', Hs0 in H2.
        destruct H2 as (Hw3 & ->). split; [reflexivity | congruence].
      * destruct H as (s' & Hw' & Hdata). rewrite Hw', lookup_insert_eq in H2.
        destruct H2 as (Hw3 & ->). split; [| congruence].
        unfold index. rewrite Hdata. now rewrite lookup_singleton_eq.
  - unfold getOperatorSeed. rewrite Hjc.
    destruct (OperatorSeedSecret jc) as [ref |].
    + destruct H as (-> & s & Hs & Hentry).
      unfold bind, wrap, Get_Secret. rewrite Hs. simpl. rewrite Hentry. simpl.
      split; [now intros seed' [= <-] | reflexivity].
    + unfold bind, wrap, Get_Secret. unfold managedSeedKey in H.
      destruct (w_secrets w !! (AuthConfig_Namespace authConfig, _)) as [s0 |] eqn:Hs0.
      * destruct H as (-> & ->). rewrite Hs0. simpl. unfold index.
        destruct (Secret_Data s0 !! "operator.seed") as [x |]; simpl.
        -- split; [now intros seed' [= <-] | reflexivity].
        -- split; [discriminate | discriminate].
      * destruct H as (s' & -> & Hdata). rewrite lookup_insert_eq. simpl.
        rewrite Hdata, lookup_singleton_eq. simpl.
        split; [now intros seed' [= <-] | reflexivity].
Qed.

(** X18. A JWT-mode pass over a configuration that ends without error
    publishes the operator it has signed with: the operator manager is
    made from the seed that [getOrCreateOperatorSeed] returns, under the
    declared operator name (["NATS Operator"] if none is declared) and the
    current time; the [operatorPubKey] of the new status is its public key,
    which is the public key of that seed unless the seed is empty; the
    status says the resolver is ready, and nothing else of the object
    changes. *)
Theorem reconcileJWTMode_publishes_operator_key (authConfig authConfig' : NatsAuthConfig)
    (w w' : World) :
  reconcileJWTMode authConfig w = (Ok tt, authConfig', w') ->
  exists (jwtConfig : JWTConfig) (seed : string) (om : OperatorManager) (rng rng' : Rng),
    let pub := OperatorPubKey (AuthConfig_Status authConfig') in
    JWT (AuthConfig_Spec authConfig) = Some jwtConfig /\
    (getOrCreateOperatorSeed authConfig w).1 = Ok seed /\
    NewOperatorManager seed (operatorNameOf jwtConfig) (w_now w) rng = (Ok om, rng') /\
    OperatorManager_GetPublicKey om = Ok pub /\
    (nonEmpty seed = true ->
     exists kp, nkeys_FromSeed seed = Ok kp /\ kp_PublicKey kp = Ok pub) /\
    authConfig' =
      set_AuthConfig_Status {| OperatorPubKey := pub; ResolverReady := true |} authConfig.
Proof.
  intros H. unfold reconcileJWTMode in H.
  match type of H with
  | match ?m w with _ => _ end = _ => destruct (m w) as [[pk | e] w2] eqn:Hrun
  end; [| discriminate].
  injection H as <- <-.
  apply bind_Ok in Hrun as (seed & w1 & Hseed & Hrun).
  apply wrap_Ok in Hseed.
  pose proof (keeps_getOrCreateOperatorSeed [] authConfig (aggregateKey authConfig) w)
    as (_ & _ & _ & _ & Hnow).
  rewrite Hseed in Hnow. cbn [snd] in Hnow.
  destruct (JWT (AuthConfig_Spec authConfig)) as [jc |]; [| discriminate].
  apply bind_Ok in Hrun as (now & w3 & Hclock & Hrun). injection Hclock as <- <-.
  apply bind_Ok in Hrun as (om & w4 & Hom & Hrun).
  apply wrap_Ok, liftRng_Ok in Hom as (rng4 & Hom & ->).
  apply bind_Ok in Hrun as (pubKey & w5 & Hpub & Hrun).
  apply wrap_Ok, liftResult_Ok in Hpub as (Hpub & ->).
  apply bind_Ok in Hrun as (accounts & w6 & _ & Hrun).
  apply bind_Ok in Hrun as (r & w7 & _ & Hrun).
  apply bind_Ok in Hrun as ([] & w8 & _ & Hrun).
  injection Hrun as <- <-.
  rewrite Hnow in Hom.
  exists jc, seed, om, (w_rng w1), rng4. cbv zeta. cbn [set_AuthConfig_Status
    AuthConfig_Status OperatorPubKey].
  split; [reflexivity |]. split; [now rewrite Hseed |]. split; [exact Hom |].
  split; [exact Hpub |]. split; [| reflexivity].
  intros Hne. unfold NewOperatorManager in Hom. rewrite Hne in Hom.
  destruct (nkeys_FromSeed seed) as [kp | e]; [| discriminate].
  exists kp. split; [reflexivity |].
  unfold OperatorManager_GetPublicKey in Hpub.
  destruct (kp_PublicKey kp) as [pub |] eqn:Hkp; [| discriminate].
  destruct (jwt_Encode _ kp); [| discriminate].
  injection Hom as <- _. simpl in Hpub. congruence.
Qed.

End OperatorSeedProperties.

(** ** Which accounts an aggregation takes *)

Section CollectionProperties.
Context `{P : Platform}.

Lemma nonEmpty_true (s : string) : nonEmpty s = true <-> s <> "".
Proof.
  unfold nonEmpty. rewrite negb_true_iff. apply String.eqb_neq.
Qed.

Lemma listed_elem (namespace : string) (w : World) (account : NatsAccount) :
  account ∈ listed namespace w <->
  Account_Namespace account = namespace /\
  w_accounts w !! (Account_Namespace account, Account_Name account)
    = Some (Account_Spec account, Account_Status account).
Proof.
  unfold listed. rewrite list_elem_of_fmap. split.
  - intros ([[ns name] [spec status]] & -> & Hin).
    apply list_elem_of_filter in Hin as [Hns Hin]. simpl in Hns.
    apply elem_of_map_to_list in Hin. simpl. auto.
  - intros [Hns Hlook].
    exists ((Account_Namespace account, Account_Name account),
            (Account_Spec account, Account_Status account)).
    split; [now destruct account |].
    apply list_elem_of_filter. split; [exact Hns |].
    now apply elem_of_map_to_list.
Qed.

(** X19. [collectAccountJWTs] never fails on this store and changes
    nothing. It returns, without two entries of the same name, exactly the
    accounts of the namespace of the configuration whose [authConfigRef]
    has the name of the configuration, whose secret exists and has an
    ["account.jwt"] entry, and whose status has an account id; each with
    its resource name, that account id and that entry. Accounts of other
    namespaces are not taken, and the namespace of [authConfigRef] is not
    looked at. *)
Theorem collectAccountJWTs_takes (authConfig : NatsAuthConfig) (w : World) :
  exists accounts,
    collectAccountJWTs authConfig w = (Ok accounts, w) /\
    NoDup (map AccountName accounts) /\
    forall acc,
      acc ∈ accounts <->
      exists spec status secret,
        w_accounts w !! (AuthConfig_Namespace authConfig, AccountName acc)
          = Some (spec, status) /\
        NatsAuthConfigRef_Name (Account_AuthConfigRef spec) = AuthConfig_Name authConfig /\
        w_secrets w !! (AuthConfig_Namespace authConfig, AccountName acc +:+ "-account-jwt")
          = Some secret /\
        Secret_Data secret !! "account.jwt" = Some (AccountJWT_JWT acc) /\
        AccountJWT_AccountID acc = AccountID status /\
        AccountID status <> "".
Proof.
  eexists. split; [apply collectAccountJWTs_collected |].
  split; [apply collected_names_NoDup, listed_names_NoDup |].
  intros acc. rewrite list_elem_of_omap. split.
  - intros (account & Hin & Hacc).
    apply listed_elem in Hin as [Hns Hlook].
    unfold collected in Hacc.
    destruct (bool_decide _) eqn:Hname; [| discriminate].
    apply bool_decide_eq_true in Hname.
    destruct (w_secrets w !! _) as [secret |] eqn:Hsec; [| discriminate].
    simpl in Hacc.
    destruct (Secret_Data secret !! "account.jwt") as [jwtData |] eqn:Hjwt;
      [| discriminate].
    simpl in Hacc.
    destruct (nonEmpty (AccountID (Account_Status account))) eqn:Hid; [| discriminate].
    injection Hacc as <-. simpl.
    exists (Account_Spec account), (Account_Status account), secret.
    rewrite <- Hns. repeat split; try assumption.
    now apply nonEmpty_true.
  - intros (spec & status & secret & Hlook & Hname & Hsec & Hjwt & Hid & Hne).
    exists {| Account_Name := AccountName acc;
              Account_Namespace := AuthConfig_Namespace authConfig;
              Account_Spec := spec; Account_Status := status |}.
    split.
    + apply listed_elem. simpl. auto.
    + unfold collected. simpl.
      rewrite bool_decide_eq_true_2 by exact Hname.
      rewrite Hsec. simpl. rewrite Hjwt. simpl.
      apply nonEmpty_true in Hne. rewrite Hne.
      destruct acc as [name id jwt]. simpl in *. now subst.
Qed.

End CollectionProperties.

(** ** Flat mode and the configuration of the server *)

Section TokenModeProperties.
Context `{P : Platform}.

(** X20. In flat mode the entry of the server configuration is empty and
    stays so. [reconcileTokenMode] returns without error, marks the
    resolver ready and sets the entry at the configured key of the
    configured object to the empty string, keeping its other entries; and
    a pass over a flat-mode user afterwards leaves the data of that object
    as it is, unless the object is the credentials secret of the user. *)
Theorem reconcileTokenMode_entry_stays_empty (authConfig : NatsAuthConfig)
    (user : NatsUser) (w : World) :
  let ref := ServerAuthConfig (AuthConfig_Spec authConfig) in
  let target := targetData (ServerAuthConfig_Type ref) (aggregateKey authConfig) in
  let r := reconcileTokenMode authConfig w in
  (ServerAuthConfig_Type ref = "Secret" -> credsKey user <> aggregateKey authConfig) ->
  r.1.1 = Ok tt /\
  ResolverReady (AuthConfig_Status r.1.2) = true /\
  target r.2 = Some (<[ ServerAuthConfig_Key ref := "" ]> (default ∅ (target w))) /\
  target (reconcileTokenUser user authConfig r.2).2 = target r.2.
Proof.
  intros ref target r Hother. subst r. unfold reconcileTokenMode.
  fold ref.
  destruct (WriteResolverConfig_data (ServerAuthConfig_Namespace ref)
              (ServerAuthConfig_Name ref) (ServerAuthConfig_Key ref)
              (ServerAuthConfig_Type ref) (RenderTokenAuthConf []) w) as [Hok Hdata].
  destruct (WriteResolverConfig _ _ _ _ _ w) as [[[] | e] w1]; [| discriminate].
  simpl in Hdata |- *. clear Hok.
  split; [reflexivity |]. split; [reflexivity |]. split; [exact Hdata |].
  destruct (reconcileTokenUser_keeps user authConfig w1) as (Hs & _ & Hc & _).
  subst target. unfold targetData in *.
  destruct (decide (ServerAuthConfig_Type ref = "Secret")) as [Htype | _].
  - rewrite Hs; [reflexivity |]. specialize (Hother Htype).
    intros Hin. apply list_elem_of_singleton in Hin. congruence.
  - now rewrite Hc.
Qed.

End TokenModeProperties.

(** ** The entry points *)

Section ConditionProperties.

Lemma replaceFirst_None (conditions : list Condition) (c : Condition) :
  replaceFirst conditions c = None <->
  Condition_Type c ∉ map Condition_Type conditions.
Proof.
  induction conditions as [| x l IH]; simpl.
  - split; [intros _; apply not_elem_of_nil | reflexivity].
  - rewrite not_elem_of_cons.
    destruct (String.eqb_spec (Condition_Type x) (Condition_Type c)) as [Heq | Hne].
    + split; [discriminate | intros [Hc _]; congruence].
    + destruct (replaceFirst l c) as [l' |].
      * split; [discriminate |]. intros [_ Hin]. now apply IH in Hin.
      * split; [| reflexivity]. intros _. split; [congruence | now apply IH].
Qed.

Lemma replaceFirst_Some (conditions l' : list Condition) (c : Condition) :
  replaceFirst conditions c = Some l' ->
  c ∈ l' /\
  map Condition_Type l' = map Condition_Type conditions /\
  filter (fun x => Condition_Type x <> Condition_Type c) l' =
    filter (fun x => Condition_Type x <> Condition_Type c) conditions /\
  (forall x, x ∈ l' -> x = c \/ x ∈ conditions).
Proof.
  revert l'. induction conditions as [| x l IH]; intros l' H; simpl in H;
    [discriminate |].
  destruct (String.eqb_spec (Condition_Type x) (Condition_Type c)) as [Heq | Hne].
  - injection H as <-. split; [left |]. split; [simpl; congruence |]. split.
    + rewrite !filter_cons. rewrite !decide_False by (intros Hn; now apply Hn).
      reflexivity.
    + intros y Hy. apply elem_of_cons in Hy as [-> | Hy]; [now left |].
      right. now right.
  - destruct (replaceFirst l c) as [l0 |]; [| discriminate]. injection H as <-.
    destruct (IH l0 eq_refl) as (Hin & Htypes & Hfilter & Hfrom).
    split; [now right |]. split; [simpl; congruence |]. split.
    + rewrite !filter_cons. rewrite !decide_True by exact Hne. now rewrite Hfilter.
    + intros y Hy. apply elem_of_cons in Hy as [-> | Hy].
      * right. left.
      * destruct (Hfrom y Hy) as [-> | Hy']; [now left |]. right. now right.
Qed.

Lemma NoDup_map_inj {A B} (f : A -> B) (l : list A) :
  NoDup (map f l) ->
  forall a b, a ∈ l -> b ∈ l -> f a = f b -> a = b.
Proof.
  induction l as [| x l IH]; intros Hnd a b Ha Hb Hf.
  - now apply not_elem_of_nil in Ha.
  - simpl in Hnd. apply NoDup_cons in Hnd as [Hx Hnd].
    apply elem_of_cons in Ha as [-> | Ha], Hb as [-> | Hb].
    + reflexivity.
    + exfalso. apply Hx. rewrite Hf. apply list_elem_of_fmap. eauto.
    + exfalso. apply Hx. rewrite <- Hf. apply list_elem_of_fmap. eauto.
    + now apply IH.
Qed.

(** X21. [updateCondition] keeps one condition of each type. After the
    call the conditions hold the given condition, stamped with the current
    time; the conditions of other types are what they were, in the same
    order; the types are what they were, with the type of the condition
    added at the end if it was not among them; and if no two conditions had
    the same type before, none have after, so that the condition of the
    type is the given one. The other fields of the status stay. *)
Theorem updateCondition_one_per_type (now : Z) (report : Report) (c : Condition) :
  let report' := updateCondition now report c in
  let stamped := set_LastTransitionTime now c in
  let types := map Condition_Type (Conditions report) in
  stamped ∈ Conditions report' /\
  filter (fun x => Condition_Type x <> Condition_Type c) (Conditions report') =
    filter (fun x => Condition_Type x <> Condition_Type c) (Conditions report) /\
  map Condition_Type (Conditions report') =
    (if bool_decide (Condition_Type c ∈ types) then types
     else types ++ [ Condition_Type c ])%list /\
  (NoDup types ->
   NoDup (map Condition_Type (Conditions report')) /\
   forall x, x ∈ Conditions report' -> Condition_Type x = Condition_Type c ->
             x = stamped) /\
  ObservedGeneration report' = ObservedGeneration report /\
  LastReconciled report' = LastReconciled report.
Proof.
  intros report' stamped types. subst report'. unfold updateCondition. fold stamped.
  assert (Htype : Condition_Type stamped = Condition_Type c) by reflexivity.
  destruct (replaceFirst (Conditions report) stamped) as [l' |] eqn:Hrep.
  - destruct (replaceFirst_Some _ _ _ Hrep) as (Hin & Htypes & Hfilter & Hfrom).
    rewrite Htype in Hfilter. cbn [set_Conditions Conditions ObservedGeneration
      LastReconciled].
    assert (Hpresent : Condition_Type c ∈ types).
    { destruct (decide (Condition_Type c ∈ types)) as [Hyes | Hno]; [exact Hyes |].
      rewrite <- Htype in Hno. apply replaceFirst_None in Hno. congruence. }
    split; [exact Hin |]. split; [exact Hfilter |].
    split; [now rewrite bool_decide_eq_true_2 |].
    split; [| split; reflexivity].
    intros Hnd. rewrite Htypes. split; [exact Hnd |].
    intros x Hx Hxt.
    assert (Hinj : forall a b, a ∈ l' -> b ∈ l' ->
                     Condition_Type a = Condition_Type b -> a = b).
    { apply NoDup_map_inj. now rewrite Htypes. }
    apply Hinj; [exact Hx | exact Hin | congruence].
  - cbn [set_Conditions Conditions ObservedGeneration LastReconciled].
    apply replaceFirst_None in Hrep. rewrite Htype in Hrep. fold types in Hrep.
    split; [apply elem_of_app; right; left |]. split.
    { rewrite filter_app, filter_cons, decide_False by (intros Hn; now apply Hn).
      rewrite filter_nil. apply app_nil_r. }
    split; [rewrite bool_decide_eq_false_2 by exact Hrep; now rewrite map_app |].
    split; [| split; reflexivity].
    intros Hnd.
    assert (Hnd' : NoDup (map Condition_Type (Conditions report ++ [stamped]))).
    { rewrite map_app. apply NoDup_app. split; [exact Hnd |]. split.
      - intros t Ht Ht'. simpl in Ht'. apply list_elem_of_singleton in Ht'.
        subst t. contradiction.
      - simpl. apply NoDup_singleton. }
    split; [exact Hnd' |].
    intros x Hx Hxt. apply elem_of_app in Hx as [Hx | Hx].
    + exfalso. apply Hrep. rewrite <- Hxt. apply list_elem_of_fmap. eauto.
    + now apply list_elem_of_singleton in Hx.
Qed.

End ConditionProperties.

Section AccountEntryProperties.
Context `{P : Platform}.
Import NatsAccountReconciler.

Lemma set_w_accounts_id (w : World) (key : ObjectKey)
    (body : NatsAccountSpec * NatsAccountStatus) :
  w_accounts w !! key = Some body ->
  set_w_accounts (<[ key := body ]> (w_accounts w)) w = w.
Proof.
  intros H. unfold set_w_accounts. rewrite insert_id by exact H. now destruct w.
Qed.

Lemma World_eq (w1 w2 : World) :
  w_accounts w1 = w_accounts w2 -> w_secrets w1 = w_secrets w2 ->
  w_configmaps w1 = w_configmaps w2 -> w_authconfigs w1 = w_authconfigs w2 ->
  w_rng w1 = w_rng w2 -> w_now w1 = w_now w2 -> w_writes w1 = w_writes w2 ->
  w1 = w2.
Proof. destruct w1, w2. simpl. now intros -> -> -> -> -> -> ->. Qed.

Lemma Get_AccountObject_Ok (req : ObjectKey) (c : Cluster) (account : AccountObject) :
  Get_AccountObject req c = Ok account ->
  w_accounts (c_world c) !! req
    = Some (Account_Spec (ao_account account), Account_Status (ao_account account)) /\
  (Account_Namespace (ao_account account), Account_Name (ao_account account)) = req /\
  (ao_meta account, ao_report account) = default zero (c_accounts c !! req).
Proof.
  unfold Get_AccountObject.
  destruct (w_accounts (c_world c) !! req) as [[spec status] |]; [| discriminate].
  intros [= <-]. simpl. destruct req as [ns name]. simpl.
  now destruct (default zero (c_accounts c !! (ns, name))).
Qed.

(** The first statements of [Reconcile] over an account that exists and
    is not being deleted: the finalizer is added, and stored if it was not
    there. *)
Lemma Reconcile_prefix (req : ObjectKey) (c : Cluster) (account : AccountObject)
    (k : AccountObject -> E Outcome) :
  Get_AccountObject req c = Ok account ->
  DeletionTimestamp (ao_meta account) = None ->
  andThen
    (if negb (ContainsFinalizer (ao_meta account) natsAccountFinalizer) then
       orReturn (Update_AccountObject
                   (set_ao_meta (AddFinalizer (ao_meta account) natsAccountFinalizer)
                      account))
     else goOn account) k c =
  k (set_ao_meta (AddFinalizer (ao_meta account) natsAccountFinalizer) account)
    (withFinalizer req account c).
Proof.
  intros Hget Hdel.
  destruct (Get_AccountObject_Ok _ _ _ Hget) as (Hbody & Hkey & Hrest).
  unfold withFinalizer, AddFinalizer, andThen.
  destruct (ContainsFinalizer (ao_meta account) natsAccountFinalizer) eqn:Hfin; simpl.
  - now destruct account.
  - unfold orReturn, Update_AccountObject. cbn [set_ao_meta ao_account ao_meta].
    rewrite Hkey, Hbody. cbn [fst snd].
    rewrite <- Hrest. cbn [fst snd].
    unfold updatedMeta, released. cbn [set_Finalizers DeletionTimestamp Finalizers].
    rewrite Hdel.
    rewrite set_w_accounts_id by exact Hbody.
    f_equal. rewrite <- Hkey.
    destruct account as [meta a report]. now destruct a.
Qed.

Lemma c_world_withFinalizer (req : ObjectKey) (account : AccountObject) (c : Cluster) :
  c_world (withFinalizer req account c) = c_world c.
Proof. unfold withFinalizer. now destruct (ContainsFinalizer _ _). Qed.

Lemma set_c_world_id (c : Cluster) : set_c_world (c_world c) c = c.
Proof. now destruct c. Qed.

Lemma set_c_world_withFinalizer (req : ObjectKey) (account : AccountObject)
    (c : Cluster) :
  set_c_world (c_world c) (withFinalizer req account c) = withFinalizer req account c.
Proof.
  rewrite <- (c_world_withFinalizer req account c) at 1. apply set_c_world_id.
Qed.

Lemma getAuthConfig_reads (account : NatsAccount) (w : World) :
  (getAuthConfig account w).2 = w.
Proof.
  unfold getAuthConfig, Get_NatsAuthConfig. now destruct (w_authconfigs w !! _).
Qed.

(** What [r.Status().Update] leaves in the cluster for an account that is
    there. *)
Lemma Status_Update_AccountObject_stored (o : AccountObject) (c : Cluster)
    (req : ObjectKey) (spec : NatsAccountSpec) (status : NatsAccountStatus) :
  (Account_Namespace (ao_account o), Account_Name (ao_account o)) = req ->
  w_accounts (c_world c) !! req = Some (spec, status) ->
  let c' := (Status_Update_AccountObject o c).2 in
  isOk (Status_Update_AccountObject o c).1 = true /\
  Get_AccountObject req c' =
    Ok {| ao_meta := (default zero (c_accounts c !! req)).1;
          ao_account := accountAt req (spec, Account_Status (ao_account o));
          ao_report := ao_report o |} /\
  w_accounts (c_world c') = <[ req := (spec, Account_Status (ao_account o)) ]>
                              (w_accounts (c_world c)) /\
  w_secrets (c_world c') = w_secrets (c_world c) /\
  w_configmaps (c_world c') = w_configmaps (c_world c) /\
  w_authconfigs (c_world c') = w_authconfigs (c_world c) /\
  w_rng (c_world c') = w_rng (c_world c) /\
  w_now (c_world c') = w_now (c_world c) /\
  w_writes (c_world c') = w_writes (c_world c) /\
  c_authconfigs c' = c_authconfigs c /\ c_users c' = c_users c.
Proof.
  intros Hkey Hbody c'. subst c'. unfold Status_Update_AccountObject.
  rewrite Hkey, Hbody. cbn [fst snd isOk c_world c_accounts c_authconfigs c_users
    set_w_accounts w_accounts w_secrets w_configmaps w_authconfigs w_rng w_now w_writes].
  split; [reflexivity |]. split.
  - unfold Get_AccountObject. cbn [c_world c_accounts set_w_accounts w_accounts].
    rewrite !lookup_insert_eq. reflexivity.
  - repeat split.
Qed.

Lemma withFinalizer_meta (req : ObjectKey) (account : AccountObject) (c : Cluster) :
  (ao_meta account, ao_report account) = default zero (c_accounts c !! req) ->
  (default zero (c_accounts (withFinalizer req account c) !! req)).1
    = AddFinalizer (ao_meta account) natsAccountFinalizer.
Proof.
  intros Hrest. unfold withFinalizer.
  destruct (ContainsFinalizer (ao_meta account) natsAccountFinalizer) eqn:Hfin.
  - rewrite <- Hrest. unfold AddFinalizer. now rewrite Hfin.
  - cbn [c_accounts]. now rewrite lookup_insert_eq.
Qed.

Lemma AddFinalizer_Generation (meta : ObjectMeta) (finalizer : string) :
  Generation (AddFinalizer meta finalizer) = Generation meta.
Proof. unfold AddFinalizer. now destruct (ContainsFinalizer meta finalizer). Qed.

Lemma updateCondition_sets (now : Z) (report : Report) (c : Condition) :
  set_LastTransitionTime now c ∈ Conditions (updateCondition now report c) /\
  ObservedGeneration (updateCondition now report c) = ObservedGeneration report /\
  LastReconciled (updateCondition now report c) = LastReconciled report.
Proof.
  unfold updateCondition.
  destruct (replaceFirst (Conditions report) (set_LastTransitionTime now c))
    as [l' |] eqn:Hrep; cbn [set_Conditions Conditions ObservedGeneration LastReconciled].
  - split; [| split; reflexivity]. now apply replaceFirst_Some in Hrep as (Hin & _).
  - split; [| split; reflexivity]. apply elem_of_app. right. left.
Qed.

Lemma giveUp_Err (account : AccountObject) (reason : string) (err : error)
    (c : Cluster) :
  exists res e' c', giveUp account reason err c = (inr (res, Err e'), c').
Proof.
  unfold giveUp, andThen, clock, orReturn, Return.
  destruct (Status_Update_AccountObject _ c) as [[o | e] c']; eauto.
Qed.

Lemma giveUp_run (account : AccountObject) (reason : string) (err : error) (c : Cluster)
    (req : ObjectKey) (body : NatsAccountSpec * NatsAccountStatus) :
  (Account_Namespace (ao_account account), Account_Name (ao_account account)) = req ->
  w_accounts (c_world c) !! req = Some body ->
  giveUp account reason err c =
    (inr (after Minute, Err err),
     (Status_Update_AccountObject
        (set_ao_report
           (updateCondition (w_now (c_world c)) (ao_report account)
              (condition "Ready" ConditionFalse reason (ErrorText err))) account) c).2).
Proof.
  intros Hkey Hbody. unfold giveUp, andThen, clock, orReturn, Return.
  unfold Status_Update_AccountObject. cbn [set_ao_report ao_account].
  rewrite Hkey, Hbody. reflexivity.
Qed.

(** X22. An account whose configuration is in flat mode is turned away
    before anything is made for it. For an account that exists and is not
    being deleted, and whose [authConfigRef] leads to a configuration in
    mode [token], [Reconcile] returns the error that the configuration must
    be in JWT or mixed mode, with a requeue after one minute; it draws no
    key and writes no Secret, ConfigMap or configuration; and the account
    object then has the finalizer, its status otherwise as before, and a
    [Ready] condition that is false for the reason [InvalidAuthMode]. *)
Theorem Reconcile_account_rejects_flat_mode (req : ObjectKey) (c : Cluster)
    (account : AccountObject) (authConfig : NatsAuthConfig) :
  Get_AccountObject req c = Ok account ->
  DeletionTimestamp (ao_meta account) = None ->
  (getAuthConfig (ao_account account) (c_world c)).1 = Ok authConfig ->
  Mode (AuthConfig_Spec authConfig) = AuthModeToken ->
  let err := Errorf "NatsAuthConfig must be in JWT or mixed mode for NatsAccount" in
  let r := Reconcile req c in
  r.1 = (after Minute, Err err) /\
  c_world r.2 = c_world c /\
  Get_AccountObject req r.2 =
    Ok {| ao_meta := AddFinalizer (ao_meta account) natsAccountFinalizer;
          ao_account := ao_account account;
          ao_report :=
            updateCondition (w_now (c_world c)) (ao_report account)
              (condition "Ready" ConditionFalse "InvalidAuthMode" (ErrorText err)) |}.
Proof.
  intros Hget Hdel Hcfg Hmode err r. subst r err.
  destruct (Get_AccountObject_Ok _ _ _ Hget) as (Hbody & Hkey & Hrest).
  assert (Hbody1 : w_accounts (c_world (withFinalizer req account c)) !! req
                   = Some (Account_Spec (ao_account account),
                           Account_Status (ao_account account)))
    by now rewrite c_world_withFinalizer.
  assert (Hrun : Reconcile req c =
    ((after Minute,
      Err (Errorf "NatsAuthConfig must be in JWT or mixed mode for NatsAccount")),
     (Status_Update_AccountObject
        (set_ao_report
           (updateCondition (w_now (c_world c)) (ao_report account)
              (condition "Ready" ConditionFalse "InvalidAuthMode"
                 (ErrorText
                    (Errorf "NatsAuthConfig must be in JWT or mixed mode for NatsAccount"))))
           (set_ao_meta (AddFinalizer (ao_meta account) natsAccountFinalizer) account))
        (withFinalizer req account c)).2)).
  { unfold Reconcile, finish. unfold andThen at 1. rewrite Hget.
    rewrite bool_decide_eq_false_2 by (rewrite Hdel; now intros H).
    rewrite (Reconcile_prefix _ _ _ _ Hget Hdel).
    unfold andThen at 1. unfold inWorld. rewrite c_world_withFinalizer.
    cbn [set_ao_meta ao_account].
    pose proof (getAuthConfig_reads (ao_account account) (c_world c)) as Hreads.
    destruct (getAuthConfig (ao_account account) (c_world c)) as [r0 w0].
    simpl in Hcfg, Hreads. subst r0 w0. rewrite Hmode.
    rewrite set_c_world_withFinalizer.
    rewrite !bool_decide_eq_false_2 by discriminate. cbn [negb andb].
    erewrite giveUp_run by (cbn [set_ao_meta ao_account]; eassumption).
    rewrite c_world_withFinalizer. reflexivity. }
  rewrite Hrun. cbn [fst snd].
  match goal with
  | |- context [Status_Update_AccountObject ?o ?c1] =>
    destruct (Status_Update_AccountObject_stored o c1 req _ _ Hkey Hbody1)
      as (_ & Hback & Hacc & Hsec & Hcm & Hcfgs & Hrng & Hnow & Hwr & _)
  end.
  rewrite c_world_withFinalizer in Hacc, Hsec, Hcm, Hcfgs, Hrng, Hnow, Hwr.
  split; [reflexivity |]. split.
  - apply World_eq; try assumption.
    rewrite Hacc. cbn [set_ao_report set_ao_meta ao_account].
    now apply insert_id.
  - rewrite Hback. cbn [set_ao_report set_ao_meta ao_account ao_report ao_meta].
    f_equal. f_equal.
    + unfold withFinalizer.
      destruct (ContainsFinalizer (ao_meta account) natsAccountFinalizer) eqn:Hfin.
      * rewrite <- Hrest. unfold AddFinalizer. now rewrite Hfin.
      * cbn [c_accounts]. now rewrite lookup_insert_eq.
    + rewrite <- Hkey. now destruct (ao_account account).
Qed.

(** X23. What a pass of [Reconcile] over an account that ends without
    error has established. For an account that exists and is not being
    deleted, a pass that returns no error asks to be run again after five
    minutes, and the account object then has the finalizer, its spec as
    before, the generation it was read with as observed generation, the
    current time as time of the last reconciliation and a [Ready]
    condition that is true; the secret of the account exists, and it
    passes the test of the early return against the new status unless the
    account id, the token or the seed is empty. *)
Theorem Reconcile_account_success (req : ObjectKey) (c : Cluster)
    (account : AccountObject) :
  Get_AccountObject req c = Ok account ->
  DeletionTimestamp (ao_meta account) = None ->
  (Reconcile req c).1.2 = Ok tt ->
  exists (account' : AccountObject) (s' : Secret),
    let c' := (Reconcile req c).2 in
    let now := w_now (c_world c) in
    (Reconcile req c).1.1 = after (5 * Minute) /\
    Get_AccountObject req c' = Ok account' /\
    ao_meta account' = AddFinalizer (ao_meta account) natsAccountFinalizer /\
    Account_Spec (ao_account account') = Account_Spec (ao_account account) /\
    ObservedGeneration (ao_report account') = Generation (ao_meta account) /\
    LastReconciled (ao_report account') = Some now /\
    set_LastTransitionTime now
      (condition "Ready" ConditionTrue "ReconcileSuccess"
         (Literal "NatsAccount reconciled successfully"))
      ∈ Conditions (ao_report account') /\
    w_secrets (c_world c') !! accountKey (ao_account account) = Some s' /\
    (nonEmpty (AccountID (Account_Status (ao_account account'))) = true ->
     nonEmpty (index (Secret_Data s') "account.jwt") = true ->
     nonEmpty (index (Secret_Data s') "account.seed") = true ->
     matchesStatus (ao_account account') s' = true).
Proof.
  intros Hget Hdel Hok.
  destruct (Get_AccountObject_Ok _ _ _ Hget) as (Hbody & Hkey & Hrest).
  remember (Reconcile req c) as r eqn:Hr.
  unfold Reconcile, finish in Hr. unfold andThen at 1 in Hr. rewrite Hget in Hr.
  rewrite bool_decide_eq_false_2 in Hr by (rewrite Hdel; now intros H).
  rewrite (Reconcile_prefix _ _ _ _ Hget Hdel) in Hr.
  unfold andThen at 1 in Hr. unfold inWorld in Hr.
  rewrite c_world_withFinalizer in Hr. cbn [set_ao_meta ao_account] in Hr.
  pose proof (getAuthConfig_reads (ao_account account) (c_world c)) as Hreads.
  destruct (getAuthConfig (ao_account account) (c_world c)) as [[authConfig | e] w0];
    simpl in Hreads; subst w0; rewrite set_c_world_withFinalizer in Hr.
  2: { destruct (giveUp_Err (set_ao_meta (AddFinalizer (ao_meta account)
                                            natsAccountFinalizer) account)
                   "AuthConfigNotFound" e (withFinalizer req account c))
         as (res & e' & c' & Hgive).
       rewrite Hgive in Hr. subst r. discriminate. }
  assert (Hproceed :
    negb (bool_decide (Mode (AuthConfig_Spec authConfig) = AuthModeJWT)) &&
    negb (bool_decide (Mode (AuthConfig_Spec authConfig) = AuthModeMixed)) = false).
  { destruct (_ && _) eqn:Hmode in |- *; [| reflexivity]. rewrite Hmode in Hr.
    destruct (giveUp_Err (set_ao_meta (AddFinalizer (ao_meta account)
                                         natsAccountFinalizer) account)
                "InvalidAuthMode"
                (Errorf "NatsAuthConfig must be in JWT or mixed mode for NatsAccount")
                (withFinalizer req account c))
      as (res & e' & c' & Hgive).
    rewrite Hgive in Hr. subst r. discriminate. }
  rewrite Hproceed in Hr.
  unfold andThen at 1 in Hr. rewrite c_world_withFinalizer in Hr.
  pose proof (reconcileAccount_keeps (ao_account account) authConfig (c_world c))
    as (_ & _ & _ & Haccounts & Hnow).
  destruct (reconcileAccount (ao_account account) authConfig (c_world c))
    as [[[ra a'] cfg'] w'] eqn:Hrec.
  cbn [fst snd] in Hr, Haccounts, Hnow.
  destruct ra as [[] | err].
  2: { destruct (unwinds err).
       - unfold Return in Hr. subst r. discriminate.
       - match type of Hr with
         | context [giveUp ?a ?reason ?e ?c1] =>
           destruct (giveUp_Err a reason e c1) as (res & e' & c' & Hgive)
         end.
         rewrite Hgive in Hr. subst r. discriminate. }
  destruct (reconcileAccount_establishes_guard _ _ _ _ _ _ Hrec)
    as (s' & Hs' & Hname & Hns & Hguard).
  unfold andThen at 1 in Hr. unfold clock at 1 in Hr.
  unfold andThen at 1 in Hr. unfold orReturn at 1 in Hr.
  cbn [set_c_world c_world] in Hr. rewrite Hnow in Hr.
  match type of Hr with
  | context [Status_Update_AccountObject ?o ?c1] =>
    assert (Hkey' : (Account_Namespace (ao_account o), Account_Name (ao_account o)) = req);
    [| assert (Hbody' : w_accounts (c_world c1) !! req
                        = Some (Account_Spec (ao_account account),
                                Account_Status (ao_account account)));
       [| destruct (Status_Update_AccountObject_stored o c1 req _ _ Hkey' Hbody')
            as (Hsent & Hback & _ & Hsec & _);
          destruct (Status_Update_AccountObject o c1) as [[sent | e] c2];
          [| discriminate] ] ]
  end.
  { cbn [set_ao_report set_ao_account set_ao_meta ao_account].
    rewrite Hname, Hns. exact Hkey. }
  { cbn [set_c_world c_world]. now rewrite Haccounts. }
  cbn [isOk] in Hsent. cbn [fst snd] in Hback, Hsec.
  cbn [set_c_world c_world] in Hsec.
  subst r. cbn [fst snd Return].
  eexists. exists s'. cbv zeta.
  split; [reflexivity |]. split; [exact Hback |].
  cbn [ao_meta ao_account ao_report set_ao_report set_ao_account set_ao_meta
       set_c_world c_accounts].
  split; [now apply withFinalizer_meta |].
  split; [reflexivity |].
  destruct (updateCondition_sets (w_now (c_world c))
              (set_ObservedGeneration
                 (Generation (AddFinalizer (ao_meta account) natsAccountFinalizer))
                 (set_LastReconciled (Some (w_now (c_world c))) (ao_report account)))
              (condition "Ready" ConditionTrue "ReconcileSuccess"
                 (Literal "NatsAccount reconciled successfully")))
    as (Hin & Hgen & Hlast).
  split; [rewrite Hgen; apply AddFinalizer_Generation |].
  split; [exact Hlast |]. split; [exact Hin |].
  split; [rewrite Hsec; exact Hs' |].
  exact Hguard.
Qed.

Lemma getAuthConfig_Ok (account : NatsAccount) (w : World) (authConfig : NatsAuthConfig) :
  (getAuthConfig account w).1 = Ok authConfig ->
  exists old, w_authconfigs w !! authConfigKey authConfig = Some old.
Proof.
  unfold getAuthConfig, Get_NatsAuthConfig.
  destruct (w_authconfigs w !! _) as [old |] eqn:Hold; [| discriminate].
  intros [= <-]. unfold authConfigKey. simpl. eauto.
Qed.

Lemma triggerAuthConfigReconcile_world (authConfig : NatsAuthConfig) (w : World)
    (old : NatsAuthConfig) :
  w_authconfigs w !! authConfigKey authConfig = Some old ->
  let w' := (triggerAuthConfigReconcile authConfig w).2 in
  w_accounts w' = w_accounts w /\ w_secrets w' = w_secrets w /\
  exists stored,
    w_authconfigs w' !! authConfigKey authConfig = Some stored /\
    AuthConfig_Annotations stored !! "nats.jradikk/last-account-update"
      = Some (time_FormatRFC3339 (w_now w)).
Proof.
  intros Hold. unfold triggerAuthConfigReconcile, Update_NatsAuthConfig.
  unfold authConfigKey in Hold. cbn [set_Annotations AuthConfig_Namespace AuthConfig_Name].
  rewrite Hold. cbn [snd write_authconfig w_accounts w_secrets w_authconfigs].
  split; [reflexivity |]. split; [reflexivity |].
  eexists. unfold authConfigKey. split; [apply lookup_insert_eq |].
  cbn [set_AuthConfig_Status AuthConfig_Annotations]. apply lookup_insert_eq.
Qed.

(** X24. The deletion of an account. For an account that is being
    deleted, [Reconcile] returns without error and without a requeue, and
    changes no Secret: the secret of the account is left to the garbage
    collector. If the account has the finalizer of the controller, the
    finalizer is taken off, which releases the object if it was the last
    one, and the configuration of the account, if it is found, is stamped
    with the current time to have it reconciled; if it does not have the
    finalizer, nothing changes. *)
Theorem Reconcile_account_deletion (req : ObjectKey) (c : Cluster)
    (account : AccountObject) (t : Z) :
  Get_AccountObject req c = Ok account ->
  DeletionTimestamp (ao_meta account) = Some t ->
  let r := Reconcile req c in
  let others :=
    filter (fun f => f <> natsAccountFinalizer) (Finalizers (ao_meta account)) in
  r.1 = (noRequeue, Ok tt) /\
  w_secrets (c_world r.2) = w_secrets (c_world c) /\
  if ContainsFinalizer (ao_meta account) natsAccountFinalizer then
    Get_AccountObject req r.2 =
      match others with
      | [] => Err ErrNotFound
      | _ :: _ => Ok (set_ao_meta (set_Finalizers others (ao_meta account)) account)
      end /\
    forall authConfig,
      (getAuthConfig (ao_account account) (c_world c)).1 = Ok authConfig ->
      exists stored,
        w_authconfigs (c_world r.2) !! authConfigKey authConfig = Some stored /\
        AuthConfig_Annotations stored !! "nats.jradikk/last-account-update"
          = Some (time_FormatRFC3339 (w_now (c_world c)))
  else r.2 = c.
Proof.
  intros Hget Hdel r others.
  destruct (Get_AccountObject_Ok _ _ _ Hget) as (Hbody & Hkey & Hrest).
  assert (Hr : r = finish (handleDeletion account) c).
  { subst r. unfold Reconcile, finish. unfold andThen at 1. rewrite Hget.
    rewrite bool_decide_eq_true_2 by (rewrite Hdel; discriminate). reflexivity. }
  clearbody r.
  destruct (ContainsFinalizer (ao_meta account) natsAccountFinalizer) eqn:Hfin.
  2: { subst r. unfold handleDeletion. rewrite Hfin. now unfold finish, goOn. }
  pose proof (getAuthConfig_reads (ao_account account) (c_world c)) as Hreads.
  pose proof (getAuthConfig_Ok (ao_account account) (c_world c)) as Hfound.
  destruct (getAuthConfig (ao_account account) (c_world c)) as [found w0] eqn:Hcfg.
  simpl in Hreads, Hfound. subst w0.
  set (c1 := match found with
             | Ok authConfig =>
               set_c_world (triggerAuthConfigReconcile authConfig (c_world c)).2 c
             | Err _ => c
             end).
  assert (Hc1 : w_accounts (c_world c1) = w_accounts (c_world c) /\
                w_secrets (c_world c1) = w_secrets (c_world c) /\
                c_accounts c1 = c_accounts c /\
                forall authConfig, found = Ok authConfig ->
                  exists stored,
                    w_authconfigs (c_world c1) !! authConfigKey authConfig = Some stored /\
                    AuthConfig_Annotations stored !! "nats.jradikk/last-account-update"
                      = Some (time_FormatRFC3339 (w_now (c_world c)))).
  { subst c1. destruct found as [authConfig | e].
    - destruct (Hfound authConfig eq_refl) as (old & Hold).
      destruct (triggerAuthConfigReconcile_world authConfig (c_world c) old Hold)
        as (Ha & Hs & Hst).
      cbn [set_c_world c_world c_accounts]. repeat split; try assumption.
      now intros ? [= <-].
    - repeat split. discriminate. }
  destruct Hc1 as (Haccounts & Hsecrets & Hrests & Hstamp).
  assert (Hrun : r =
    ((noRequeue, Ok tt),
     (Update_AccountObject
        (set_ao_meta (RemoveFinalizer (ao_meta account) natsAccountFinalizer) account)
        c1).2)).
  { subst r. unfold handleDeletion. rewrite Hfin.
    unfold finish. unfold andThen at 1. unfold inWorld. rewrite Hcfg.
    rewrite set_c_world_id.
    assert (Hgo : forall k : unit -> E Outcome,
              andThen match found with
                      | Ok authConfig =>
                        fun c0 => (inl tt, set_c_world
                                     (triggerAuthConfigReconcile authConfig (c_world c0)).2
                                     c0)
                      | Err _ => goOn tt
                      end k c = k tt c1).
    { intros k. subst c1. unfold andThen. now destruct found. }
    rewrite Hgo. unfold andThen, orReturn, goOn.
    unfold Update_AccountObject. cbn [set_ao_meta ao_account ao_meta].
    rewrite Hkey, Haccounts, Hbody. reflexivity. }
  rewrite Hrun. cbn [fst snd]. clear Hrun.
  unfold Update_AccountObject. cbn [set_ao_meta ao_account ao_meta].
  rewrite Hkey, Haccounts, Hbody, Hrests, <- Hrest. cbn [fst snd].
  unfold updatedMeta, released, RemoveFinalizer.
  cbn [set_Finalizers Finalizers DeletionTimestamp].
  fold others. rewrite Hdel.
  destruct others as [| f others'] eqn:Hothers.
  - cbn [fst snd c_world set_w_accounts w_secrets].
    split; [reflexivity |]. split; [exact Hsecrets |]. split.
    + unfold Get_AccountObject. cbn [c_world set_w_accounts w_accounts].
      now rewrite lookup_delete_eq.
    + intros authConfig Hcfg'. cbn [w_authconfigs]. now apply Hstamp.
  - cbn [fst snd c_world set_w_accounts w_secrets].
    split; [reflexivity |]. split; [exact Hsecrets |]. split.
    + unfold Get_AccountObject. cbn [c_world set_w_accounts w_accounts c_accounts].
      rewrite !lookup_insert_eq. cbn [default fst snd from_option id].
      unfold set_ao_meta. f_equal. f_equal.
      rewrite <- Hkey. now destruct (ao_account account).
    + intros authConfig Hcfg'. cbn [w_authconfigs]. now apply Hstamp.
Qed.

End AccountEntryProperties.

Section AuthConfigEntryProperties.
Context `{P : Platform}.
Import NatsAuthConfigReconciler.

Lemma set_w_authconfigs_id (w : World) (key : ObjectKey) (stored : NatsAuthConfig) :
  w_authconfigs w !! key = Some stored ->
  set_w_authconfigs (<[ key := stored ]> (w_authconfigs w)) w = w.
Proof.
  intros H. unfold set_w_authconfigs. rewrite insert_id by exact H. now destruct w.
Qed.

Lemma Get_AuthConfigObject_Ok (req : ObjectKey) (c : Cluster)
    (authConfig : AuthConfigObject) :
  Get_AuthConfigObject req c = Ok authConfig ->
  exists old,
    w_authconfigs (c_world c) !! req = Some old /\
    co_authConfig authConfig =
      {| AuthConfig_Name := req.2; AuthConfig_Namespace := req.1;
         AuthConfig_Annotations := AuthConfig_Annotations old;
         AuthConfig_Spec := AuthConfig_Spec old;
         AuthConfig_Status := AuthConfig_Status old |} /\
    (co_meta authConfig, co_report authConfig) = default zero (c_authconfigs c !! req).
Proof.
  unfold Get_AuthConfigObject, Get_NatsAuthConfig.
  destruct (w_authconfigs (c_world c) !! req) as [old |]; [| discriminate].
  intros [= <-]. exists old. simpl.
  now destruct (default zero (c_authconfigs c !! req)).
Qed.

Lemma frame_write_authconfig (ev : Write) (key : ObjectKey) (stored : NatsAuthConfig)
    (w : World) :
  frame [] [ key ] w (write_authconfig ev key stored w).
Proof.
  unfold frame. simpl. repeat split; try reflexivity.
  intros k Hk. apply lookup_insert_ne. intros <-. apply Hk. now left.
Qed.

(** What [r.Update] leaves in the cluster for a configuration that is
    there and is not being deleted. *)
Lemma Update_AuthConfigObject_stored (req : ObjectKey) (c : Cluster)
    (o : AuthConfigObject) (meta : ObjectMeta) :
  Get_AuthConfigObject req c = Ok o ->
  DeletionTimestamp (co_meta o) = None ->
  let sent := set_co_meta (set_Finalizers (Finalizers meta) (co_meta o)) o in
  let c' := (Update_AuthConfigObject (set_co_meta meta o) c).2 in
  (Update_AuthConfigObject (set_co_meta meta o) c).1 = Ok sent /\
  Get_AuthConfigObject req c' = Ok sent /\
  frame [] [ req ] (c_world c) (c_world c') /\
  w_rng (c_world c') = w_rng (c_world c) /\
  c_accounts c' = c_accounts c /\ c_users c' = c_users c.
Proof.
  intros Hget Hdel sent c'. subst sent c'.
  destruct (Get_AuthConfigObject_Ok _ _ _ Hget) as (old & Hold & Hcfg & Hrest).
  unfold Update_AuthConfigObject, Update_NatsAuthConfig.
  cbn [set_co_meta co_authConfig co_meta]. rewrite Hcfg.
  cbn [AuthConfig_Namespace AuthConfig_Name].
  replace (req.1, req.2) with req by now destruct req.
  rewrite Hold. cbn [fst snd]. rewrite <- Hrest. cbn [fst snd].
  unfold updatedMeta, released. cbn [set_Finalizers DeletionTimestamp]. rewrite Hdel.
  cbn [c_world c_accounts c_users].
  split; [| split; [| split; [apply frame_write_authconfig | repeat split]]].
  - unfold set_co_meta. cbn [co_authConfig co_report]. rewrite Hcfg. reflexivity.
  - unfold Get_AuthConfigObject, Get_NatsAuthConfig.
    cbn [c_world c_authconfigs write_authconfig w_authconfigs].
    rewrite !lookup_insert_eq. cbn [default from_option id fst snd].
    unfold set_co_meta. cbn [co_authConfig co_report]. rewrite Hcfg. reflexivity.
Qed.

(** What [r.Status().Update] leaves in the cluster for a configuration
    that is there. *)
Lemma Status_Update_AuthConfigObject_stored (req : ObjectKey) (c : Cluster)
    (o sent : AuthConfigObject) :
  Get_AuthConfigObject req c = Ok o ->
  (AuthConfig_Namespace (co_authConfig sent), AuthConfig_Name (co_authConfig sent)) = req ->
  let c' := (Status_Update_AuthConfigObject sent c).2 in
  isOk (Status_Update_AuthConfigObject sent c).1 = true /\
  Get_AuthConfigObject req c' =
    Ok {| co_meta := co_meta o;
          co_authConfig :=
            set_AuthConfig_Status (AuthConfig_Status (co_authConfig sent))
              (co_authConfig o);
          co_report := co_report sent |} /\
  frame [] [ req ] (c_world c) (c_world c') /\
  w_rng (c_world c') = w_rng (c_world c) /\
  c_accounts c' = c_accounts c /\ c_users c' = c_users c.
Proof.
  intros Hget Hkey c'. subst c'.
  destruct (Get_AuthConfigObject_Ok _ _ _ Hget) as (old & Hold & Hcfg & Hrest).
  unfold Status_Update_AuthConfigObject. rewrite Hkey, Hold.
  cbn [fst snd isOk c_world c_accounts c_users].
  split; [reflexivity |].
  split; [| split; [apply frame_write_authconfig | repeat split]].
  unfold Get_AuthConfigObject, Get_NatsAuthConfig.
  cbn [c_world c_authconfigs write_authconfig w_authconfigs].
  rewrite !lookup_insert_eq. cbn [default from_option id fst snd].
  rewrite <- Hrest. cbn [fst]. rewrite Hcfg. reflexivity.
Qed.

(** The first statements of [Reconcile] over a configuration that exists
    and is not being deleted. *)
Lemma Reconcile_authConfig_prefix (req : ObjectKey) (c : Cluster)
    (authConfig : AuthConfigObject) :
  Get_AuthConfigObject req c = Ok authConfig ->
  DeletionTimestamp (co_meta authConfig) = None ->
  let authConfig1 :=
    set_co_meta (AddFinalizer (co_meta authConfig) natsAuthConfigFinalizer) authConfig in
  exists c1,
    (forall k : AuthConfigObject -> E Outcome,
       andThen
         (if negb (ContainsFinalizer (co_meta authConfig) natsAuthConfigFinalizer) then
            orReturn (Update_AuthConfigObject authConfig1)
          else goOn authConfig) k c = k authConfig1 c1) /\
    Get_AuthConfigObject req c1 = Ok authConfig1 /\
    frame [] [ req ] (c_world c) (c_world c1) /\
    w_rng (c_world c1) = w_rng (c_world c).
Proof.
  intros Hget Hdel account1. subst account1. unfold AddFinalizer.
  destruct (ContainsFinalizer (co_meta authConfig) natsAuthConfigFinalizer) eqn:Hfin.
  - exists c. split; [| split; [| split; [apply frame_refl | reflexivity]]].
    + intros k. unfold andThen, goOn. simpl. now destruct authConfig.
    + rewrite Hget. now destruct authConfig.
  - destruct (Update_AuthConfigObject_stored req c authConfig
                (set_Finalizers (Finalizers (co_meta authConfig) ++
                                 [natsAuthConfigFinalizer]) (co_meta authConfig))
                Hget Hdel) as (Hsent & Hback & Hframe & Hrng & _).
    cbn [set_Finalizers Finalizers] in Hsent, Hback.
    eexists. split; [| split; [exact Hback | split; [exact Hframe | exact Hrng]]].
    intros k. unfold andThen, orReturn. simpl.
    destruct (Update_AuthConfigObject _ c) as [res c1]. simpl in Hsent. now subst res.
Qed.

(** X25. A configuration in JWT or mixed mode without a [jwt] block is
    reported, not reconciled. For a configuration that exists and is not
    being deleted, [Reconcile] then returns no error, with a requeue after
    one minute; it does not reach the reconcile functions, so no operator
    key is drawn and no Secret, ConfigMap or account is touched; and the
    configuration then has the finalizer, its spec and status as before,
    and a [Ready] condition that is false for the reason [InvalidSpec]. *)
Theorem Reconcile_authConfig_invalid_spec (req : ObjectKey) (c : Cluster)
    (authConfig : AuthConfigObject) :
  Get_AuthConfigObject req c = Ok authConfig ->
  DeletionTimestamp (co_meta authConfig) = None ->
  Mode (AuthConfig_Spec (co_authConfig authConfig)) <> AuthModeToken ->
  JWT (AuthConfig_Spec (co_authConfig authConfig)) = None ->
  let err := Errorf "JWT configuration is required for JWT or mixed mode" in
  let r := Reconcile req c in
  r.1 = (after Minute, Ok tt) /\
  Get_AuthConfigObject req r.2 =
    Ok {| co_meta := AddFinalizer (co_meta authConfig) natsAuthConfigFinalizer;
          co_authConfig := co_authConfig authConfig;
          co_report :=
            updateCondition (w_now (c_world c)) (co_report authConfig)
              (condition "Ready" ConditionFalse "InvalidSpec" (ErrorText err)) |} /\
  frame [] [ req ] (c_world c) (c_world r.2) /\
  w_rng (c_world r.2) = w_rng (c_world c).
Proof.
  intros Hget Hdel Hmode Hjwt err r. subst err.
  assert (Hvalid : validateSpec (co_authConfig authConfig)
                   = Err (Errorf "JWT configuration is required for JWT or mixed mode")).
  { unfold validateSpec. rewrite Hjwt.
    destruct (Mode (AuthConfig_Spec (co_authConfig authConfig))); [congruence | |];
      reflexivity. }
  (* the finalizer *)
  set (account1 := set_co_meta (AddFinalizer (co_meta authConfig) natsAuthConfigFinalizer)
                     authConfig).
  assert (Hstep : exists c1,
    (forall k : AuthConfigObject -> E Outcome,
       andThen
         (if negb (ContainsFinalizer (co_meta authConfig) natsAuthConfigFinalizer) then
            orReturn (Update_AuthConfigObject account1)
          else goOn authConfig) k c = k account1 c1) /\
    Get_AuthConfigObject req c1 = Ok account1 /\
    frame [] [ req ] (c_world c) (c_world c1) /\
    w_rng (c_world c1) = w_rng (c_world c)).
  { exact (Reconcile_authConfig_prefix req c authConfig Hget Hdel). }
  destruct Hstep as (c1 & Hgo & Hget1 & Hframe1 & Hrng1).
  assert (Hkey1 : (AuthConfig_Namespace (co_authConfig account1),
                   AuthConfig_Name (co_authConfig account1)) = req).
  { destruct (Get_AuthConfigObject_Ok _ _ _ Hget) as (old & _ & Hcfg & _).
    subst account1. cbn [set_co_meta co_authConfig]. rewrite Hcfg. now destruct req. }
  assert (Hnow1 : w_now (c_world c1) = w_now (c_world c)) by apply Hframe1.
  set (sent := set_co_report
                 (updateCondition (w_now (c_world c)) (co_report account1)
                    (condition "Ready" ConditionFalse "InvalidSpec"
                       (ErrorText
                          (Errorf "JWT configuration is required for JWT or mixed mode"))))
                 account1).
  destruct (Status_Update_AuthConfigObject_stored req c1 account1 sent Hget1 Hkey1)
    as (Hok & Hback & Hframe2 & Hrng2 & _).
  assert (Hrun : r = ((after Minute, Ok tt), (Status_Update_AuthConfigObject sent c1).2)).
  { subst r. unfold Reconcile, finish. unfold andThen at 1. rewrite Hget.
    rewrite bool_decide_eq_false_2 by (rewrite Hdel; now intros H).
    fold account1. rewrite Hgo.
    change (co_authConfig account1) with (co_authConfig authConfig). rewrite Hvalid.
    unfold andThen, clock, orReturn, Return. rewrite Hnow1. fold sent.
    destruct (Status_Update_AuthConfigObject sent c1) as [[o | e] c2];
      [reflexivity | discriminate]. }
  rewrite Hrun. cbn [fst snd].
  split; [reflexivity |]. split.
  - rewrite Hback. subst sent account1.
    cbn [set_co_report set_co_meta co_meta co_authConfig co_report].
    now destruct (co_authConfig authConfig).
  - split; [eapply frame_trans; eassumption | congruence].
Qed.

Lemma WriteResolverConfig_configs (namespace name key configType content : string)
    (w : World) :
  let w' := (WriteResolverConfig namespace name key configType content w).2 in
  w_authconfigs w' = w_authconfigs w /\ w_now w' = w_now w.
Proof.
  unfold WriteResolverConfig, writeToSecret, writeToConfigMap.
  destruct (decide (configType = "Secret")).
  - unfold bind, try, wrap, fail, Get_Secret, Create_Secret, Update_Secret.
    destruct (w_secrets w !! (namespace, name)); cbn [fst snd IsNotFound keyOf
      set_Secret_Data Secret_Namespace Secret_Name].
    + destruct (w_secrets w !! _); now cbn.
    + destruct (w_secrets w !! _); now cbn.
  - unfold bind, try, wrap, fail, Get_ConfigMap, Create_ConfigMap, Update_ConfigMap.
    destruct (w_configmaps w !! (namespace, name)); cbn [fst snd IsNotFound
      keyOfConfigMap set_ConfigMap_Data ConfigMap_Namespace ConfigMap_Name].
    + destruct (w_configmaps w !! _); now cbn.
    + destruct (w_configmaps w !! _); now cbn.
Qed.

(** What the three reconcile functions of the configuration have in
    common: the configuration objects of the cluster and the clock are as
    before, the object in hand is the same one, marked ready if the pass
    has not failed and untouched if it has. *)
Lemma reconcileMode_outcome (authConfig : NatsAuthConfig) (w : World) :
  let r := match Mode (AuthConfig_Spec authConfig) with
           | AuthModeJWT => reconcileJWTMode authConfig w
           | AuthModeToken => reconcileTokenMode authConfig w
           | AuthModeMixed => reconcileMixedMode authConfig w
           end in
  w_authconfigs r.2 = w_authconfigs w /\ w_now r.2 = w_now w /\
  AuthConfig_Name r.1.2 = AuthConfig_Name authConfig /\
  AuthConfig_Namespace r.1.2 = AuthConfig_Namespace authConfig /\
  AuthConfig_Spec r.1.2 = AuthConfig_Spec authConfig /\
  match r.1.1 with
  | Ok _ => ResolverReady (AuthConfig_Status r.1.2) = true
  | Err _ => r.1.2 = authConfig
  end.
Proof.
  assert (Hjwt :
    let r := reconcileJWTMode authConfig w in
    w_authconfigs r.2 = w_authconfigs w /\ w_now r.2 = w_now w /\
    AuthConfig_Name r.1.2 = AuthConfig_Name authConfig /\
    AuthConfig_Namespace r.1.2 = AuthConfig_Namespace authConfig /\
    AuthConfig_Spec r.1.2 = AuthConfig_Spec authConfig /\
    match r.1.1 with
    | Ok _ => ResolverReady (AuthConfig_Status r.1.2) = true
    | Err _ => r.1.2 = authConfig
    end).
  { pose proof (reconcileJWTMode_keeps authConfig w) as (_ & Hcfgs & _ & _ & Hnow).
    cbv zeta. split; [| split; [exact Hnow |]].
    - apply map_eq. intros k. apply Hcfgs. apply not_elem_of_nil.
    - clear Hcfgs Hnow. unfold reconcileJWTMode. cbv zeta.
      match goal with
      | |- context [match ?m w with _ => _ end] => destruct (m w) as [[pub | e] w']
      end; now cbn. }
  destruct (Mode (AuthConfig_Spec authConfig)); [| exact Hjwt | exact Hjwt].
  clear Hjwt. unfold reconcileTokenMode. cbv zeta.
  match goal with
  | |- context [WriteResolverConfig ?a ?b ?c ?d ?e w] =>
    pose proof (WriteResolverConfig_configs a b c d e w) as (Hcfgs & Hnow);
    destruct (WriteResolverConfig a b c d e w) as [[[] | e0] w']
  end; now cbn in *.
Qed.

Lemma Get_AuthConfigObject_ext (req : ObjectKey) (c c' : Cluster) :
  w_authconfigs (c_world c') = w_authconfigs (c_world c) ->
  c_authconfigs c' = c_authconfigs c ->
  Get_AuthConfigObject req c' = Get_AuthConfigObject req c.
Proof.
  intros Hw Hc. unfold Get_AuthConfigObject, Get_NatsAuthConfig. rewrite Hw, Hc.
  now destruct (w_authconfigs (c_world c) !! req).
Qed.

(** X30. The configuration controller dates every pass that gets past the
    validation, the failed ones too. For a configuration that exists, is
    not being deleted and passes [validateSpec], a pass of [Reconcile]
    that does not panic leaves the configuration with the finalizer, its
    spec as before, the generation it was read with as observed generation
    and the current time as time of the last reconciliation. Without error
    the status says that the resolver is ready, the [Ready] condition is
    true and the next pass is due in five minutes; with an error the
    status is as before, the condition is false with that error as
    message, and the next pass is due in one minute. *)
Theorem Reconcile_authConfig_dates_every_pass (req : ObjectKey) (c : Cluster)
    (authConfig : AuthConfigObject) :
  Get_AuthConfigObject req c = Ok authConfig ->
  DeletionTimestamp (co_meta authConfig) = None ->
  validateSpec (co_authConfig authConfig) = Ok tt ->
  (forall e, (Reconcile req c).1.2 = Err e -> unwinds e = false) ->
  exists authConfig' : AuthConfigObject,
    let r := Reconcile req c in
    let now := w_now (c_world c) in
    Get_AuthConfigObject req r.2 = Ok authConfig' /\
    co_meta authConfig' = AddFinalizer (co_meta authConfig) natsAuthConfigFinalizer /\
    AuthConfig_Spec (co_authConfig authConfig')
      = AuthConfig_Spec (co_authConfig authConfig) /\
    ObservedGeneration (co_report authConfig') = Generation (co_meta authConfig) /\
    LastReconciled (co_report authConfig') = Some now /\
    match r.1.2 with
    | Ok _ =>
      r.1.1 = after (5 * Minute) /\
      ResolverReady (AuthConfig_Status (co_authConfig authConfig')) = true /\
      set_LastTransitionTime now
        (condition "Ready" ConditionTrue "ReconcileSuccess"
           (Literal "NatsAuthConfig reconciled successfully"))
        ∈ Conditions (co_report authConfig')
    | Err e =>
      r.1.1 = after Minute /\
      AuthConfig_Status (co_authConfig authConfig')
        = AuthConfig_Status (co_authConfig authConfig) /\
      set_LastTransitionTime now
        (condition "Ready" ConditionFalse "ReconcileError" (ErrorText e))
        ∈ Conditions (co_report authConfig')
    end.
Proof.
  intros Hget Hdel Hvalid Hcalm.
  destruct (Reconcile_authConfig_prefix req c authConfig Hget Hdel)
    as (c1 & Hgo & Hget1 & Hframe1 & _).
  assert (Hnow1 : w_now (c_world c1) = w_now (c_world c)) by apply Hframe1.
  assert (Hkey : (AuthConfig_Namespace (co_authConfig authConfig),
                  AuthConfig_Name (co_authConfig authConfig)) = req).
  { destruct (Get_AuthConfigObject_Ok _ _ _ Hget) as (old & _ & Hcfg & _).
    rewrite Hcfg. now destruct req. }
  remember (Reconcile req c) as r eqn:Hr.
  unfold Reconcile, finish in Hr. unfold andThen at 1 in Hr. rewrite Hget in Hr.
  rewrite bool_decide_eq_false_2 in Hr by (rewrite Hdel; now intros H).
  rewrite Hgo in Hr. cbn [set_co_meta co_authConfig] in Hr. rewrite Hvalid in Hr.
  unfold andThen at 1 in Hr.
  pose proof (reconcileMode_outcome (co_authConfig authConfig) (c_world c1))
    as (Hcfgs & Hnow & Hname & Hns & Hspec & Hstatus).
  destruct (match Mode (AuthConfig_Spec (co_authConfig authConfig)) with
            | AuthModeJWT => reconcileJWTMode (co_authConfig authConfig) (c_world c1)
            | AuthModeToken => reconcileTokenMode (co_authConfig authConfig) (c_world c1)
            | AuthModeMixed => reconcileMixedMode (co_authConfig authConfig) (c_world c1)
            end) as [[rr a'] w'].
  cbn [fst snd] in Hr, Hcfgs, Hnow, Hname, Hns, Hspec, Hstatus.
  assert (Hcalm' : match rr with Err err => unwinds err | Ok _ => false end = false).
  { destruct rr as [[] | err]; [reflexivity |].
    destruct (unwinds err) eqn:Hpanic; [| reflexivity].
    unfold andThen at 1 in Hr. unfold Return at 1 in Hr. subst r.
    now rewrite (Hcalm err eq_refl) in Hpanic. }
  rewrite Hcalm' in Hr. clear Hcalm'.
  unfold andThen at 1 in Hr. unfold goOn at 1 in Hr.
  unfold andThen at 1 in Hr. unfold clock at 1 in Hr.
  cbn [set_c_world c_world] in Hr. rewrite Hnow, Hnow1 in Hr.
  assert (Hget2 : Get_AuthConfigObject req (set_c_world w' c1)
                  = Ok (set_co_meta (AddFinalizer (co_meta authConfig)
                                       natsAuthConfigFinalizer) authConfig)).
  { rewrite <- Hget1. now apply Get_AuthConfigObject_ext. }
  destruct rr as [[] | err].
  - unfold andThen at 1 in Hr. unfold orReturn at 1 in Hr.
    match type of Hr with
    | context [Status_Update_AuthConfigObject ?sent ?c2] =>
      destruct (Status_Update_AuthConfigObject_stored req c2 _ sent Hget2)
        as (Hsent & Hback & _);
      [ | destruct (Status_Update_AuthConfigObject sent c2) as [[o | e] c3];
          [| discriminate] ]
    end.
    { cbn [set_co_report set_co_authConfig set_co_meta co_authConfig].
      rewrite Hname, Hns. exact Hkey. }
    cbn [fst snd] in Hback. unfold Return in Hr. subst r. cbn [fst snd].
    eexists. cbv zeta. split; [exact Hback |].
    cbn [set_co_report set_co_authConfig set_co_meta co_authConfig co_meta co_report
         set_AuthConfig_Status AuthConfig_Spec AuthConfig_Status].
    match goal with
    | |- context [updateCondition ?t ?rep ?cnd] =>
      destruct (updateCondition_sets t rep cnd) as (Hin & Hgen & Hlast)
    end.
    split; [reflexivity |]. split; [reflexivity |].
    split; [rewrite Hgen; apply AddFinalizer_Generation |].
    split; [exact Hlast |]. now repeat split.
  - unfold andThen at 1 in Hr. unfold orReturn at 1 in Hr. subst a'.
    match type of Hr with
    | context [Status_Update_AuthConfigObject ?sent ?c2] =>
      destruct (Status_Update_AuthConfigObject_stored req c2 _ sent Hget2)
        as (Hsent & Hback & _);
      [ | destruct (Status_Update_AuthConfigObject sent c2) as [[o | e] c3];
          [| discriminate] ]
    end.
    { cbn [set_co_report set_co_authConfig set_co_meta co_authConfig]. exact Hkey. }
    cbn [fst snd] in Hback. unfold Return in Hr. subst r. cbn [fst snd].
    eexists. cbv zeta. split; [exact Hback |].
    cbn [set_co_report set_co_authConfig set_co_meta co_authConfig co_meta co_report
         set_AuthConfig_Status AuthConfig_Spec AuthConfig_Status].
    match goal with
    | |- context [updateCondition ?t ?rep ?cnd] =>
      destruct (updateCondition_sets t rep cnd) as (Hin & Hgen & Hlast)
    end.
    split; [reflexivity |]. split; [reflexivity |].
    split; [rewrite Hgen; apply AddFinalizer_Generation |].
    split; [exact Hlast |]. now repeat split.
Qed.

End AuthConfigEntryProperties.

Section UserEntryProperties.
Context `{P : Platform}.
Import NatsUserReconciler.

Lemma Get_UserObject_Ok (req : ObjectKey) (c : Cluster) (user : UserObject) :
  Get_UserObject req c = Ok user ->
  (User_Namespace (uo_user user), User_Name (uo_user user)) = req /\
  exists o, c_users c !! req = Some o /\ user = userAt req o.
Proof.
  unfold Get_UserObject. destruct (c_users c !! req) as [o |] eqn:Ho; [| discriminate].
  intros [= <-]. split; [now destruct req | eauto].
Qed.

Lemma c_world_userWithFinalizer (req : ObjectKey) (user : UserObject) (c : Cluster) :
  c_world (userWithFinalizer req user c) = c_world c.
Proof. unfold userWithFinalizer. now destruct (ContainsFinalizer _ _). Qed.

Lemma set_c_world_userWithFinalizer (req : ObjectKey) (user : UserObject)
    (c : Cluster) :
  set_c_world (c_world c) (userWithFinalizer req user c) = userWithFinalizer req user c.
Proof.
  rewrite <- (c_world_userWithFinalizer req user c) at 1. now destruct (userWithFinalizer _ _ _).
Qed.

Lemma userWithFinalizer_stored (req : ObjectKey) (user : UserObject) (c : Cluster) :
  Get_UserObject req c = Ok user ->
  exists o,
    c_users (userWithFinalizer req user c) !! req = Some o /\
    uo_meta o = AddFinalizer (uo_meta user) natsUserFinalizer /\
    User_Spec (uo_user o) = User_Spec (uo_user user).
Proof.
  intros Hget. destruct (Get_UserObject_Ok _ _ _ Hget) as (_ & o & Ho & ->).
  unfold userWithFinalizer, AddFinalizer.
  destruct (ContainsFinalizer _ _) eqn:Hfin.
  - exists o. now repeat split.
  - eexists. cbn [set_c_users c_users]. rewrite lookup_insert_eq.
    split; [reflexivity |]. now repeat split.
Qed.

(** The first statements of [Reconcile] over a user that exists and is not
    being deleted. *)
Lemma Reconcile_user_prefix (req : ObjectKey) (c : Cluster) (user : UserObject)
    (k : UserObject -> E Outcome) :
  Get_UserObject req c = Ok user ->
  DeletionTimestamp (uo_meta user) = None ->
  andThen
    (if negb (ContainsFinalizer (uo_meta user) natsUserFinalizer) then
       orReturn (Update_UserObject
                   (set_uo_meta (AddFinalizer (uo_meta user) natsUserFinalizer) user))
     else goOn user) k c =
  k (set_uo_meta (AddFinalizer (uo_meta user) natsUserFinalizer) user)
    (userWithFinalizer req user c).
Proof.
  intros Hget Hdel.
  destruct (Get_UserObject_Ok _ _ _ Hget) as (Hkey & o & Ho & Huser).
  unfold userWithFinalizer, AddFinalizer, andThen.
  destruct (ContainsFinalizer (uo_meta user) natsUserFinalizer) eqn:Hfin; simpl.
  - now destruct user.
  - unfold orReturn, Update_UserObject. cbn [set_uo_meta uo_user uo_meta].
    rewrite Hkey, Ho. subst user.
    unfold updatedMeta, released, userAt.
    cbn [set_Finalizers DeletionTimestamp Finalizers set_uo_user set_uo_meta
         uo_meta uo_user uo_state uo_reason uo_report User_Spec User_Status] in *.
    cbn in Hdel. rewrite Hdel. reflexivity.
Qed.

Lemma getAuthConfig_user_reads (user : NatsUser) (w : World) :
  (getAuthConfig user w).2 = w.
Proof.
  unfold getAuthConfig, Get_NatsAuthConfig. now destruct (w_authconfigs w !! _).
Qed.

(** What [r.Status().Update] leaves in the cluster for a user that is
    there. *)
Lemma Status_Update_UserObject_stored (o old : UserObject) (c : Cluster)
    (req : ObjectKey) :
  (User_Namespace (uo_user o), User_Name (uo_user o)) = req ->
  c_users c !! req = Some old ->
  let c' := (Status_Update_UserObject o c).2 in
  isOk (Status_Update_UserObject o c).1 = true /\
  Get_UserObject req c' =
    Ok {| uo_meta := uo_meta old;
          uo_user := {| User_Name := req.2; User_Namespace := req.1;
                        User_Spec := User_Spec (uo_user old);
                        User_Status := User_Status (uo_user o) |};
          uo_state := uo_state o; uo_reason := uo_reason o;
          uo_report := uo_report o |} /\
  c_world c' = c_world c /\
  c_accounts c' = c_accounts c /\ c_authconfigs c' = c_authconfigs c.
Proof.
  intros Hkey Hold c'. subst c'. unfold Status_Update_UserObject.
  rewrite Hkey, Hold. cbn [fst snd isOk].
  split; [reflexivity |]. split; [| now repeat split].
  unfold Get_UserObject. cbn [set_c_users c_users]. rewrite lookup_insert_eq.
  reflexivity.
Qed.

Lemma reconcileJWTUser_same_object (user : NatsUser) (authConfig : NatsAuthConfig)
    (w : World) :
  let u := (reconcileJWTUser user authConfig w).1.2 in
  User_Name u = User_Name user /\ User_Namespace u = User_Namespace user /\
  User_Spec u = User_Spec user.
Proof.
  unfold reconcileJWTUser. cbv zeta.
  match goal with
  | |- context [match ?m w with _ => _ end] => destruct (m w) as [[[pub |] | e] w']
  end; now cbn.
Qed.

Lemma reconcileTokenUser_same_object (user : NatsUser) (authConfig : NatsAuthConfig)
    (w : World) :
  let u := (reconcileTokenUser user authConfig w).1.2 in
  User_Name u = User_Name user /\ User_Namespace u = User_Namespace user /\
  User_Spec u = User_Spec user.
Proof.
  unfold reconcileTokenUser. cbv zeta.
  match goal with
  | |- context [match ?m w with _ => _ end] => destruct (m w) as [[[] | e] w']
  end; now cbn.
Qed.

(** X27. A user that inherits its kind from a configuration in mixed mode
    is not reconciled: mixed is not a kind of user. For a user that exists
    and is not being deleted, with [authType] [inherit] and a configuration
    in mode [mixed], [Reconcile] returns the error [unsupported auth type:
    mixed] with a requeue after one minute; it draws no key and writes no
    Secret; and the user object then has the finalizer, the state [Error]
    with that error as reason, the generation and the time of the pass, and
    a [Ready] condition that is false for the reason [ReconcileError]. *)
Theorem Reconcile_user_inherits_mixed (req : ObjectKey) (c : Cluster)
    (user : UserObject) (authConfig : NatsAuthConfig) :
  Get_UserObject req c = Ok user ->
  DeletionTimestamp (uo_meta user) = None ->
  AuthType (User_Spec (uo_user user)) = UserAuthTypeInherit ->
  (getAuthConfig (uo_user user) (c_world c)).1 = Ok authConfig ->
  Mode (AuthConfig_Spec authConfig) = AuthModeMixed ->
  let err := Errorf "unsupported auth type: mixed" in
  let now := w_now (c_world c) in
  let r := Reconcile req c in
  r.1 = (after Minute, Err err) /\
  c_world r.2 = c_world c /\
  Get_UserObject req r.2 =
    Ok {| uo_meta := AddFinalizer (uo_meta user) natsUserFinalizer;
          uo_user := uo_user user;
          uo_state := UserStateError;
          uo_reason := ErrorText err;
          uo_report :=
            updateCondition now
              (set_ObservedGeneration (Generation (uo_meta user))
                 (set_LastReconciled (Some now) (uo_report user)))
              (condition "Ready" ConditionFalse "ReconcileError" (ErrorText err)) |}.
Proof.
  intros Hget Hdel Htype Hcfg Hmode err now r.
  destruct (Get_UserObject_Ok _ _ _ Hget) as (Hkey & o & Ho & Huser).
  destruct (userWithFinalizer_stored _ _ _ Hget) as (o1 & Ho1 & Hmeta1 & Hspec1).
  remember (Reconcile req c) as r0 eqn:Hr. subst r.
  unfold Reconcile, finish in Hr. unfold andThen at 1 in Hr. rewrite Hget in Hr.
  rewrite bool_decide_eq_false_2 in Hr by (rewrite Hdel; now intros H).
  rewrite (Reconcile_user_prefix _ _ _ _ Hget Hdel) in Hr.
  unfold andThen at 1 in Hr. unfold inWorld in Hr.
  rewrite c_world_userWithFinalizer in Hr. cbn [set_uo_meta uo_user] in Hr.
  pose proof (getAuthConfig_user_reads (uo_user user) (c_world c)) as Hreads.
  destruct (getAuthConfig (uo_user user) (c_world c)) as [found w0].
  simpl in Hcfg, Hreads. subst found w0.
  rewrite set_c_world_userWithFinalizer in Hr.
  rewrite Htype, Hmode in Hr.
  unfold andThen at 1 in Hr.
  cbn [authTypeName modeName] in Hr.
  change (String.eqb "inherit" "inherit") with true in Hr. cbv iota in Hr.
  change (String.eqb "mixed" "jwt") with false in Hr.
  change (String.eqb "mixed" "token") with false in Hr. cbv iota in Hr.
  cbn [fst snd unwinds] in Hr.
  unfold andThen at 1 in Hr. unfold goOn at 1 in Hr.
  unfold andThen at 1 in Hr. unfold clock at 1 in Hr.
  unfold andThen at 1 in Hr. unfold orReturn at 1 in Hr.
  rewrite c_world_userWithFinalizer in Hr.
  match type of Hr with
  | context [Status_Update_UserObject ?u ?c1] =>
    destruct (Status_Update_UserObject_stored u o1 c1 req) as (Hsent & Hback & Hworld & _);
    [ | exact Ho1 | destruct (Status_Update_UserObject u c1) as [[sent | e] c2];
                    [| discriminate] ]
  end.
  { cbn [set_uo_report updateStatus set_uo_user set_uo_meta uo_user]. exact Hkey. }
  cbn [fst snd] in Hback, Hworld. unfold Return in Hr. subst r0. cbn [fst snd].
  split; [reflexivity |]. split.
  - now rewrite Hworld, c_world_userWithFinalizer.
  - rewrite Hback.
    cbn [set_uo_report updateStatus set_uo_user set_uo_meta uo_user uo_state uo_reason
         uo_report uo_meta].
    rewrite Hmeta1, Hspec1, AddFinalizer_Generation. f_equal. f_equal.
    rewrite <- Hkey. now destruct (uo_user user).
Qed.

(** X28. The user controller dates every pass, the failed ones too. For a
    user that exists and is not being deleted and whose configuration is
    found, a pass of [Reconcile] that does not panic leaves the user
    object with the finalizer, its spec as before, the generation it was
    read with as observed generation and the current time as time of the
    last reconciliation, whether the pass failed or not. Without error the
    state is [Ready], the [Ready] condition true and the next pass due in
    five minutes; with an error the state is [Error] with that error as
    reason, the condition false with that error as message, and the next
    pass due in one minute. *)
Theorem Reconcile_user_dates_every_pass (req : ObjectKey) (c : Cluster)
    (user : UserObject) (authConfig : NatsAuthConfig) :
  Get_UserObject req c = Ok user ->
  DeletionTimestamp (uo_meta user) = None ->
  (getAuthConfig (uo_user user) (c_world c)).1 = Ok authConfig ->
  (forall e, (Reconcile req c).1.2 = Err e -> unwinds e = false) ->
  exists user' : UserObject,
    let r := Reconcile req c in
    let now := w_now (c_world c) in
    Get_UserObject req r.2 = Ok user' /\
    uo_meta user' = AddFinalizer (uo_meta user) natsUserFinalizer /\
    User_Spec (uo_user user') = User_Spec (uo_user user) /\
    ObservedGeneration (uo_report user') = Generation (uo_meta user) /\
    LastReconciled (uo_report user') = Some now /\
    match r.1.2 with
    | Ok _ =>
      r.1.1 = after (5 * Minute) /\
      uo_state user' = UserStateReady /\
      uo_reason user' = Literal "User reconciled successfully" /\
      set_LastTransitionTime now
        (condition "Ready" ConditionTrue "ReconcileSuccess"
           (Literal "NatsUser reconciled successfully"))
        ∈ Conditions (uo_report user')
    | Err e =>
      r.1.1 = after Minute /\
      uo_state user' = UserStateError /\
      uo_reason user' = ErrorText e /\
      set_LastTransitionTime now
        (condition "Ready" ConditionFalse "ReconcileError" (ErrorText e))
        ∈ Conditions (uo_report user')
    end.
Proof.
  intros Hget Hdel Hcfg Hcalm.
  destruct (Get_UserObject_Ok _ _ _ Hget) as (Hkey & o & Ho & Huser).
  destruct (userWithFinalizer_stored _ _ _ Hget) as (o1 & Ho1 & Hmeta1 & Hspec1).
  remember (Reconcile req c) as r eqn:Hr.
  unfold Reconcile, finish in Hr. unfold andThen at 1 in Hr. rewrite Hget in Hr.
  rewrite bool_decide_eq_false_2 in Hr by (rewrite Hdel; now intros H).
  rewrite (Reconcile_user_prefix _ _ _ _ Hget Hdel) in Hr.
  unfold andThen at 1 in Hr. unfold inWorld in Hr.
  rewrite c_world_userWithFinalizer in Hr. cbn [set_uo_meta uo_user] in Hr.
  pose proof (getAuthConfig_user_reads (uo_user user) (c_world c)) as Hreads.
  destruct (getAuthConfig (uo_user user) (c_world c)) as [found w0].
  simpl in Hcfg, Hreads. subst found w0.
  rewrite set_c_world_userWithFinalizer in Hr.
  match type of Hr with
  | context [andThen ?m ?k] => set (step := m) in Hr; set (rest := k) in Hr
  end.
  assert (Hstep : exists rr u' w',
    step (userWithFinalizer req user c) =
      (inl (rr, u'), set_c_world w' (userWithFinalizer req user c)) /\
    User_Name u' = User_Name (uo_user user) /\
    User_Namespace u' = User_Namespace (uo_user user) /\
    w_now w' = w_now (c_world c)).
  { subst step. cbv beta. rewrite c_world_userWithFinalizer.
    match goal with
    | |- context [String.eqb ?a (authTypeName UserAuthTypeJWT)] =>
      destruct (String.eqb a (authTypeName UserAuthTypeJWT));
      [| destruct (String.eqb a (authTypeName UserAuthTypeToken)) ]
    end.
    - pose proof (reconcileJWTUser_same_object (uo_user user) authConfig (c_world c))
        as (Hn & Hns & _).
      pose proof (reconcileJWTUser_keeps (uo_user user) authConfig (c_world c))
        as (_ & _ & _ & _ & Hnow).
      destruct (reconcileJWTUser (uo_user user) authConfig (c_world c))
        as [[rr u'] w'].
      cbn [fst snd] in Hn, Hns, Hnow. now exists rr, u', w'.
    - pose proof (reconcileTokenUser_same_object (uo_user user) authConfig (c_world c))
        as (Hn & Hns & _).
      pose proof (reconcileTokenUser_keeps (uo_user user) authConfig (c_world c))
        as (_ & _ & _ & _ & Hnow).
      destruct (reconcileTokenUser (uo_user user) authConfig (c_world c))
        as [[rr u'] w'].
      cbn [fst snd] in Hn, Hns, Hnow. now exists rr, u', w'.
    - eexists _, (uo_user user), (c_world c).
      rewrite set_c_world_userWithFinalizer. now repeat split. }
  destruct Hstep as (rr & u' & w' & Hstep & Hn & Hns & Hnow).
  unfold andThen at 1 in Hr. rewrite Hstep in Hr. subst rest. cbv beta iota in Hr.
  cbn [fst snd] in Hr.
  assert (Hcalm' : match rr with Err err => unwinds err | Ok _ => false end = false).
  { destruct rr as [[] | err]; [reflexivity |].
    destruct (unwinds err) eqn:Hpanic; [| reflexivity].
    unfold andThen at 1 in Hr. unfold Return at 1 in Hr. subst r.
    now rewrite (Hcalm err eq_refl) in Hpanic. }
  rewrite Hcalm' in Hr. clear Hcalm'.
  unfold andThen at 1 in Hr. unfold goOn at 1 in Hr.
  unfold andThen at 1 in Hr. unfold clock at 1 in Hr.
  cbn [set_c_world c_world] in Hr. rewrite Hnow in Hr.
  assert (Ho2 : c_users (set_c_world w' (userWithFinalizer req user c)) !! req = Some o1)
    by exact Ho1.
  destruct rr as [[] | err].
  - unfold andThen at 1 in Hr. unfold orReturn at 1 in Hr.
    match type of Hr with
    | context [Status_Update_UserObject ?u ?c1] =>
      destruct (Status_Update_UserObject_stored u o1 c1 req) as (Hsent & Hback & _);
      [ | exact Ho2 | destruct (Status_Update_UserObject u c1) as [[sent | e] c2];
                      [| discriminate] ]
    end.
    { cbn [set_uo_report updateStatus set_uo_user set_uo_meta uo_user].
      rewrite Hn, Hns. exact Hkey. }
    cbn [fst snd] in Hback. unfold Return in Hr. subst r. cbn [fst snd].
    eexists. cbv zeta. split; [exact Hback |].
    cbn [set_uo_report updateStatus set_uo_user set_uo_meta uo_user uo_state uo_reason
         uo_report uo_meta User_Spec].
    match goal with
    | |- context [updateCondition ?t ?rep ?cnd] =>
      destruct (updateCondition_sets t rep cnd) as (Hin & Hgen & Hlast)
    end.
    split; [exact Hmeta1 |]. split; [exact Hspec1 |].
    split; [rewrite Hgen; apply AddFinalizer_Generation |].
    split; [exact Hlast |]. now repeat split.
  - unfold andThen at 1 in Hr. unfold orReturn at 1 in Hr.
    match type of Hr with
    | context [Status_Update_UserObject ?u ?c1] =>
      destruct (Status_Update_UserObject_stored u o1 c1 req) as (Hsent & Hback & _);
      [ | exact Ho2 | destruct (Status_Update_UserObject u c1) as [[sent | e] c2];
                      [| discriminate] ]
    end.
    { cbn [set_uo_report updateStatus set_uo_user set_uo_meta uo_user].
      rewrite Hn, Hns. exact Hkey. }
    cbn [fst snd] in Hback. unfold Return in Hr. subst r. cbn [fst snd].
    eexists. cbv zeta. split; [exact Hback |].
    cbn [set_uo_report updateStatus set_uo_user set_uo_meta uo_user uo_state uo_reason
         uo_report uo_meta User_Spec].
    match goal with
    | |- context [updateCondition ?t ?rep ?cnd] =>
      destruct (updateCondition_sets t rep cnd) as (Hin & Hgen & Hlast)
    end.
    split; [exact Hmeta1 |]. split; [exact Hspec1 |].
    split; [rewrite Hgen; apply AddFinalizer_Generation |].
    split; [exact Hlast |]. now repeat split.
Qed.

(** X29. The deletion of a user. For a user that is being deleted,
    [Reconcile] returns without error and without a requeue and touches
    nothing but the user object: no Secret, ConfigMap, configuration or
    account changes, so the credentials secret is left to the garbage
    collector and the configuration is not asked to render again. If the
    user has the finalizer of the controller, the finalizer is taken off,
    which releases the object if it was the last one; if it does not,
    nothing changes. *)
Theorem Reconcile_user_deletion (req : ObjectKey) (c : Cluster)
    (user : UserObject) (t : Z) :
  Get_UserObject req c = Ok user ->
  DeletionTimestamp (uo_meta user) = Some t ->
  let r := Reconcile req c in
  let others :=
    filter (fun f => f <> natsUserFinalizer) (Finalizers (uo_meta user)) in
  r.1 = (noRequeue, Ok tt) /\
  c_world r.2 = c_world c /\
  c_accounts r.2 = c_accounts c /\
  c_authconfigs r.2 = c_authconfigs c /\
  if ContainsFinalizer (uo_meta user) natsUserFinalizer then
    Get_UserObject req r.2 =
      match others with
      | [] => Err ErrNotFound
      | _ :: _ => Ok (set_uo_meta (set_Finalizers others (uo_meta user)) user)
      end
  else r.2 = c.
Proof.
  intros Hget Hdel r others.
  destruct (Get_UserObject_Ok _ _ _ Hget) as (Hkey & o & Ho & Huser).
  assert (Hr : r = finish (handleDeletion user) c).
  { subst r. unfold Reconcile, finish. unfold andThen at 1. rewrite Hget.
    rewrite bool_decide_eq_true_2 by (rewrite Hdel; discriminate). reflexivity. }
  clearbody r. subst r. unfold handleDeletion.
  destruct (ContainsFinalizer (uo_meta user) natsUserFinalizer) eqn:Hfin.
  2: { now unfold finish, goOn. }
  unfold finish, andThen, orReturn, goOn, Update_UserObject.
  cbn [set_uo_meta uo_user uo_meta]. rewrite Hkey, Ho.
  unfold updatedMeta, released, RemoveFinalizer.
  cbn [set_Finalizers Finalizers DeletionTimestamp uo_meta].
  fold others.
  assert (Hmeta : uo_meta o = uo_meta user) by now subst user.
  rewrite Hmeta, Hdel.
  destruct others as [| f others'] eqn:Hothers; cbn [fst snd].
  - repeat split. unfold Get_UserObject. cbn [set_c_users c_users].
    now rewrite lookup_delete_eq.
  - repeat split. unfold Get_UserObject. cbn [set_c_users c_users].
    rewrite lookup_insert_eq. f_equal. subst user. unfold userAt.
    cbn [set_uo_user set_uo_meta uo_meta uo_user uo_state uo_reason uo_report
         User_Spec User_Status fst snd]. reflexivity.
Qed.

End UserEntryProperties.

(** ** The embedding at concrete inputs *)

Import Toy Scenario.

(** C1, at an instance: an account manager with public key [A1] signs user
    claims whose issuer the caller had set to [someone-else]. *)
Lemma sign_issuer_is_parent_witness :
  let am := {| accountKP := {| kp_PublicKey := Ok "A1"; kp_Seed := Ok "SA1" |} |} in
  let call := SignUser am (set_uc_Issuer "someone-else" (NewUserClaims "U1")) in
  sign (P := issuerOnly) call = (UserC (set_uc_Issuer "A1" (NewUserClaims "U1")), Ok "A1") /\
  exists pub,
    signer call = Ok pub /\
    claims_Issuer (UserC (set_uc_Issuer "A1" (NewUserClaims "U1"))) = pub /\
    Some "A1" = Some pub /\
    forall x, sign (P := issuerOnly) (prepopulated x call)
              = (UserC (set_uc_Issuer "A1" (NewUserClaims "U1")), Ok "A1").
Proof.
  intros am call. split; [reflexivity |].
  apply (sign_issuer_is_parent (P := issuerOnly) Some call).
  - intros c kp pub t _ Hiss Henc. simpl in Henc. congruence.
  - reflexivity.
Defined.

(** C5, at an instance: an account manager and an operator manager built
    from the seed [SA1] with different random sources. *)
Lemma managers_from_seed_agree_witness :
  nonEmpty "SA1" = true /\
  (forall m1 m2 rng1' rng2',
      construct AccountKind "SA1" 0%nat = (Ok m1, rng1') ->
      construct (OperatorKind "op" 7) "SA1" 3%nat = (Ok m2, rng2') ->
      GetPublicKey m1 = GetPublicKey m2 /\ rng1' = 0%nat /\ rng2' = 3%nat) /\
  construct AccountKind "SA1" 0%nat =
    (Ok (AnAccount {| accountKP := {| kp_PublicKey := Ok "A1"; kp_Seed := Ok "SA1" |} |}),
     0%nat) /\
  construct (OperatorKind "op" 7) "not-a-seed" 3%nat =
    (Err (Wrapf "failed to create keypair from seed"
            (ErrLib "nkeys: invalid encoded key")), 3%nat).
Proof.
  split; [reflexivity |].
  pose proof (managers_from_seed_agree "SA1" AccountKind (OperatorKind "op" 7)
                0%nat 3%nat eq_refl) as (Hagree & Hok & _).
  pose proof (managers_from_seed_agree "not-a-seed" (OperatorKind "op" 7) AccountKind
                3%nat 0%nat eq_refl) as (_ & _ & Herr).
  split; [exact Hagree |]. split.
  - exact (proj1 (Hok _ eq_refl)).
  - exact (Herr _ eq_refl).
Defined.

(** C7, at an instance: two accounts, in both orders. *)
Lemma preload_rendering_order_independent_witness :
  let a := {| AccountName := "prod"; AccountJWT_AccountID := "A1"; AccountJWT_JWT := "t1" |} in
  let b := {| AccountName := "test"; AccountJWT_AccountID := "A2"; AccountJWT_JWT := "t2" |} in
  [a; b] ≡ₚ [b; a] /\
  map preloadBinding [a; b] ≡ₚ map preloadBinding [b; a] /\
  preloadMapping [a; b] = preloadMapping [b; a].
Proof.
  intros a b.
  assert (Hperm : [a; b] ≡ₚ [b; a]) by apply perm_swap.
  pose proof (preload_rendering_order_independent "op" [a; b] [b; a] Hperm)
    as (_ & _ & _ & Hbindings & Hmapping).
  split; [exact Hperm |]. split; [exact Hbindings |].
  apply Hmapping. simpl. apply NoDup_cons. split; [| apply NoDup_singleton].
  intros Hin. inversion Hin as [| ? ? ? Hin']; inversion Hin'.
Defined.

(** For the same two accounts the bytes do depend on the order. *)
Lemma preload_bytes_follow_the_order :
  let a := {| AccountName := "prod"; AccountJWT_AccountID := "A1"; AccountJWT_JWT := "t1" |} in
  let b := {| AccountName := "test"; AccountJWT_AccountID := "A2"; AccountJWT_JWT := "t2" |} in
  RenderJWTAuthConfWithPreload "op" [a; b] <> RenderJWTAuthConfWithPreload "op" [b; a].
Proof. vm_compute. discriminate. Qed.

(** C10, at an instance: the flat-mode user [pub] with
    [passwordFrom: {generate: false}] in a cluster without secrets. *)
Lemma reconcileTokenUser_empty_password_witness :
  declaresNoPassword (tokenUser undeclared) (world [] [] 0%nat 0) /\
  usernameAvailable (tokenUser undeclared) (world [] [] 0%nat 0) /\
  exists user' w' s,
    reconcileTokenUser (tokenUser undeclared) cfg (world [] [] 0%nat 0)
      = (Ok tt, user', w') /\
    w_secrets w' !! credsKey (tokenUser undeclared) = Some s /\
    index (Secret_Data s) "PASSWORD" = "" /\
    User_SecretRef (User_Status user') =
      {| SecretRef_Name := "pub-user-creds"; SecretRef_Namespace := "ns" |}.
Proof.
  assert (H1 : declaresNoPassword (tokenUser undeclared) (world [] [] 0%nat 0)).
  { eexists. split; [reflexivity |]. split; [reflexivity |]. exact I. }
  assert (H2 : usernameAvailable (tokenUser undeclared) (world [] [] 0%nat 0)).
  { left. reflexivity. }
  split; [exact H1 |]. split; [exact H2 |].
  exact (reconcileTokenUser_empty_password (tokenUser undeclared) cfg
           (world [] [] 0%nat 0) H1 H2).
Defined.

(** C2, on the code: the secret of account [prod] holds the seed [SA1],
    whose public key is [A1]; the status records [A9]. The pass draws a new
    key pair, overwrites the stored seed with [SA5] and sets the status to
    [A5]: the stored seed is discarded. *)
Theorem mismatch_discards_stored_seed :
  let r := reconcileAccount mismatchAccount cfg mismatchWorld in
  accountRecord "prod" mismatchWorld = Some ("iss=O0;sub=A1;conn=c", "SA1") /\
  AccountID (Account_Status mismatchAccount) = "A9" /\
  Account_ExistingSeedSecret (Account_Spec mismatchAccount) = None /\
  r.1.1.1 = Ok tt /\
  accountRecord "prod" r.2 = Some ("iss=O0;sub=A5;conn=c", "SA5") /\
  AccountID (Account_Status r.1.1.2) = "A5" /\
  w_writes r.2 = [ Updated KindSecret ("ns", "prod-account-jwt");
                   Updated KindNatsAuthConfig ("ns", "cfg") ].
Proof. vm_compute. repeat split. Qed.

(** C3, on the code: account [prod] is reconciled with 100 connections,
    then declared with 200; user [svc] is reconciled with one publish
    subject, then declared with two. The next pass over each writes
    nothing and leaves the token of the first pass in place, where a pass
    without a stored record signs the new state. *)
Theorem changed_state_is_not_resigned :
  let r := reconcileAccount (withConn 200 reconciledAccount) reconciledCfg afterFirstPass in
  let u1 := reconcileJWTUser (jwtUser [ "orders.>" ] noUserStatus) reconciledCfg afterFirstPass in
  let u2 := reconcileJWTUser (jwtUser [ "orders.>"; "events.>" ] (User_Status u1.1.2))
              reconciledCfg u1.2 in
  accountRecord "prod" afterFirstPass = Some ("iss=O0;sub=A5;conn=c", "SA5") /\
  r.1.1.1 = Ok tt /\
  w_writes r.2 = [] /\
  accountRecord "prod" r.2 = Some ("iss=O0;sub=A5;conn=c", "SA5") /\
  accountRecord "prod" (reconcileAccount (account "prod" 200 noStatus) cfg freshWorld).2
    = Some ("iss=O0;sub=A5;conn=cc", "SA5") /\
  u1.1.1 = Ok tt /\
  credential (jwtUser [] noUserStatus) "user.jwt" u1.2 = Some "iss=A5;sub=U6;pub=orders.>" /\
  u2.1.1 = Ok tt /\
  w_writes u2.2 = w_writes u1.2 /\
  credential (jwtUser [] noUserStatus) "user.jwt" u2.2 = Some "iss=A5;sub=U6;pub=orders.>" /\
  credential (jwtUser [] noUserStatus) "user.jwt"
    (reconcileJWTUser (jwtUser [ "orders.>"; "events.>" ] noUserStatus)
       reconciledCfg afterFirstPass).2
    = Some "iss=A5;sub=U6;pub=orders.>,events.>".
Proof. vm_compute. repeat split. Qed.

(** C4, on the code: the flat-mode user [pub] with a generated password is
    reconciled twice with the same spec. The second pass draws another
    password and updates the secret with it. *)
Theorem generated_password_is_rotated :
  let t1 := reconcileTokenUser (tokenUser generated) cfg freshWorld in
  let t2 := reconcileTokenUser t1.1.2 cfg t1.2 in
  t1.1.1 = Ok tt /\
  User_Spec t1.1.2 = User_Spec (tokenUser generated) /\
  w_writes t1.2 = [ Created KindSecret ("ns", "pub-user-creds") ] /\
  credential (tokenUser generated) "PASSWORD" t1.2
    = Some "555555555555555555555555555555555555555555555555" /\
  t2.1.1 = Ok tt /\
  w_writes t2.2 = [ Created KindSecret ("ns", "pub-user-creds");
                    Updated KindSecret ("ns", "pub-user-creds") ] /\
  credential (tokenUser generated) "PASSWORD" t2.2
    = Some "666666666666666666666666666666666666666666666666".
Proof. vm_compute. repeat split. Qed.

(** C6, on the code: the only account that references [cfg] has the
    resource name [operator]. The aggregation returns without error and
    the aggregate holds one entry, keyed [operator], with the token of the
    account; the token of the operator is not in it. *)
Theorem account_named_operator_replaces_operator_token :
  let g := reconcileJWTMode cfg operatorNamedWorld in
  g.1.1 = Ok tt /\
  (NewOperatorManager "SO0" "NATS Operator" 2 5%nat).1
    = Ok {| operatorKP := {| kp_PublicKey := Ok "O0"; kp_Seed := Ok "SO0" |};
            operatorJWT := "iss=O0;sub=O0" |} /\
  aggregate g.2 = Some [ ("operator", "iss=O0;sub=A1;conn=c") ].
Proof. vm_compute. repeat split. Qed.

(** The cases of the repository's [TestFormatSubjectList] and
    [TestRenderTokenAuthConf], and scenario C of the specification: the
    flat user [pub] may publish to [events.>] and has no subscribe block. *)
Example formatSubjectList_single :
  formatSubjectList [ "foo.>" ] = Quote "foo.>".
Proof. reflexivity. Qed.

Example formatSubjectList_multiple :
  formatSubjectList [ "foo.>"; "bar.>"; "baz.>" ] =
    "[" +:+ Quote "foo.>" +:+ ", " +:+ Quote "bar.>" +:+ ", " +:+ Quote "baz.>" +:+ "]".
Proof. reflexivity. Qed.

Example RenderTokenAuthConf_pub :
  RenderTokenAuthConf
    [ {| TokenUser_Username := "pub"; TokenUser_Password := "secret";
         TokenUser_Token := "";
         TokenUser_Permissions := Some (permissions [ "events.>" ]) |} ] =
    line "authorization {" +:+
    line "  users = [" +:+
    line "    {" +:+
    line ("      user: " +:+ Quote "pub") +:+
    line ("      password: " +:+ Quote "secret") +:+
    line "      permissions: {" +:+
    line "        publish: {" +:+
    line ("          allow: " +:+ Quote "events.>") +:+
    line "        }" +:+
    line "      }" +:+
    line "    }" +:+
    line "  ]" +:+
    line "}".
Proof. vm_compute. reflexivity. Qed.

Example RenderJWTAuthConfWithPreload_two_accounts :
  RenderJWTAuthConfWithPreload "op"
    [ {| AccountName := "prod"; AccountJWT_AccountID := "A1"; AccountJWT_JWT := "t1" |};
      {| AccountName := "test"; AccountJWT_AccountID := "A2"; AccountJWT_JWT := "t2" |} ] =
    line "operator: op" +:+ newline +:+
    line "resolver_preload: {" +:+
    line ("  " +:+ Quote "A1" +:+ ": " +:+ Quote "t1" +:+ ",") +:+
    line ("  " +:+ Quote "A2" +:+ ": " +:+ Quote "t2") +:+
    line "}".
Proof. vm_compute. reflexivity. Qed.

(** ** The further statements at concrete inputs *)

(** X1, at an instance: the operator manager made from the seed [SO0]. *)
Lemma NewOperatorManager_self_issued_witness :
  let om := {| operatorKP := {| kp_PublicKey := Ok "O0"; kp_Seed := Ok "SO0" |};
               operatorJWT := "O0" |} in
  NewOperatorManager (P := issuerOnly) "SO0" "NATS Operator" 7 3%nat = (Ok om, 3%nat) /\
  exists pub c,
    OperatorManager_GetPublicKey om = Ok pub /\
    jwt_Encode (Platform := issuerOnly) (OperatorC c) (operatorKP om)
      = Ok (OperatorManager_GetJWT om) /\
    oc_Issuer c = pub /\ oc_Name c = "NATS Operator" /\ oc_IssuedAt c = 7 /\
    oc_Subject c = oc_Subject (jwt_NewOperatorClaims (Platform := issuerOnly) pub) /\
    Some (OperatorManager_GetJWT om) = Some pub /\
    (if nonEmpty "SO0"
     then nkeys_FromSeed (Platform := issuerOnly) "SO0" = Ok (operatorKP om) /\ 3%nat = 3%nat
     else nkeys_CreatePair (Platform := issuerOnly) PrefixByteOperator 3%nat
          = (Ok (operatorKP om), 3%nat)).
Proof.
  intros om. split; [reflexivity |].
  apply (NewOperatorManager_self_issued (P := issuerOnly) Some "SO0" "NATS Operator" 7
           3%nat 3%nat om).
  - intros c kp pub t _ Hiss Henc. simpl in Henc. congruence.
  - reflexivity.
Defined.

(** X2, at an instance. *)
Lemma GenerateCredsFile_injective_witness :
  oneLine "iss=A5;sub=U6" = true /\
  GenerateCredsFile "iss=A5;sub=U6" "SU6" = GenerateCredsFile "iss=A5;sub=U6" "SU6" /\
  ("iss=A5;sub=U6" = "iss=A5;sub=U6" /\ "SU6" = "SU6").
Proof.
  split; [reflexivity |]. split; [reflexivity |].
  apply (GenerateCredsFile_injective "iss=A5;sub=U6" "iss=A5;sub=U6" "SU6" "SU6");
    reflexivity.
Defined.

(** X3, at an instance: a username for the resource [pub]. *)
Lemma GenerateUsername_shape_witness :
  GenerateUsername "pub" 3%nat = (Ok "pub-333333333333", 4%nat) /\
  exists b,
    rand_Read 8 3%nat = (Ok b, 4%nat) /\
    let start := if nonEmpty "pub" then "pub" else "user" in
    "pub-333333333333" = start +:+ "-" +:+ substring 0 12 (base64_URLEncode b) /\
    String.length "pub-333333333333" = (String.length start + 13)%nat.
Proof.
  split; [reflexivity |].
  apply (GenerateUsername_shape (P := platform) "pub" "pub-333333333333" 3%nat 4%nat). reflexivity.
Defined.

(** X6, at an instance: two keys of the ConfigMap [ns/nats-config]. *)
Lemma WriteResolverConfig_keys_commute_witness :
  let w := world [] [] 0%nat 0 in
  let write1 := WriteResolverConfig "ns" "nats-config" "auth.conf" "ConfigMap" "a" in
  let write2 := WriteResolverConfig "ns" "nats-config" "resolver.conf" "ConfigMap" "b" in
  "auth.conf" <> "resolver.conf" /\
  targetData "ConfigMap" ("ns", "nats-config") (write2 (write1 w).2).2 =
  targetData "ConfigMap" ("ns", "nats-config") (write1 (write2 w).2).2 /\
  forall data,
    targetData "ConfigMap" ("ns", "nats-config") (write2 (write1 w).2).2 = Some data ->
    data !! "auth.conf" = Some "a" /\ data !! "resolver.conf" = Some "b".
Proof.
  intros w write1 write2.
  assert (Hne : "auth.conf" <> "resolver.conf") by discriminate.
  split; [exact Hne |].
  exact (WriteResolverConfig_keys_commute "ns" "nats-config" "auth.conf" "resolver.conf"
           "ConfigMap" "a" "b" w Hne).
Defined.


(** X11, at an instance: account [prod] declared with the seed of the
    secret [ns/byo]. *)
Lemma reconcileAccount_external_seed_witness :
  let byo := {| SecretRef_Name := "byo"; SecretRef_Namespace := "ns" |} in
  let declared :=
    set_Account_Spec
      {| Account_AuthConfigRef := {| NatsAuthConfigRef_Name := "cfg";
                                     NatsAuthConfigRef_Namespace := "" |};
         Description := "production"; Limits := None;
         Account_ExistingSeedSecret := Some byo |} freshAccount in
  let w := world [ operatorSeed; secret "ns" "byo" [ ("account.seed", "SA7") ] ] [] 5%nat 2 in
  upToDate declared w = false /\
  Account_ExistingSeedSecret (Account_Spec declared) = Some byo /\
  externalSeed byo "account.seed" w = Some "SA7" /\
  let r := reconcileAccount declared cfg w in
  match externalSeed byo "account.seed" w with
  | None => isOk r.1.1.1 = false /\ r.1.1.2 = declared /\ r.2 = w
  | Some seed =>
    r.1.1.1 = Ok tt ->
    exists s', w_secrets r.2 !! accountKey declared = Some s' /\
               Secret_Data s' !! "account.seed" = Some seed
  end.
Proof.
  intros byo declared w.
  assert (H1 : upToDate declared w = false) by (vm_compute; reflexivity).
  assert (H2 : Account_ExistingSeedSecret (Account_Spec declared) = Some byo)
    by reflexivity.
  split; [exact H1 |]. split; [exact H2 |]. split; [vm_compute; reflexivity |].
  exact (reconcileAccount_external_seed (P := platform) declared cfg w byo H1 H2).
Defined.

(** X12, at an instance: a second pass over account [prod]. *)
Lemma reconcileAccount_idempotent_witness :
  let r := reconcileAccount freshAccount cfg freshWorld in
  r = (Ok tt, reconciledAccount, reconciledCfg, r.2) /\
  (forall s', w_secrets r.2 !! accountKey freshAccount = Some s' ->
     nonEmpty (AccountID (Account_Status reconciledAccount)) &&
     nonEmpty (index (Secret_Data s') "account.jwt") &&
     nonEmpty (index (Secret_Data s') "account.seed") = true) /\
  upToDate reconciledAccount r.2 = true /\
  reconcileAccount reconciledAccount reconciledCfg r.2
    = (Ok tt, reconciledAccount, reconciledCfg, r.2).
Proof.
  intros r.
  assert (H1 : r = (Ok tt, reconciledAccount, reconciledCfg, r.2))
    by (vm_compute; reflexivity).
  assert (H2 : forall s', w_secrets r.2 !! accountKey freshAccount = Some s' ->
     nonEmpty (AccountID (Account_Status reconciledAccount)) &&
     nonEmpty (index (Secret_Data s') "account.jwt") &&
     nonEmpty (index (Secret_Data s') "account.seed") = true).
  { intros s' Hs'. vm_compute in Hs'. injection Hs' as <-. vm_compute. reflexivity. }
  split; [exact H1 |]. split; [exact H2 |].
  exact (reconcileAccount_idempotent (P := platform) freshAccount reconciledAccount
           cfg reconciledCfg freshWorld r.2 H1 H2).
Defined.


(** X14, at an instance: user [svc] where account [prod] does not exist. *)
Lemma reconcileJWTUser_account_not_ready_witness :
  let user := jwtUser [ "orders.>" ] noUserStatus in
  (getAccount user freshWorld).1 = Err ErrNotFound /\
  exists e, reconcileJWTUser user cfg freshWorld = (Err e, user, freshWorld).
Proof.
  intros user. split; [vm_compute; reflexivity |].
  exact (reconcileJWTUser_account_not_ready (P := platform) user cfg freshWorld I).
Defined.

(** X15, at an instance: a second pass over user [svc]. *)
Lemma reconcileJWTUser_idempotent_witness :
  let user := jwtUser [ "orders.>" ] noUserStatus in
  let r := reconcileJWTUser user reconciledCfg afterFirstPass in
  r = (Ok tt, r.1.2, r.2) /\
  nonEmpty (User_PublicKey (User_Status r.1.2)) = true /\
  credentialsIssued r.1.2 r.2 = true /\
  forall authConfig', reconcileJWTUser r.1.2 authConfig' r.2 = (Ok tt, r.1.2, r.2).
Proof.
  intros user r.
  assert (H1 : r = (Ok tt, r.1.2, r.2)) by (vm_compute; reflexivity).
  assert (H2 : nonEmpty (User_PublicKey (User_Status r.1.2)) = true)
    by (vm_compute; reflexivity).
  split; [exact H1 |]. split; [exact H2 |].
  exact (reconcileJWTUser_idempotent (P := platform) user r.1.2 reconciledCfg
           afterFirstPass r.2 H1 H2).
Defined.

(** X16, at an instance: the flat-mode user [pub] with the password of the
    secret [ns/pw]. *)
Lemma reconcileTokenUser_password_from_secret_witness :
  let ref := {| SecretRef_Name := "pw"; SecretRef_Namespace := "ns" |} in
  let passwordFrom := {| Generate := false; PasswordSource_SecretRef := Some ref |} in
  let user := tokenUser (Some passwordFrom) in
  let sec := secret "ns" "pw" [ ("password", "hunter2") ] in
  let w := world [ sec ] [] 0%nat 0 in
  nonEmpty (Username (User_Spec user)) = true /\
  w_secrets w !! (SecretRef_Namespace ref, SecretRef_Name ref) = Some sec /\
  exists user' w' s',
    reconcileTokenUser user cfg w = (Ok tt, user', w') /\
    w_secrets w' !! credsKey user = Some s' /\
    index (Secret_Data s') "USERNAME" = Username (User_Spec user) /\
    index (Secret_Data s') "PASSWORD" = index (Secret_Data sec) "password" /\
    w_rng w' = w_rng w /\
    (forall s, w_secrets w !! credsKey user = Some s ->
       Secret_Data s <> ∅ ->
       index (Secret_Data s) "USERNAME" = Username (User_Spec user) ->
       index (Secret_Data s) "PASSWORD" = index (Secret_Data sec) "password" ->
       w' = w).
Proof.
  intros ref passwordFrom user sec w.
  assert (H1 : nonEmpty (Username (User_Spec user)) = true) by reflexivity.
  assert (H2 : w_secrets w !! (SecretRef_Namespace ref, SecretRef_Name ref) = Some sec)
    by (vm_compute; reflexivity).
  split; [exact H1 |]. split; [exact H2 |].
  exact (reconcileTokenUser_password_from_secret (P := platform) user cfg w passwordFrom
           ref sec H1 eq_refl eq_refl eq_refl H2).
Defined.

(** X17, at an instance: the first call for [ns/cfg] in a cluster without
    secrets. *)
Lemma operator_seed_is_stable_witness :
  let w := world [] [] 5%nat 2 in
  let r := getOrCreateOperatorSeed cfg w in
  r = (Ok "SO5", r.2) /\
  (forall k s, w_secrets w !! k = Some s -> w_secrets r.2 !! k = Some s) /\
  (forall w2 w3 seed2,
     w_secrets w2 = w_secrets r.2 ->
     getOrCreateOperatorSeed cfg w2 = (Ok seed2, w3) ->
     seed2 = "SO5" /\ w_secrets w3 = w_secrets w2) /\
  (forall seed', (getOperatorSeed cfg r.2).1 = Ok seed' -> seed' = "SO5") /\
  (nonEmpty "SO5" = true -> (getOperatorSeed cfg r.2).1 = Ok "SO5").
Proof.
  intros w r.
  assert (H1 : r = (Ok "SO5", r.2)) by (vm_compute; reflexivity).
  split; [exact H1 |].
  exact (operator_seed_is_stable (P := platform) cfg w r.2 "SO5" H1).
Defined.

(** X18, at an instance: a JWT-mode pass over [ns/cfg]. *)
Lemma reconcileJWTMode_publishes_operator_key_witness :
  let r := reconcileJWTMode cfg freshWorld in
  r = (Ok tt, r.1.2, r.2) /\
  exists (jwtConfig : JWTConfig) (seed : string) (om : OperatorManager) (rng rng' : Rng),
    let pub := OperatorPubKey (AuthConfig_Status r.1.2) in
    JWT (AuthConfig_Spec cfg) = Some jwtConfig /\
    (getOrCreateOperatorSeed cfg freshWorld).1 = Ok seed /\
    NewOperatorManager seed (operatorNameOf jwtConfig) (w_now freshWorld) rng
      = (Ok om, rng') /\
    OperatorManager_GetPublicKey om = Ok pub /\
    (nonEmpty seed = true ->
     exists kp, nkeys_FromSeed seed = Ok kp /\ kp_PublicKey kp = Ok pub) /\
    r.1.2 =
      set_AuthConfig_Status {| OperatorPubKey := pub; ResolverReady := true |} cfg.
Proof.
  intros r.
  assert (H1 : r = (Ok tt, r.1.2, r.2)) by (vm_compute; reflexivity).
  split; [exact H1 |].
  exact (reconcileJWTMode_publishes_operator_key (P := platform) cfg r.1.2 freshWorld
           r.2 H1).
Defined.

(** X20, at an instance: a flat-mode configuration that writes to the
    ConfigMap [ns/nats-config], and the user [pub]. *)
Lemma reconcileTokenMode_entry_stays_empty_witness :
  let flat :=
    {| AuthConfig_Name := "flat"; AuthConfig_Namespace := "ns";
       AuthConfig_Annotations := ∅;
       AuthConfig_Spec :=
         {| NatsURL := "nats://nats:4222"; Mode := AuthModeToken;
            ServerAuthConfig :=
              {| ServerAuthConfig_Name := "nats-config";
                 ServerAuthConfig_Namespace := "ns";
                 ServerAuthConfig_Key := "auth.conf";
                 ServerAuthConfig_Type := "ConfigMap" |};
            JWT := None |};
       AuthConfig_Status := {| OperatorPubKey := ""; ResolverReady := false |} |} in
  let user := tokenUser generated in
  let w := world [] [] 0%nat 0 in
  let ref := ServerAuthConfig (AuthConfig_Spec flat) in
  let target := targetData (ServerAuthConfig_Type ref) (aggregateKey flat) in
  let r := reconcileTokenMode flat w in
  (ServerAuthConfig_Type ref = "Secret" -> credsKey user <> aggregateKey flat) /\
  r.1.1 = Ok tt /\
  ResolverReady (AuthConfig_Status r.1.2) = true /\
  target r.2 = Some (<[ ServerAuthConfig_Key ref := "" ]> (default ∅ (target w))) /\
  target (reconcileTokenUser user flat r.2).2 = target r.2.
Proof.
  intros flat user w ref target r.
  assert (H1 : ServerAuthConfig_Type ref = "Secret" -> credsKey user <> aggregateKey flat)
    by (intros _; discriminate).
  split; [exact H1 |].
  exact (reconcileTokenMode_entry_stays_empty (P := platform) flat user w H1).
Defined.

(** X21, at an instance: a report whose [Ready] condition is false takes a
    [Ready] condition that is true, at time 7. *)
Lemma updateCondition_one_per_type_witness :
  let report :=
    {| Conditions := [ condition "Ready" ConditionFalse "ReconcileError" (Literal "x") ];
       ObservedGeneration := 1; LastReconciled := None |} in
  let c := condition "Ready" ConditionTrue "ReconcileSuccess" (Literal "ok") in
  NoDup (map Condition_Type (Conditions report)) /\
  let report' := updateCondition 7 report c in
  let stamped := set_LastTransitionTime 7 c in
  let types := map Condition_Type (Conditions report) in
  stamped ∈ Conditions report' /\
  filter (fun x => Condition_Type x <> Condition_Type c) (Conditions report') =
    filter (fun x => Condition_Type x <> Condition_Type c) (Conditions report) /\
  map Condition_Type (Conditions report') =
    (if bool_decide (Condition_Type c ∈ types) then types
     else types ++ [ Condition_Type c ])%list /\
  (NoDup types ->
   NoDup (map Condition_Type (Conditions report')) /\
   forall x, x ∈ Conditions report' -> Condition_Type x = Condition_Type c ->
             x = stamped) /\
  ObservedGeneration report' = ObservedGeneration report /\
  LastReconciled report' = LastReconciled report.
Proof.
  intros report c.
  split; [apply NoDup_singleton |].
  exact (updateCondition_one_per_type 7 report c).
Defined.

(** X26, at an instance: the account [prod] under [ns/cfg] without its
    [jwt] block. *)
Lemma reconcileAccount_without_jwt_block_witness :
  let authConfig := EntryScenario.cfgWith AuthModeJWT None in
  (JWT (AuthConfig_Spec authConfig) = None /\
   upToDate freshAccount freshWorld = false) /\
  let r := reconcileAccount freshAccount authConfig freshWorld in
  (exists e, r.1.1.1 = Err e /\
     (unwinds e = true \/
      exists cause msg,
        e = Wrapf msg cause /\
        msg ∈ [ "failed to get account seed"; "failed to create account manager";
                "failed to get account public key";
                "failed to create account claims" ])) /\
  r.1.1.2 = freshAccount /\
  w_secrets r.2 = w_secrets freshWorld /\
  w_authconfigs r.2 = w_authconfigs freshWorld /\
  w_writes r.2 = w_writes freshWorld.
Proof.
  intros authConfig.
  assert (H1 : JWT (AuthConfig_Spec authConfig) = None) by reflexivity.
  assert (H2 : upToDate freshAccount freshWorld = false) by (vm_compute; reflexivity).
  split; [split; assumption |].
  exact (reconcileAccount_without_jwt_block (P := platform) freshAccount authConfig
           freshWorld H1 H2).
Defined.

Section AccountEntryWitnesses.
Import NatsAccountReconciler EntryScenario.

(** X22, at an instance: the account [ns/prod] under a configuration in
    flat mode. *)
Lemma Reconcile_account_rejects_flat_mode_witness :
  let req := ("ns", "prod") in
  let authConfig := cfgWith AuthModeToken None in
  let c := cluster authConfig ∅ ∅ in
  let account := accountObject zero.1 in
  (Get_AccountObject req c = Ok account /\
   DeletionTimestamp (ao_meta account) = None /\
   (getAuthConfig (ao_account account) (c_world c)).1 = Ok authConfig /\
   Mode (AuthConfig_Spec authConfig) = AuthModeToken) /\
  let err := Errorf "NatsAuthConfig must be in JWT or mixed mode for NatsAccount" in
  let r := Reconcile req c in
  r.1 = (after Minute, Err err) /\
  c_world r.2 = c_world c /\
  Get_AccountObject req r.2 =
    Ok {| ao_meta := AddFinalizer (ao_meta account) natsAccountFinalizer;
          ao_account := ao_account account;
          ao_report :=
            updateCondition (w_now (c_world c)) (ao_report account)
              (condition "Ready" ConditionFalse "InvalidAuthMode" (ErrorText err)) |}.
Proof.
  intros req authConfig c account.
  assert (H1 : Get_AccountObject req c = Ok account) by (vm_compute; reflexivity).
  assert (H2 : DeletionTimestamp (ao_meta account) = None) by reflexivity.
  assert (H3 : (getAuthConfig (ao_account account) (c_world c)).1 = Ok authConfig)
    by (vm_compute; reflexivity).
  assert (H4 : Mode (AuthConfig_Spec authConfig) = AuthModeToken) by reflexivity.
  split; [repeat split; assumption |].
  exact (Reconcile_account_rejects_flat_mode (P := platform) req c account authConfig
           H1 H2 H3 H4).
Defined.

(** X23, at an instance: the first pass over the account [ns/prod]. *)
Lemma Reconcile_account_success_witness :
  let req := ("ns", "prod") in
  let c := cluster cfg ∅ ∅ in
  let account := accountObject zero.1 in
  (Get_AccountObject req c = Ok account /\
   DeletionTimestamp (ao_meta account) = None /\
   (Reconcile req c).1.2 = Ok tt) /\
  exists (account' : AccountObject) (s' : Secret),
    let c' := (Reconcile req c).2 in
    let now := w_now (c_world c) in
    (Reconcile req c).1.1 = after (5 * Minute) /\
    Get_AccountObject req c' = Ok account' /\
    ao_meta account' = AddFinalizer (ao_meta account) natsAccountFinalizer /\
    Account_Spec (ao_account account') = Account_Spec (ao_account account) /\
    ObservedGeneration (ao_report account') = Generation (ao_meta account) /\
    LastReconciled (ao_report account') = Some now /\
    set_LastTransitionTime now
      (condition "Ready" ConditionTrue "ReconcileSuccess"
         (Literal "NatsAccount reconciled successfully"))
      ∈ Conditions (ao_report account') /\
    w_secrets (c_world c') !! accountKey (ao_account account) = Some s' /\
    (nonEmpty (AccountID (Account_Status (ao_account account'))) = true ->
     nonEmpty (index (Secret_Data s') "account.jwt") = true ->
     nonEmpty (index (Secret_Data s') "account.seed") = true ->
     matchesStatus (ao_account account') s' = true).
Proof.
  intros req c account.
  assert (H1 : Get_AccountObject req c = Ok account) by (vm_compute; reflexivity).
  assert (H2 : DeletionTimestamp (ao_meta account) = None) by reflexivity.
  assert (H3 : (Reconcile req c).1.2 = Ok tt) by (vm_compute; reflexivity).
  split; [repeat split; assumption |].
  exact (Reconcile_account_success (P := platform) req c account H1 H2 H3).
Defined.

(** X24, at an instance: the account [ns/prod], deleted at time 1, with
    the finalizer of the controller only. *)
Lemma Reconcile_account_deletion_witness :
  let req := ("ns", "prod") in
  let meta := deleting [ natsAccountFinalizer ] in
  let c := cluster cfg {[ req := (meta, zero.2) ]} ∅ in
  let account := accountObject meta in
  (Get_AccountObject req c = Ok account /\
   DeletionTimestamp (ao_meta account) = Some 1) /\
  let r := Reconcile req c in
  let others :=
    filter (fun f => f <> natsAccountFinalizer) (Finalizers (ao_meta account)) in
  r.1 = (noRequeue, Ok tt) /\
  w_secrets (c_world r.2) = w_secrets (c_world c) /\
  if ContainsFinalizer (ao_meta account) natsAccountFinalizer then
    Get_AccountObject req r.2 =
      match others with
      | [] => Err ErrNotFound
      | _ :: _ => Ok (set_ao_meta (set_Finalizers others (ao_meta account)) account)
      end /\
    forall authConfig,
      (getAuthConfig (ao_account account) (c_world c)).1 = Ok authConfig ->
      exists stored,
        w_authconfigs (c_world r.2) !! authConfigKey authConfig = Some stored /\
        AuthConfig_Annotations stored !! "nats.jradikk/last-account-update"
          = Some (time_FormatRFC3339 (w_now (c_world c)))
  else r.2 = c.
Proof.
  intros req meta c account.
  assert (H1 : Get_AccountObject req c = Ok account) by (vm_compute; reflexivity).
  assert (H2 : DeletionTimestamp (ao_meta account) = Some 1) by reflexivity.
  split; [split; assumption |].
  exact (Reconcile_account_deletion (P := platform) req c account 1 H1 H2).
Defined.

End AccountEntryWitnesses.

Section AuthConfigEntryWitnesses.
Import NatsAuthConfigReconciler EntryScenario.

(** X25, at an instance: the configuration [ns/cfg] in JWT mode without
    its [jwt] block. *)
Lemma Reconcile_authConfig_invalid_spec_witness :
  let req := ("ns", "cfg") in
  let c := cluster (cfgWith AuthModeJWT None) ∅ ∅ in
  let authConfig :=
    {| co_meta := zero.1; co_authConfig := cfgWith AuthModeJWT None;
       co_report := zero.2 |} in
  (Get_AuthConfigObject req c = Ok authConfig /\
   DeletionTimestamp (co_meta authConfig) = None /\
   Mode (AuthConfig_Spec (co_authConfig authConfig)) <> AuthModeToken /\
   JWT (AuthConfig_Spec (co_authConfig authConfig)) = None) /\
  let err := Errorf "JWT configuration is required for JWT or mixed mode" in
  let r := Reconcile req c in
  r.1 = (after Minute, Ok tt) /\
  Get_AuthConfigObject req r.2 =
    Ok {| co_meta := AddFinalizer (co_meta authConfig) natsAuthConfigFinalizer;
          co_authConfig := co_authConfig authConfig;
          co_report :=
            updateCondition (w_now (c_world c)) (co_report authConfig)
              (condition "Ready" ConditionFalse "InvalidSpec" (ErrorText err)) |} /\
  frame [] [ req ] (c_world c) (c_world r.2) /\
  w_rng (c_world r.2) = w_rng (c_world c).
Proof.
  intros req c authConfig.
  assert (H1 : Get_AuthConfigObject req c = Ok authConfig) by (vm_compute; reflexivity).
  assert (H2 : DeletionTimestamp (co_meta authConfig) = None) by reflexivity.
  assert (H3 : Mode (AuthConfig_Spec (co_authConfig authConfig)) <> AuthModeToken)
    by discriminate.
  assert (H4 : JWT (AuthConfig_Spec (co_authConfig authConfig)) = None) by reflexivity.
  split; [repeat split; assumption |].
  exact (Reconcile_authConfig_invalid_spec (P := platform) req c authConfig H1 H2 H3 H4).
Defined.

(** X30, at an instance: a pass over the configuration [ns/cfg] in JWT
    mode. *)
Lemma Reconcile_authConfig_dates_every_pass_witness :
  let req := ("ns", "cfg") in
  let c := cluster cfg ∅ ∅ in
  let authConfig :=
    {| co_meta := zero.1; co_authConfig := cfg; co_report := zero.2 |} in
  (Get_AuthConfigObject req c = Ok authConfig /\
   DeletionTimestamp (co_meta authConfig) = None /\
   validateSpec (co_authConfig authConfig) = Ok tt /\
   (forall e, (Reconcile req c).1.2 = Err e -> unwinds e = false)) /\
  exists authConfig' : AuthConfigObject,
    let r := Reconcile req c in
    let now := w_now (c_world c) in
    Get_AuthConfigObject req r.2 = Ok authConfig' /\
    co_meta authConfig' = AddFinalizer (co_meta authConfig) natsAuthConfigFinalizer /\
    AuthConfig_Spec (co_authConfig authConfig')
      = AuthConfig_Spec (co_authConfig authConfig) /\
    ObservedGeneration (co_report authConfig') = Generation (co_meta authConfig) /\
    LastReconciled (co_report authConfig') = Some now /\
    match r.1.2 with
    | Ok _ =>
      r.1.1 = after (5 * Minute) /\
      ResolverReady (AuthConfig_Status (co_authConfig authConfig')) = true /\
      set_LastTransitionTime now
        (condition "Ready" ConditionTrue "ReconcileSuccess"
           (Literal "NatsAuthConfig reconciled successfully"))
        ∈ Conditions (co_report authConfig')
    | Err e =>
      r.1.1 = after Minute /\
      AuthConfig_Status (co_authConfig authConfig')
        = AuthConfig_Status (co_authConfig authConfig) /\
      set_LastTransitionTime now
        (condition "Ready" ConditionFalse "ReconcileError" (ErrorText e))
        ∈ Conditions (co_report authConfig')
    end.
Proof.
  intros req c authConfig.
  assert (H1 : Get_AuthConfigObject req c = Ok authConfig) by (vm_compute; reflexivity).
  assert (H2 : DeletionTimestamp (co_meta authConfig) = None) by reflexivity.
  assert (H3 : validateSpec (co_authConfig authConfig) = Ok tt) by reflexivity.
  assert (H4 : forall e, (Reconcile req c).1.2 = Err e -> unwinds e = false).
  { intros e He. vm_compute in He. discriminate. }
  split; [repeat split; assumption |].
  exact (Reconcile_authConfig_dates_every_pass (P := platform) req c authConfig
           H1 H2 H3 H4).
Defined.

End AuthConfigEntryWitnesses.

Section UserEntryWitnesses.
Import NatsUserReconciler EntryScenario.

(** X27, at an instance: the user [ns/svc] with [authType] [inherit] under
    [ns/cfg] in mixed mode. *)
Lemma Reconcile_user_inherits_mixed_witness :
  let req := ("ns", "svc") in
  let authConfig := cfgWith AuthModeMixed (JWT (AuthConfig_Spec cfg)) in
  let user := userObject zero.1 (userOfType UserAuthTypeInherit) in
  let c := cluster authConfig ∅ {[ req := user ]} in
  (Get_UserObject req c = Ok user /\
   DeletionTimestamp (uo_meta user) = None /\
   AuthType (User_Spec (uo_user user)) = UserAuthTypeInherit /\
   (getAuthConfig (uo_user user) (c_world c)).1 = Ok authConfig /\
   Mode (AuthConfig_Spec authConfig) = AuthModeMixed) /\
  let err := Errorf "unsupported auth type: mixed" in
  let now := w_now (c_world c) in
  let r := Reconcile req c in
  r.1 = (after Minute, Err err) /\
  c_world r.2 = c_world c /\
  Get_UserObject req r.2 =
    Ok {| uo_meta := AddFinalizer (uo_meta user) natsUserFinalizer;
          uo_user := uo_user user;
          uo_state := UserStateError;
          uo_reason := ErrorText err;
          uo_report :=
            updateCondition now
              (set_ObservedGeneration (Generation (uo_meta user))
                 (set_LastReconciled (Some now) (uo_report user)))
              (condition "Ready" ConditionFalse "ReconcileError" (ErrorText err)) |}.
Proof.
  intros req authConfig user c.
  assert (H1 : Get_UserObject req c = Ok user) by (vm_compute; reflexivity).
  assert (H2 : DeletionTimestamp (uo_meta user) = None) by reflexivity.
  assert (H3 : AuthType (User_Spec (uo_user user)) = UserAuthTypeInherit) by reflexivity.
  assert (H4 : (getAuthConfig (uo_user user) (c_world c)).1 = Ok authConfig)
    by (vm_compute; reflexivity).
  assert (H5 : Mode (AuthConfig_Spec authConfig) = AuthModeMixed) by reflexivity.
  split; [repeat split; assumption |].
  exact (Reconcile_user_inherits_mixed (P := platform) req c user authConfig
           H1 H2 H3 H4 H5).
Defined.

(** X28, at an instance: a pass over the user [ns/svc] that fails, the
    account [prod] not being reconciled yet. *)
Lemma Reconcile_user_dates_every_pass_witness :
  let req := ("ns", "svc") in
  let user := userObject zero.1 (userOfType UserAuthTypeJWT) in
  let c := cluster cfg ∅ {[ req := user ]} in
  (Get_UserObject req c = Ok user /\
   DeletionTimestamp (uo_meta user) = None /\
   (getAuthConfig (uo_user user) (c_world c)).1 = Ok cfg /\
   (forall e, (Reconcile req c).1.2 = Err e -> unwinds e = false)) /\
  exists user' : UserObject,
    let r := Reconcile req c in
    let now := w_now (c_world c) in
    Get_UserObject req r.2 = Ok user' /\
    uo_meta user' = AddFinalizer (uo_meta user) natsUserFinalizer /\
    User_Spec (uo_user user') = User_Spec (uo_user user) /\
    ObservedGeneration (uo_report user') = Generation (uo_meta user) /\
    LastReconciled (uo_report user') = Some now /\
    match r.1.2 with
    | Ok _ =>
      r.1.1 = after (5 * Minute) /\
      uo_state user' = UserStateReady /\
      uo_reason user' = Literal "User reconciled successfully" /\
      set_LastTransitionTime now
        (condition "Ready" ConditionTrue "ReconcileSuccess"
           (Literal "NatsUser reconciled successfully"))
        ∈ Conditions (uo_report user')
    | Err e =>
      r.1.1 = after Minute /\
      uo_state user' = UserStateError /\
      uo_reason user' = ErrorText e /\
      set_LastTransitionTime now
        (condition "Ready" ConditionFalse "ReconcileError" (ErrorText e))
        ∈ Conditions (uo_report user')
    end.
Proof.
  intros req user c.
  assert (H1 : Get_UserObject req c = Ok user) by (vm_compute; reflexivity).
  assert (H2 : DeletionTimestamp (uo_meta user) = None) by reflexivity.
  assert (H3 : (getAuthConfig (uo_user user) (c_world c)).1 = Ok cfg)
    by (vm_compute; reflexivity).
  assert (H4 : forall e, (Reconcile req c).1.2 = Err e -> unwinds e = false).
  { intros e He. vm_compute in He. injection He as <-. reflexivity. }
  split; [repeat split; assumption |].
  exact (Reconcile_user_dates_every_pass (P := platform) req c user cfg H1 H2 H3 H4).
Defined.

(** X29, at an instance: the user [ns/svc], deleted at time 1, with the
    finalizer of the controller and one of another. *)
Lemma Reconcile_user_deletion_witness :
  let req := ("ns", "svc") in
  let user :=
    userObject (deleting [ natsUserFinalizer; "example.com/audit" ])
      (userOfType UserAuthTypeJWT) in
  let c := cluster cfg ∅ {[ req := user ]} in
  (Get_UserObject req c = Ok user /\
   DeletionTimestamp (uo_meta user) = Some 1) /\
  let r := Reconcile req c in
  let others :=
    filter (fun f => f <> natsUserFinalizer) (Finalizers (uo_meta user)) in
  r.1 = (noRequeue, Ok tt) /\
  c_world r.2 = c_world c /\
  c_accounts r.2 = c_accounts c /\
  c_authconfigs r.2 = c_authconfigs c /\
  if ContainsFinalizer (uo_meta user) natsUserFinalizer then
    Get_UserObject req r.2 =
      match others with
      | [] => Err ErrNotFound
      | _ :: _ => Ok (set_uo_meta (set_Finalizers others (uo_meta user)) user)
      end
  else r.2 = c.
Proof.
  intros req user c.
  assert (H1 : Get_UserObject req c = Ok user) by (vm_compute; reflexivity).
  assert (H2 : DeletionTimestamp (uo_meta user) = Some 1) by reflexivity.
  split; [split; assumption |].
  exact (Reconcile_user_deletion (P := platform) req c user 1 H1 H2).
Defined.

End UserEntryWitnesses.
